(** * User flow analysis: session grouping, flow findings and anomaly signals

    A shallow embedding of [sources/user_flow_analyzer.py] (class
    [UserFlowAnalyzer]) and the properties of its analysis pipeline.

    Conventions of the embedding.
    - A Python [str] is a [string]; [str.lower] is modelled on ASCII letters.
    - A Python [dict] and a [Counter] keep their keys in insertion order and
      the code iterates over them, so they are association lists in
      insertion order.
    - A Python [set] has no specified iteration order: the order in which a
      set is iterated is an explicit argument of the functions that do so.
    - [float] arithmetic is modelled by exact rational arithmetic ([Q]);
      the rounding of floating-point operations is not modelled, and the
      [:.1f] formatting of a float is an explicit argument.
    - An uncaught exception is the result [None] of an [option]: a function
      that can raise returns an [option], and [None] is passed on by its
      callers as Python passes the exception on. *)

From Stdlib Require Import ZArith QArith List String Ascii Bool Lia.
From Stdlib Require Import Permutation Sorted DecimalString OrderedTypeEx.
Import ListNotations.
Open Scope string_scope.

(** ** Python string primitives *)

Module Py.

Definition lower_ascii (c : ascii) : ascii :=
  let n := nat_of_ascii c in
  if (65 <=? n)%nat && (n <=? 90)%nat then ascii_of_nat (n + 32) else c.

(** [s.lower()] *)
Fixpoint lower (s : string) : string :=
  match s with
  | EmptyString => EmptyString
  | String c s' => String (lower_ascii c) (lower s')
  end.

(** [s.startswith(p)] *)
Fixpoint startswith (p s : string) : bool :=
  match p, s with
  | EmptyString, _ => true
  | String _ _, EmptyString => false
  | String a p', String b s' => Ascii.eqb a b && startswith p' s'
  end.

(** [sub in s] *)
Fixpoint contains (sub s : string) : bool :=
  startswith sub s ||
  match s with
  | EmptyString => false
  | String _ s' => contains sub s'
  end.

(** [d.get(key, default)] on an optional field *)
Definition get {A} (field : option A) (default : A) : A :=
  match field with
  | Some v => v
  | None => default
  end.

(** [s.replace(a, b)] for a one-character [a] *)
Fixpoint replace (a : ascii) (b : string) (s : string) : string :=
  match s with
  | EmptyString => EmptyString
  | String c s' =>
      if Ascii.eqb c a then b ++ replace a b s' else String c (replace a b s')
  end.

(** [l.append(x)] *)
Definition append {A} (l : list A) (x : A) : list A := (l ++ [x])%list.

(** [sep.join(l)] *)
Fixpoint join (sep : string) (l : list string) : string :=
  match l with
  | [] => EmptyString
  | [x] => x
  | x :: rest => x ++ sep ++ join sep rest
  end.

End Py.

(** [sub] occurs in [s]: the meaning of Python's [sub in s]. *)
Definition occurs_in (sub s : string) : Prop :=
  exists pre post, s = pre ++ sub ++ post.

(** ** Events

    The value of an optional key of a record: the key is absent, it holds a
    string, or it holds another JSON value ([null], a number, a list, ...).
    Validation does not look at the optional keys, so all three reach the
    analyses. *)

Inductive Optional :=
| Absent
| Present (s : string)
| NonString.

(** [event.get(key, default)] where the code goes on with a string: [None]
    when the key holds a value that is not a string. *)
Definition get_str (field : Optional) (default : string) : option string :=
  match field with
  | Absent => Some default
  | Present s => Some s
  | NonString => None
  end.

(** [event.get(key, '').lower()]; [None] is the [AttributeError] raised by
    a value that is not a string, which has no [lower]. *)
Definition get_lower (field : Optional) : option string :=
  option_map Py.lower (get_str field "").

(** One validated record of the input.  The four required keys are always
    present after validation and hold strings; [css] and [text] are the
    optional keys. *)

Record Event := mkEvent {
  user_id : string;
  session_id : string;
  event_time : string;
  path : string;
  css : Optional;
  text : Optional
}.

(** ** Checkout detection ([_is_successful_checkout]) *)

Definition checkout_events_of (events : list Event) : list Event :=
  filter (fun event => path event =? "/checkout") events.

(** The second loop: the two [lower] calls, which raise on a value that is
    not a string, then [continue] on a failure indicator, [return True] on
    the success indicator, [return False] when the loop runs out. *)
Fixpoint check_checkout_events (checkout_events : list Event) : option bool :=
  match checkout_events with
  | [] => Some false
  | checkout_event :: rest =>
      match get_lower (css checkout_event),
            get_lower (text checkout_event) with
      | Some css, Some text =>
          if Py.contains "error" css || Py.contains "error" text then
            check_checkout_events rest
          else if Py.contains "cancel" css || Py.contains "cancel" text then
            check_checkout_events rest
          else if Py.contains "place order" text then Some true
          else check_checkout_events rest
      | _, _ => None
      end
  end.

Definition _is_successful_checkout (events : list Event) : option bool :=
  let checkout_events := checkout_events_of events in
  match checkout_events with
  | [] => Some false
  | _ :: _ => check_checkout_events checkout_events
  end.

(** The optional keys [css] and [text] of the event are absent or hold
    strings. *)
Definition readable (e : Event) : bool :=
  match get_lower (css e), get_lower (text e) with
  | Some _, Some _ => true
  | _, _ => false
  end.

(** [a or b] on two outcomes: [b] is evaluated only when [a] returns
    [False], and an exception of [a] is passed on. *)
Definition or_else (a b : option bool) : option bool :=
  match a with
  | Some false => b
  | _ => a
  end.

(** The qualifying checkout event of the specification: a [/checkout] event
    whose [css] and [text], absent or strings, lower-cased and with an
    absent key read as the empty string, hold no failure indicator, and
    whose [text] holds the success indicator. *)
Definition qualifying_checkout (e : Event) : Prop :=
  path e = "/checkout" /\
  exists c t,
    get_lower (css e) = Some c /\ get_lower (text e) = Some t /\
    ~ occurs_in "error" c /\
    ~ occurs_in "error" t /\
    ~ occurs_in "cancel" c /\
    ~ occurs_in "cancel" t /\
    occurs_in "place order" t.

(** ** Timestamps ([datetime.fromisoformat] and datetime subtraction)

    The library function is modelled on the grammar of its reference
    implementation, [YYYY-MM-DD[*HH[:MM[:SS[.fff[fff]]]][+HH:MM[:SS[.ffffff]]]]],
    with digits only in the numeric fields.  A [datetime] is its wall-clock
    time in microseconds (counted from 1970-01-01T00:00:00) and, when the
    string carried one, its UTC offset in microseconds. *)

Module DT.

Open Scope Z_scope.

Record datetime := mkDT {
  wall_us : Z;
  utcoffset : option Z
}.

Definition digit (c : ascii) : option Z :=
  let n := Z.of_nat (nat_of_ascii c) in
  if (48 <=? n) && (n <=? 57) then Some (n - 48) else None.

(** [int(s)] on a string of decimal digits *)
Fixpoint int_of (acc : Z) (l : list ascii) : option Z :=
  match l with
  | [] => Some acc
  | c :: l' =>
      match digit c with
      | Some d => int_of (10 * acc + d) l'
      | None => None
      end
  end.

Definition int (l : list ascii) : option Z :=
  match l with
  | [] => None
  | _ => int_of 0 l
  end.

Definition is_leap (y : Z) : bool :=
  (y mod 4 =? 0) && (negb (y mod 100 =? 0) || (y mod 400 =? 0)).

Definition days_in_month (y m : Z) : Z :=
  if m =? 2 then (if is_leap y then 29 else 28)
  else if (m =? 4) || (m =? 6) || (m =? 9) || (m =? 11) then 30
  else 31.

(** Days from 1970-01-01 to the given proleptic Gregorian date. *)
Definition days_from_civil (y m d : Z) : Z :=
  let y' := if m <=? 2 then y - 1 else y in
  let era := y' / 400 in
  let yoe := y' - era * 400 in
  let mp := if 2 <? m then m - 3 else m + 9 in
  let doy := (153 * mp + 2) / 5 + d - 1 in
  let doe := yoe * 365 + yoe / 4 - yoe / 100 + doy in
  era * 146097 + doe - 719468.

(** [YYYY-MM-DD] *)
Definition parse_isoformat_date (l : list ascii) : option Z :=
  match l with
  | [y1; y2; y3; y4; "-"%char; m1; m2; "-"%char; d1; d2] =>
      match int [y1; y2; y3; y4], int [m1; m2], int [d1; d2] with
      | Some y, Some m, Some d =>
          if (1 <=? y) && (1 <=? m) && (m <=? 12) &&
             (1 <=? d) && (d <=? days_in_month y m)
          then Some (days_from_civil y m d)
          else None
      | _, _, _ => None
      end
  | _ => None
  end.

(** The fraction after the seconds: nothing, or a dot and 3 or 6 digits. *)
Definition parse_ff (l : list ascii) : option Z :=
  match l with
  | [] => Some 0
  | "."%char :: ds =>
      match ds with
      | [_; _; _] => option_map (fun v => v * 1000) (int ds)
      | [_; _; _; _; _; _] => int ds
      | _ => None
      end
  | _ => None
  end.

(** [HH[:MM[:SS[.fff[fff]]]]] as hours, minutes, seconds, microseconds *)
Definition parse_hh_mm_ss_ff (l : list ascii) : option (Z * Z * Z * Z) :=
  match l with
  | [h1; h2] =>
      option_map (fun h => (h, 0, 0, 0)) (int [h1; h2])
  | [h1; h2; ":"%char; m1; m2] =>
      match int [h1; h2], int [m1; m2] with
      | Some h, Some m => Some (h, m, 0, 0)
      | _, _ => None
      end
  | h1 :: h2 :: ":"%char :: m1 :: m2 :: ":"%char :: s1 :: s2 :: frac =>
      match int [h1; h2], int [m1; m2], int [s1; s2], parse_ff frac with
      | Some h, Some m, Some s, Some us => Some (h, m, s, us)
      | _, _, _, _ => None
      end
  | _ => None
  end.

(** Splits a time string at its first ['-'], or else its first ['+']. *)
Fixpoint split_at (sign : ascii) (l : list ascii) : option (list ascii * list ascii) :=
  match l with
  | [] => None
  | c :: l' =>
      if Ascii.eqb c sign then Some ([], l')
      else option_map (fun p => (c :: fst p, snd p)) (split_at sign l')
  end.

Definition micros (h m s us : Z) : Z :=
  ((h * 3600 + m * 60 + s) * 1000000) + us.

Definition parse_isoformat_time (l : list ascii) : option (Z * option Z) :=
  let clock timestr :=
    match parse_hh_mm_ss_ff timestr with
    | Some (h, m, s, us) =>
        if (h <=? 23) && (m <=? 59) && (s <=? 59) then Some (micros h m s us)
        else None
    | None => None
    end in
  let zone sign tzstr :=
    let n := Z.of_nat (List.length tzstr) in
    if (n =? 5) || (n =? 8) || (n =? 15) then
      match parse_hh_mm_ss_ff tzstr with
      | Some (h, m, s, us) =>
          let off := micros h m s us in
          if off <? 86400000000 then Some (sign * off) else None
      | None => None
      end
    else None in
  let with_zone sign timestr tzstr :=
    match clock timestr, zone sign tzstr with
    | Some t, Some off => Some (t, Some off)
    | _, _ => None
    end in
  match split_at "-"%char l with
  | Some (timestr, tzstr) => with_zone (-1) timestr tzstr
  | None =>
      match split_at "+"%char l with
      | Some (timestr, tzstr) => with_zone 1 timestr tzstr
      | None => option_map (fun t => (t, None)) (clock l)
      end
  end.

(** [datetime.fromisoformat(s)]; [None] is [ValueError]. *)
Definition fromisoformat (s : string) : option datetime :=
  let l := list_ascii_of_string s in
  match parse_isoformat_date (firstn 10 l) with
  | None => None
  | Some days =>
      match skipn 10 l with
      | [] => Some (mkDT (days * 86400000000) None)
      | _sep :: tstr =>
          match parse_isoformat_time tstr with
          | Some (t, off) => Some (mkDT (days * 86400000000 + t) off)
          | None => None
          end
      end
  end.

(** [(a - b)] in microseconds; [None] is the [TypeError] of subtracting an
    offset-naive and an offset-aware datetime. *)
Definition sub (a b : datetime) : option Z :=
  match utcoffset a, utcoffset b with
  | None, None => Some (wall_us a - wall_us b)
  | Some oa, Some ob => Some ((wall_us a - oa) - (wall_us b - ob))
  | _, _ => None
  end.

(** The instant of an offset-aware datetime, in microseconds of UTC. *)
Definition instant (a : datetime) : option Z :=
  option_map (fun off => wall_us a - off) (utcoffset a).

End DT.

(** [datetime.fromisoformat(s.replace('Z', '+00:00'))] *)
Definition parse_time (s : string) : option DT.datetime :=
  DT.fromisoformat (Py.replace "Z"%char "+00:00" s).


(** ** Input records and validation ([load_data], [_is_valid_event]) *)

(** A parsed JSON line.  A required key that is absent or [null] is [None],
    and otherwise holds a string. *)
Record RawRecord := mkRaw {
  raw_user_id : option string;
  raw_session_id : option string;
  raw_event_time : option string;
  raw_path : option string;
  raw_css : Optional;
  raw_text : Optional
}.

Definition _is_valid_event (event : RawRecord) : bool :=
  match raw_user_id event, raw_session_id event,
        raw_event_time event, raw_path event with
  | Some _, Some _, Some t, Some _ =>
      match parse_time t with
      | Some _ => true
      | None => false
      end
  | _, _, _, _ => false
  end.

(** The record as the later stages read it, by its required keys. *)
Definition as_event (r : RawRecord) : option Event :=
  match raw_user_id r, raw_session_id r, raw_event_time r, raw_path r with
  | Some u, Some s, Some t, Some p =>
      Some (mkEvent u s t p (raw_css r) (raw_text r))
  | _, _, _, _ => None
  end.

(** The events kept by [load_data] from the parsed lines. *)
Fixpoint load_data (records : list RawRecord) : list Event :=
  match records with
  | [] => []
  | r :: rest =>
      if _is_valid_event r then
        match as_event r with
        | Some e => e :: load_data rest
        | None => load_data rest
        end
      else load_data rest
  end.

(** ** Python containers *)

(** [list.sort] and [sorted] are stable: an insertion sort that places an
    element before the first element of the sorted rest that it may
    precede. *)
Fixpoint insert_by {A} (le : A -> A -> bool) (x : A) (l : list A) : list A :=
  match l with
  | [] => [x]
  | y :: l' => if le x y then x :: y :: l' else y :: insert_by le x l'
  end.

Definition stable_sort {A} (le : A -> A -> bool) (l : list A) : list A :=
  fold_right (insert_by le) [] l.

(** An insertion-ordered dictionary with string keys. *)
Definition dict (V : Type) : Type := list (string * V).

Fixpoint dict_get {V} (k : string) (d : dict V) : option V :=
  match d with
  | [] => None
  | (k', v) :: rest => if k' =? k then Some v else dict_get k rest
  end.

(** [d[k] = f(d[k])] on a [defaultdict] whose missing values are [default]:
    an existing key keeps its position, a new key goes last. *)
Fixpoint dict_update {V} (k : string) (default : V) (f : V -> V) (d : dict V)
  : dict V :=
  match d with
  | [] => [(k, f default)]
  | (k', v) :: rest =>
      if k' =? k then (k', f v) :: rest
      else (k', v) :: dict_update k default f rest
  end.

Definition keys {V} (d : dict V) : list string := map fst d.
Definition values {V} (d : dict V) : list V := map snd d.

(** [Counter(l)] *)
Definition Counter (l : list string) : dict nat :=
  fold_left (fun c k => dict_update k 0%nat S c) l [].

(** [c.most_common(n)], that is [sorted(c.items(), key=count, reverse=True)[:n]] *)
Definition most_common (n : nat) (c : dict nat) : list (string * nat) :=
  firstn n (stable_sort (fun a b => (snd b <=? snd a)%nat) c).

Definition sum (l : list nat) : nat := fold_left Nat.add l 0%nat.

(** [l[-1]] of a non-empty list *)
Definition last_of {A} (l : list A) : option A := List.last (map Some l) None.

(** ** Session grouping ([process_events]) *)

Definition Sessions : Type := dict (dict (list Event)).

(** [self.user_sessions[user_id][session_id].append(event)] *)
Definition group_event (user_sessions : Sessions) (event : Event) : Sessions :=
  dict_update (user_id event) []
    (dict_update (session_id event) [] (fun l => Py.append l event))
    user_sessions.

Definition sort_events (events : list Event) : list Event :=
  stable_sort (fun a b => String.leb (event_time a) (event_time b)) events.

(** The nested iteration [for user_id, sessions in ...items(): for
    session_id, events in sessions.items()]. *)
Definition sessions_of (user_sessions : Sessions)
  : list (string * string * list Event) :=
  flat_map (fun us => map (fun se => (fst us, fst se, snd se)) (snd us))
           user_sessions.

(** ** Findings and the analyzer state *)

Record Gap := mkGap {
  gap_user_id : string;
  gap_session_id : string;
  gap_minutes : Q;
  stuck_on_page : string;
  next_page : string
}.

Record ErrorInfo := mkErrorInfo {
  error_event : Event;
  error_type : string;
  error_text : string;
  error_css : string
}.

Record UnusualSession := mkUnusual {
  unusual_user_id : string;
  unusual_session_id : string;
  event_count : nat;
  duration_minutes : Q
}.

(** The values stored under the keys of a finding's [details]. *)
Inductive Value :=
| Int (n : nat)
| Str (s : string)
| Counts (l : list (string * nat))
| Labelled (l : list (string * string))
| GapsByPage (d : dict (list Gap))
| GapList (l : list Gap)
| ErrorsByPage (d : dict (list ErrorInfo))
| UnusualList (l : list UnusualSession).

Record Finding := mkFinding {
  title : string;
  description : string;
  severity : option string;
  details : dict Value
}.

Record Analyzer := mkAnalyzer {
  events : list Event;
  user_sessions : Sessions;
  flows : list Finding;
  anomalies : list Finding
}.

(** [UserFlowAnalyzer(data_url)] once [load_data] has stored the events. *)
Definition loaded (evs : list Event) : Analyzer := mkAnalyzer evs [] [] [].

Definition process_events (self : Analyzer) : Analyzer :=
  match events self with
  | [] => self
  | _ :: _ =>
      let sorted := sort_events (events self) in
      mkAnalyzer sorted
        (fold_left group_event sorted (user_sessions self))
        (flows self) (anomalies self)
  end.

Record SuccessFlow := mkSuccessFlow {
  success_user_id : string;
  success_session_id : string;
  success_path_sequence : list string;
  success_events : list Event
}.

Record AbandonedFlow := mkAbandonedFlow {
  abandoned_user_id : string;
  abandoned_session_id : string;
  abandoned_path_sequence : list string;
  last_path : option string;
  abandoned_events : list Event
}.

Definition str_of_nat (n : nat) : string :=
  DecimalString.NilEmpty.string_of_uint (Nat.to_uint n).

Definition Q_of_nat (n : nat) : Q := inject_Z (Z.of_nat n).

Definition Qsum (l : list Q) : Q := fold_left Qplus l 0%Q.

(** [statistics.mean(l)] of a non-empty list *)
Definition mean (l : list Q) : Q := (Qsum l / Q_of_nat (List.length l))%Q.

(** The sample variance, the square of [statistics.stdev(l)]. *)
Definition variance (l : list Q) : Q :=
  let m := mean l in
  (Qsum (map (fun x => (x - m) * (x - m)) l)
   / Q_of_nat (List.length l - 1))%Q.

(** The truth value of [flow['last_path']] *)
Definition truthy (o : option string) : bool :=
  match o with
  | Some s => negb (s =? "")
  | None => false
  end.

(** [[flow['last_path'] for flow in abandoned_flows if flow['last_path']]] *)
Definition exit_paths_of (abandoned_flows : list AbandonedFlow) : list string :=
  flat_map (fun flow =>
              match last_path flow with
              | Some p => if truthy (last_path flow) then [p] else []
              | None => []
              end) abandoned_flows.

Definition abandonment_points_of (abandoned_flows : list AbandonedFlow)
  : dict nat :=
  Counter (exit_paths_of abandoned_flows).

(** [[seq[0] for seq in path_sequences if seq]] *)
Definition entry_paths_of (path_sequences : list (list string)) : list string :=
  flat_map (fun seq =>
              match seq with
              | [] => []
              | p :: _ => [p]
              end) path_sequences.

Definition entry_points_of (path_sequences : list (list string)) : dict nat :=
  Counter (entry_paths_of path_sequences).

(** The paths added to [products_in_session], in the order of the calls. *)
Definition product_paths (evs : list Event) : list string :=
  filter (Py.startswith "/products/") (map path evs).

(** One adjacent pair of [_analyze_page_activity]: [None] is the uncaught
    [TypeError], [Some None] a pair that is skipped or not counted. *)
Definition pair_duration (current next : Event) : option (option Q) :=
  match parse_time (event_time current), parse_time (event_time next) with
  | Some current_time, Some next_time =>
      match DT.sub next_time current_time with
      | None => None
      | Some us =>
          let duration_seconds := (inject_Z us / 1000000)%Q in
          if Qlt_le_dec 0 duration_seconds then
            if Qlt_le_dec duration_seconds 1800
            then Some (Some duration_seconds)
            else Some None
          else Some None
      end
  | _, _ => Some None
  end.

Fixpoint session_activity (evs : list Event) (page_durations : dict (list Q))
  : option (dict (list Q)) :=
  match evs with
  | current :: (next :: _) as rest =>
      match pair_duration current next with
      | None => None
      | Some (Some d) =>
          session_activity rest
            (dict_update (path current) [] (fun l => Py.append l d)
                         page_durations)
      | Some None => session_activity rest page_durations
      end
  | _ => Some page_durations
  end.

(** A loop whose body may raise. *)
Fixpoint fold_raise {A B} (f : A -> B -> option A) (l : list B) (a : A)
  : option A :=
  match l with
  | [] => Some a
  | b :: l' =>
      match f a b with
      | Some a' => fold_raise f l' a'
      | None => None
      end
  end.

Definition page_durations_of (us : Sessions) : option (dict (list Q)) :=
  fold_raise (fun pd s => session_activity (snd s) pd) (sessions_of us) [].

(** ** The flow analyses and the anomaly detectors

    [fmt1 x] is the text of [f"{x:.1f}"], [fsqrt] the square root taken by
    [statistics.stdev], [set_iter l] the order in which a set is iterated
    after the elements of [l] were added to it one by one. *)

Section Analysis.

Variable fmt1 : Q -> string.
Variable fsqrt : Q -> Q.
Variable set_iter : list string -> list string.

Definition percent (part total : nat) : string :=
  fmt1 (Q_of_nat part / Q_of_nat total * 100)%Q ++ "%".

Definition _analyze_flow_patterns
    (successful_checkouts : list SuccessFlow)
    (abandoned_flows : list AbandonedFlow)
    (path_sequences : list (list string)) (self : Analyzer) : Analyzer :=
  let flows1 :=
    match successful_checkouts with
    | [] => flows self
    | _ :: _ =>
        let successful_paths :=
          map (fun flow => Py.join " → " (success_path_sequence flow))
              successful_checkouts in
        let most_common_success := most_common 3 (Counter successful_paths) in
        Py.append (flows self)
          (mkFinding "Successful Purchase Flows"
            ("Found " ++ str_of_nat (List.length successful_checkouts)
                      ++ " successful checkout sessions")
            None
            [("total_successful", Int (List.length successful_checkouts));
             ("most_common_patterns", Counts most_common_success);
             ("conversion_rate",
              Str (percent (List.length successful_checkouts)
                           (List.length path_sequences)))])
    end in
  let flows2 :=
    match abandoned_flows with
    | [] => flows1
    | _ :: _ =>
        let abandonment_points := abandonment_points_of abandoned_flows in
        Py.append flows1
          (mkFinding "Flow Abandonment Patterns"
            ("Analyzed " ++ str_of_nat (List.length abandoned_flows)
                         ++ " abandoned sessions")
            None
            [("total_abandoned", Int (List.length abandoned_flows));
             ("common_exit_points", Counts (most_common 5 abandonment_points));
             ("abandonment_rate",
              Str (percent (List.length abandoned_flows)
                           (List.length path_sequences)))])
    end in
  let entry_points := entry_points_of path_sequences in
  mkAnalyzer (events self) (user_sessions self)
    (Py.append flows2
       (mkFinding "User Entry Points"
          "Most common starting pages for user sessions"
          None
          [("top_entry_points", Counts (most_common 5 entry_points))]))
    (anomalies self).

(** The counter [product_sessions] after the scan of all sessions. *)
Definition product_sessions_of (us : Sessions) : dict nat :=
  fold_left
    (fun product_sessions s =>
       let products_in_session := set_iter (product_paths (snd s)) in
       fold_left (fun c product => dict_update product 0%nat S c)
                 products_in_session product_sessions)
    (sessions_of us) [].

Definition _analyze_product_insights (self : Analyzer) : Analyzer :=
  let product_sessions := product_sessions_of (user_sessions self) in
  match product_sessions with
  | [] => self
  | _ :: _ =>
      let total_product_sessions := sum (values product_sessions) in
      mkAnalyzer (events self) (user_sessions self)
        (Py.append (flows self)
          (mkFinding "Most Consulted Products"
            ("Analysis of products viewed across "
               ++ str_of_nat total_product_sessions ++ " user sessions")
            None
            [("total_product_sessions", Int total_product_sessions);
             ("unique_products", Int (List.length product_sessions));
             ("top_products", Counts (most_common 10 product_sessions))]))
        (anomalies self)
  end.

Definition page_avg_durations_of (page_durations : dict (list Q)) : dict Q :=
  flat_map (fun pd =>
              match snd pd with
              | [] => []
              | _ :: _ => [(fst pd, mean (snd pd))]
              end) page_durations.

Definition sorted_pages_of (page_avg_durations : dict Q) : list (string * Q) :=
  stable_sort (fun a b => Qle_bool (snd b) (snd a)) page_avg_durations.

Definition _analyze_page_activity (self : Analyzer) : option Analyzer :=
  match page_durations_of (user_sessions self) with
  | None => None
  | Some page_durations =>
      let page_avg_durations := page_avg_durations_of page_durations in
      match page_avg_durations with
      | [] => Some self
      | _ :: _ =>
          let sorted_pages := sorted_pages_of page_avg_durations in
          Some (mkAnalyzer (events self) (user_sessions self)
            (Py.append (flows self)
              (mkFinding "Pages with Longest Activity"
                ("Analysis of user time spent on "
                   ++ str_of_nat (List.length sorted_pages)
                   ++ " different pages")
                None
                [("total_pages_analyzed", Int (List.length sorted_pages));
                 ("longest_activity_pages",
                  Labelled (map (fun pd => (fst pd, fmt1 (snd pd) ++ "s"))
                                (firstn 10 sorted_pages)));
                 ("average_page_time",
                  Str (fmt1 (mean (values page_avg_durations)) ++ "s"))]))
            (anomalies self))
      end
  end.

(** One turn of the classification loop of [analyze_flows]; [None] when
    [_is_successful_checkout] raises. *)
Definition classify_session
    (acc : list SuccessFlow * list AbandonedFlow * list (list string))
    (s : string * string * list Event)
  : option (list SuccessFlow * list AbandonedFlow * list (list string)) :=
  let '(successful_checkouts, abandoned_flows, path_sequences) := acc in
  let '(user_id, session_id, evs) := s in
  let path_sequence := map path evs in
  match _is_successful_checkout evs with
  | None => None
  | Some true =>
      Some (Py.append successful_checkouts
              (mkSuccessFlow user_id session_id path_sequence evs),
            abandoned_flows,
            Py.append path_sequences path_sequence)
  | Some false =>
      Some (successful_checkouts,
            Py.append abandoned_flows
              (mkAbandonedFlow user_id session_id path_sequence
                 (last_of path_sequence) evs),
            Py.append path_sequences path_sequence)
  end.

(** The classification loop of [analyze_flows]. *)
Definition classify (us : Sessions)
  : option (list SuccessFlow * list AbandonedFlow * list (list string)) :=
  fold_raise classify_session (sessions_of us) ([], [], []).

Definition analyze_flows (self : Analyzer) : option Analyzer :=
  match classify (user_sessions self) with
  | None => None
  | Some (successful_checkouts, abandoned_flows, path_sequences) =>
      _analyze_page_activity
        (_analyze_product_insights
           (_analyze_flow_patterns successful_checkouts abandoned_flows
              path_sequences self))
  end.

(** One adjacent pair of [_detect_time_gaps]. *)
Definition pair_gap (user_id session_id : string) (prev curr : Event)
  : option (option Gap) :=
  match parse_time (event_time prev), parse_time (event_time curr) with
  | Some prev_time, Some curr_time =>
      match DT.sub curr_time prev_time with
      | None => None
      | Some us =>
          let gap_seconds := (inject_Z us / 1000000)%Q in
          if Qlt_le_dec 300 gap_seconds then
            Some (Some (mkGap user_id session_id (gap_seconds / 60)%Q
                              (path prev) (path curr)))
          else Some None
      end
  | _, _ => Some None
  end.

(** The inner loop over [range(1, len(events))]; a session of fewer than two
    events adds nothing. *)
Fixpoint session_gaps (user_id session_id : string) (evs : list Event)
    (long_gaps : list Gap) : option (list Gap) :=
  match evs with
  | prev :: (curr :: _) as rest =>
      match pair_gap user_id session_id prev curr with
      | None => None
      | Some (Some gap) =>
          session_gaps user_id session_id rest (Py.append long_gaps gap)
      | Some None => session_gaps user_id session_id rest long_gaps
      end
  | _ => Some long_gaps
  end.

Definition long_gaps_of (us : Sessions) : option (list Gap) :=
  fold_raise (fun gaps s => session_gaps (fst (fst s)) (snd (fst s)) (snd s) gaps)
             (sessions_of us) [].

(** [max(l, key=gap_minutes)]: the first gap of greatest length. *)
Fixpoint max_gap (best : Gap) (l : list Gap) : Gap :=
  match l with
  | [] => best
  | g :: l' =>
      if Qlt_le_dec (gap_minutes best) (gap_minutes g) then max_gap g l'
      else max_gap best l'
  end.

Definition _detect_time_gaps (self : Analyzer) : option Analyzer :=
  match long_gaps_of (user_sessions self) with
  | None => None
  | Some [] => Some self
  | Some ((first_gap :: _) as long_gaps) =>
      let page_gaps :=
        fold_left (fun pg gap =>
                     dict_update (stuck_on_page gap) []
                                 (fun l => Py.append l gap) pg)
                  long_gaps [] in
      let long_gaps :=
        stable_sort (fun a b => Qle_bool (gap_minutes b) (gap_minutes a))
                    long_gaps in
      let n := List.length long_gaps in
      Some (mkAnalyzer (events self) (user_sessions self) (flows self)
        (Py.append (anomalies self)
          (mkFinding "User Confusion / Long Delays"
             ("Found " ++ str_of_nat n
                ++ " instances of users spending >5 minutes on a page")
             (Some (if (10 <? n)%nat then "High" else "Medium"))
             [("total_instances", Int n);
              ("average_gap",
               Str (fmt1 (mean (map gap_minutes long_gaps)) ++ " minutes"));
              ("longest_gap",
               Str (fmt1 (gap_minutes
                            (max_gap (hd first_gap long_gaps) (tl long_gaps)))
                      ++ " minutes"));
              ("page_specific_issues", GapsByPage page_gaps);
              ("examples", GapList (firstn 3 long_gaps))])))
  end.

Definition error_keywords : list string :=
  ["error"; "404"; "timeout"; "failed"; "invalid"; "missing"].

(** The two [lower] calls and the test of the keywords; [None] when a
    [lower] raises. *)
Definition has_error_keyword (event : Event) : option bool :=
  match get_lower (css event), get_lower (text event) with
  | Some css, Some text =>
      Some (existsb (fun keyword =>
                       Py.contains keyword css || Py.contains keyword text)
                    error_keywords)
  | _, _ => None
  end.

(** The record kept for an event with an error keyword.  Its [text] and
    [css] are read again with the default ['N/A']; both are absent or
    strings here, a value that is not a string having raised before. *)
Definition error_info_of (event : Event) : option ErrorInfo :=
  match get_str (text event) "N/A", get_str (css event) "N/A" with
  | Some text, Some css =>
      Some (mkErrorInfo event "CSS/Text contains error keywords" text css)
  | _, _ => None
  end.

(** One turn of the loop over [self.events]. *)
Definition scan_event (acc : list ErrorInfo * dict (list ErrorInfo))
    (event : Event) : option (list ErrorInfo * dict (list ErrorInfo)) :=
  match has_error_keyword event with
  | None => None
  | Some true =>
      match error_info_of event with
      | Some error_info =>
          Some (Py.append (fst acc) error_info,
                dict_update (path event) []
                            (fun l => Py.append l error_info) (snd acc))
      | None => None
      end
  | Some false => Some acc
  end.

Definition _detect_error_patterns (self : Analyzer) : option Analyzer :=
  match fold_raise scan_event (events self) ([], []) with
  | None => None
  | Some (error_events, page_errors) =>
      match error_events with
      | [] => Some self
      | _ :: _ =>
          Some (mkAnalyzer (events self) (user_sessions self) (flows self)
            (Py.append (anomalies self)
              (mkFinding "Technical Errors"
                 ("Found " ++ str_of_nat (List.length error_events)
                    ++ " events with error-related keywords")
                 (Some "High")
                 [("total_errors", Int (List.length error_events));
                  ("page_specific_errors", ErrorsByPage page_errors)])))
      end
  end.

(** [_calculate_session_duration]: [None] is the uncaught [TypeError]. *)
Definition _calculate_session_duration (evs : list Event) : option Q :=
  if (List.length evs <? 2)%nat then Some 0%Q
  else
    match evs, last_of evs with
    | first :: _, Some last =>
        match parse_time (event_time first), parse_time (event_time last) with
        | Some start_time, Some end_time =>
            match DT.sub end_time start_time with
            | Some us => Some (inject_Z us / 1000000 / 60)%Q
            | None => None
            end
        | _, _ => Some 0%Q
        end
    | _, _ => Some 0%Q
    end.

Definition session_lengths_of (us : Sessions) : list nat :=
  map (fun s => List.length (snd s)) (sessions_of us).

Definition threshold_of (session_lengths : list nat) : Q :=
  let avg_length := mean (map Q_of_nat session_lengths) in
  if (1 <? List.length session_lengths)%nat
  then (avg_length + 2 * fsqrt (variance (map Q_of_nat session_lengths)))%Q
  else (avg_length * 2)%Q.

Definition unusual_sessions_of (threshold : Q) (us : Sessions)
  : option (list UnusualSession) :=
  fold_raise
    (fun unusual_sessions s =>
       let '(user_id, session_id, evs) := s in
       if Qlt_le_dec threshold (Q_of_nat (List.length evs)) then
         match _calculate_session_duration evs with
         | Some d =>
             Some (Py.append unusual_sessions
                     (mkUnusual user_id session_id (List.length evs) d))
         | None => None
         end
       else Some unusual_sessions)
    (sessions_of us) [].

Definition _detect_unusual_behaviors (self : Analyzer) : option Analyzer :=
  let session_lengths := session_lengths_of (user_sessions self) in
  match session_lengths with
  | [] => Some self
  | _ :: _ =>
      let avg_length := mean (map Q_of_nat session_lengths) in
      let threshold := threshold_of session_lengths in
      match unusual_sessions_of threshold (user_sessions self) with
      | None => None
      | Some [] => Some self
      | Some ((_ :: _) as unusual_sessions) =>
          Some (mkAnalyzer (events self) (user_sessions self) (flows self)
            (Py.append (anomalies self)
              (mkFinding "Unusual Session Activity"
                 ("Found " ++ str_of_nat (List.length unusual_sessions)
                    ++ " sessions with unusually high activity")
                 (Some "Medium")
                 [("average_session_length",
                   Str (fmt1 avg_length ++ " events"));
                  ("threshold", Str (fmt1 threshold ++ " events"));
                  ("unusual_sessions",
                   UnusualList (firstn 5 unusual_sessions))])))
      end
  end.

Definition detect_anomalies (self : Analyzer) : option Analyzer :=
  match _detect_time_gaps self with
  | None => None
  | Some self1 =>
      match _detect_error_patterns self1 with
      | None => None
      | Some self2 => _detect_unusual_behaviors self2
      end
  end.

(** [run_analysis] between the loading of the data and the rendering of the
    report. *)
Definition run_analysis (evs : list Event) : option Analyzer :=
  match analyze_flows (process_events (loaded evs)) with
  | None => None
  | Some self => detect_anomalies self
  end.

End Analysis.

(** ** Vocabulary of the properties *)

(** All events held by the grouped structure, session after session. *)
Definition all_events (us : Sessions) : list Event :=
  flat_map (fun s => snd s) (sessions_of us).

(** The session has a first and a last path. *)
Definition has_first_and_last (evs : list Event) : Prop :=
  exists first last,
    hd_error (map path evs) = Some first /\ last_of (map path evs) = Some last.

(** The instant of an event: its [event_time] read as an ISO-8601 timestamp
    with a UTC offset, in microseconds of UTC. *)
Definition instant_of (e : Event) : option Z :=
  match parse_time (event_time e) with
  | Some t => DT.instant t
  | None => None
  end.

(** The events are in ascending order of their instants. *)
Definition ascending_instants (evs : list Event) : Prop :=
  StronglySorted
    (fun a b => exists ta tb,
         instant_of a = Some ta /\ instant_of b = Some tb /\ (ta <= tb)%Z)
    evs.

(** The events are in ascending order of the text of their [event_time]. *)
Definition ascending_text (evs : list Event) : Prop :=
  StronglySorted
    (fun a b => String.leb (event_time a) (event_time b) = true) evs.

Definition raw_event (u s t p : string) : RawRecord :=
  mkRaw (Some u) (Some s) (Some t) (Some p) Absent Absent.

Definition plain_event (u s t p : string) : Event :=
  mkEvent u s t p Absent Absent.

(** The sessions that hold at least one event. *)
Definition nonempty_sessions (us : Sessions)
  : list (string * string * list Event) :=
  filter (fun s => match snd s with [] => false | _ :: _ => true end)
         (sessions_of us).

(** The session is classified successful, respectively abandoned. *)
Definition successful (evs : list Event) : bool :=
  match _is_successful_checkout evs with
  | Some true => true
  | _ => false
  end.

Definition abandoned (evs : list Event) : bool :=
  match _is_successful_checkout evs with
  | Some false => true
  | _ => false
  end.

(** [_is_successful_checkout] returns on the session. *)
Definition classifiable (evs : list Event) : bool :=
  match _is_successful_checkout evs with
  | Some _ => true
  | None => false
  end.

(** The records that the classification loop keeps for a session. *)
Definition success_flow_of (s : string * string * list Event) : SuccessFlow :=
  mkSuccessFlow (fst (fst s)) (snd (fst s)) (map path (snd s)) (snd s).

Definition abandoned_flow_of (s : string * string * list Event)
  : AbandonedFlow :=
  mkAbandonedFlow (fst (fst s)) (snd (fst s)) (map path (snd s))
                  (last_of (map path (snd s))) (snd s).

(** The sessions classified successful, and those classified abandoned. *)
Definition successful_sessions (us : Sessions)
  : list (string * string * list Event) :=
  filter (fun s => successful (snd s)) (sessions_of us).

Definition abandoned_sessions (us : Sessions)
  : list (string * string * list Event) :=
  filter (fun s => abandoned (snd s)) (sessions_of us).

Definition nonempty_abandoned_sessions (us : Sessions)
  : list (string * string * list Event) :=
  filter (fun s => match snd s with [] => false | _ :: _ => true end)
         (abandoned_sessions us).

(** The sessions that hold at least one event on a product page. *)
Definition product_viewing_sessions (us : Sessions)
  : list (string * string * list Event) :=
  filter (fun s => existsb (fun e => Py.startswith "/products/" (path e)) (snd s))
         (sessions_of us).

(** A set iterates over each of its elements once. *)
Definition valid_set_iter (set_iter : list string -> list string) : Prop :=
  forall l, Permutation (set_iter l) (nodup string_dec l).

(** The distinct elements of a list, in the order of their first occurrence. *)
Fixpoint first_occurrences (l : list string) : list string :=
  match l with
  | [] => []
  | x :: rest => x :: filter (fun y => negb (y =? x)) (first_occurrences rest)
  end.

Definition mem (l : list string) (k : string) : bool :=
  existsb (String.eqb k) l.

(** [l] lists its elements in the order in which [ref] has them. *)
Definition lists_in_order_of (ref l : list string) : Prop :=
  filter (mem l) ref = l.

(** A ranking in descending order of the values whose entries of equal
    value follow the order that [ref] gives to their keys. *)
Definition descending_stable {V} (ge tie : V -> V -> bool) (ref : list string)
    (out : list (string * V)) : Prop :=
  StronglySorted (fun a b => ge (snd a) (snd b) = true) out
  /\ forall v,
       lists_in_order_of ref (map fst (filter (fun a => tie (snd a) v) out)).

Definition count_ge (a b : nat) : bool := (b <=? a)%nat.
Definition duration_ge (a b : Q) : bool := Qle_bool b a.


(** The product paths in the order in which the scan counts them. *)
Definition product_scan (set_iter : list string -> list string) (us : Sessions)
  : list string :=
  flat_map (fun s => set_iter (product_paths (snd s))) (sessions_of us).

(** The product paths in the order in which the sessions view them. *)
Definition product_views (us : Sessions) : list string :=
  flat_map (fun s => product_paths (snd s)) (sessions_of us).

(** The adjacent pairs [(l[i], l[i+1])] of a list. *)
Definition adjacent_pairs {A} (l : list A) : list (A * A) := combine l (tl l).

(** The time from one event to the next in seconds, when both timestamps
    parse and can be subtracted. *)
Definition delta_seconds (current next : Event) : option Q :=
  match parse_time (event_time current), parse_time (event_time next) with
  | Some a, Some b =>
      option_map (fun us => (inject_Z us / 1000000)%Q) (DT.sub b a)
  | _, _ => None
  end.

(** Both timestamps parse, one with a UTC offset and one without. *)
Definition incomparable (current next : Event) : bool :=
  match parse_time (event_time current), parse_time (event_time next) with
  | Some a, Some b =>
      match DT.sub b a with
      | None => true
      | Some _ => false
      end
  | _, _ => false
  end.

Definition session_comparable (evs : list Event) : bool :=
  forallb (fun cn => negb (incomparable (fst cn) (snd cn))) (adjacent_pairs evs).

Definition pairs_comparable (us : Sessions) : bool :=
  forallb (fun s => session_comparable (snd s)) (sessions_of us).

(** What one adjacent pair contributes to the dwell times. *)
Definition pair_attributed (cn : Event * Event) : list (string * Q) :=
  match delta_seconds (fst cn) (snd cn) with
  | Some d =>
      if Qlt_le_dec 0 d then
        if Qlt_le_dec d 1800 then [(path (fst cn), d)] else []
      else []
  | None => []
  end.

Definition session_attributed (evs : list Event) : list (string * Q) :=
  flat_map pair_attributed (adjacent_pairs evs).

(** The attributed (page, seconds) pairs of all sessions, in scan order. *)
Definition attributed (us : Sessions) : list (string * Q) :=
  flat_map (fun s => session_attributed (snd s)) (sessions_of us).

Definition durations_of (p : string) (l : list (string * Q)) : list Q :=
  map snd (filter (fun kd => fst kd =? p) l).

(** [page_durations[page].append(seconds)] *)
Definition add_duration (pd : dict (list Q)) (kd : string * Q) : dict (list Q) :=
  dict_update (fst kd) [] (fun l => Py.append l (snd kd)) pd.

(** The dwell-time analysis of [self], with [result] the analyzer after
    [_analyze_page_activity]: which pairs are attributed, the per-page
    lists and their means, and the finding that reports them. *)
Definition dwell_time_report (fmt1 : Q -> string) (self result : Analyzer)
  : Prop :=
  let us := user_sessions self in
  (forall p d,
      In (p, d) (attributed us)
      <-> exists s current next,
            In s (sessions_of us)
            /\ In (current, next) (adjacent_pairs (snd s))
            /\ path current = p
            /\ delta_seconds current next = Some d
            /\ (0 < d)%Q /\ (d < 1800)%Q)
  /\ exists page_durations,
       page_durations_of us = Some page_durations
       /\ (forall p, Py.get (dict_get p page_durations) []
                     = durations_of p (attributed us))
       /\ let page_avg_durations := page_avg_durations_of page_durations in
          (forall p, dict_get p page_avg_durations
                     = match durations_of p (attributed us) with
                       | [] => None
                       | _ :: _ => Some (mean (durations_of p (attributed us)))
                       end)
          /\ exists sorted_pages,
               Permutation sorted_pages page_avg_durations
               /\ StronglySorted (fun a b => (snd b <= snd a)%Q) sorted_pages
               /\ result
                  = match page_avg_durations with
                    | [] => self
                    | _ :: _ =>
                        mkAnalyzer (events self) us
                          (Py.append (flows self)
                             (mkFinding "Pages with Longest Activity"
                                ("Analysis of user time spent on "
                                   ++ str_of_nat (List.length page_avg_durations)
                                   ++ " different pages")
                                None
                                [("total_pages_analyzed",
                                  Int (List.length page_avg_durations));
                                 ("longest_activity_pages",
                                  Labelled
                                    (map (fun pd => (fst pd, fmt1 (snd pd) ++ "s"))
                                         (firstn 10 sorted_pages)));
                                 ("average_page_time",
                                  Str (fmt1 (mean (values page_avg_durations))
                                         ++ "s"))]))
                          (anomalies self)
                    end.

(** The first and the last timestamp of every session can be subtracted. *)
Definition durations_comparable (us : Sessions) : bool :=
  forallb (fun s =>
             match snd s, last_of (snd s) with
             | first :: _, Some last => negb (incomparable first last)
             | _, _ => true
             end) (sessions_of us).

(** The first and the last timestamp of the session can be subtracted. *)
Definition duration_comparable (evs : list Event) : bool :=
  match evs, last_of evs with
  | first :: _, Some last => negb (incomparable first last)
  | _, _ => true
  end.

(** The sessions whose event count is strictly greater than the threshold. *)
Definition flagged_sessions (threshold : Q) (us : Sessions)
  : list (string * string * list Event) :=
  filter (fun s => negb (Qle_bool (Q_of_nat (List.length (snd s))) threshold))
         (sessions_of us).

(** The first and the last timestamp of every flagged session can be
    subtracted. *)
Definition flagged_comparable (threshold : Q) (us : Sessions) : bool :=
  forallb (fun s => duration_comparable (snd s))
          (flagged_sessions threshold us).

(** [minutes] is the duration reported for a session: 0 below two events,
    and otherwise the time from the first to the last event in minutes. *)
Definition duration_reported (evs : list Event) (minutes : Q) : Prop :=
  ((List.length evs < 2)%nat -> minutes = 0%Q)
  /\ forall first last d,
       (2 <= List.length evs)%nat ->
       hd_error evs = Some first -> last_of evs = Some last ->
       delta_seconds first last = Some d ->
       minutes = (d / 60)%Q.

(** The detection of unusually long sessions of [self], with [result] the
    analyzer after [_detect_unusual_behaviors]. *)
Definition unusual_sessions_report (fmt1 : Q -> string) (fsqrt : Q -> Q)
    (self result : Analyzer) : Prop :=
  let us := user_sessions self in
  let lengths := map Q_of_nat (session_lengths_of us) in
  let threshold := threshold_of fsqrt (session_lengths_of us) in
  ((2 <= List.length lengths)%nat ->
   threshold
   = (mean lengths
      + 2 * fsqrt (Qsum (map (fun x => (x - mean lengths) * (x - mean lengths))
                             lengths)
                   / Q_of_nat (List.length lengths - 1)))%Q)
  /\ (List.length lengths = 1%nat -> threshold = (mean lengths * 2)%Q)
  /\ exists unusual_sessions,
       Forall2 (fun s r =>
                  unusual_user_id r = fst (fst s)
                  /\ unusual_session_id r = snd (fst s)
                  /\ event_count r = List.length (snd s)
                  /\ duration_reported (snd s) (duration_minutes r))
               (flagged_sessions threshold us) unusual_sessions
       /\ result
          = match unusual_sessions with
            | [] => self
            | _ :: _ =>
                mkAnalyzer (events self) us (flows self)
                  (Py.append (anomalies self)
                     (mkFinding "Unusual Session Activity"
                        ("Found " ++ str_of_nat (List.length unusual_sessions)
                           ++ " sessions with unusually high activity")
                        (Some "Medium")
                        [("average_session_length",
                          Str (fmt1 (mean lengths) ++ " events"));
                         ("threshold", Str (fmt1 threshold ++ " events"));
                         ("unusual_sessions",
                          UnusualList (firstn 5 unusual_sessions))]))
            end.

(** A square root to three decimals, for the examples. *)
Definition sqrt_milli (q : Q) : Q :=
  Qmake (Z.sqrt (Qnum q * 1000000 / Z.pos (Qden q))) 1000.

(** ** Vocabulary of the further properties *)

(** The event carries the given user and session identifiers. *)
Definition same_session (u s : string) (e : Event) : bool :=
  (user_id e =? u) && (session_id e =? s).

(** The users' dictionaries and the sessions' dictionaries have no key
    twice. *)
Definition distinct_keys (us : Sessions) : Prop :=
  NoDup (keys us) /\ Forall (fun u => NoDup (keys (snd u))) us.

(** The summary figures of [generate_html_report]. *)
Definition total_sessions (self : Analyzer) : nat :=
  sum (map (fun u => List.length (snd u)) (user_sessions self)).

Definition avg_sessions_per_user (self : Analyzer) : Q :=
  match user_sessions self with
  | [] => 0%Q
  | _ :: _ =>
      (Q_of_nat (total_sessions self)
       / Q_of_nat (List.length (user_sessions self)))%Q
  end.

(** The events stored for one user and session, none when absent. *)
Definition lookup_session (u s : string) (us : Sessions) : list Event :=
  Py.get (dict_get s (Py.get (dict_get u us) [])) [].



(** The session views the product page [p]. *)
Definition views_product (p : string) (s : string * string * list Event)
  : bool :=
  mem (product_paths (snd s)) p.

From Stdlib Require Import Lqa.

(** The long gap that one adjacent pair of a session yields, if any. *)
Definition pair_gap_found (u s : string) (cn : Event * Event) : list Gap :=
  match delta_seconds (fst cn) (snd cn) with
  | Some d =>
      if Qlt_le_dec 300 d
      then [mkGap u s (d / 60)%Q (path (fst cn)) (path (snd cn))]
      else []
  | None => []
  end.

(** The long gaps of all sessions, in scan order. *)
Definition gaps_found (us : Sessions) : list Gap :=
  flat_map (fun s => flat_map (pair_gap_found (fst (fst s)) (snd (fst s)))
                              (adjacent_pairs (snd s)))
           (sessions_of us).

(** The detection of long gaps of [self], with [result] the analyzer after
    [_detect_time_gaps]. *)
Definition time_gaps_report (fmt1 : Q -> string) (self result : Analyzer)
  : Prop :=
  let us := user_sessions self in
  let gaps := gaps_found us in
  (forall g,
      In g gaps
      <-> exists s current next d,
            In s (sessions_of us)
            /\ In (current, next) (adjacent_pairs (snd s))
            /\ delta_seconds current next = Some d
            /\ (300 < d)%Q
            /\ g = mkGap (fst (fst s)) (snd (fst s)) (d / 60)%Q
                         (path current) (path next))
  /\ events result = events self
  /\ user_sessions result = us
  /\ flows result = flows self
  /\ match gaps with
     | [] => anomalies result = anomalies self
     | first_gap :: _ =>
         exists finding sorted page_gaps,
           anomalies result = Py.append (anomalies self) finding
           /\ title finding = "User Confusion / Long Delays"
           /\ severity finding
              = Some (if (10 <? List.length gaps)%nat then "High" else "Medium")
           /\ dict_get "total_instances" (details finding)
              = Some (Int (List.length gaps))
           /\ Permutation sorted gaps
           /\ StronglySorted
                (fun a b => (gap_minutes b <= gap_minutes a)%Q) sorted
           /\ dict_get "examples" (details finding)
              = Some (GapList (firstn 3 sorted))
           /\ dict_get "longest_gap" (details finding)
              = Some (Str (fmt1 (gap_minutes (hd first_gap sorted))
                             ++ " minutes"))
           /\ dict_get "average_gap" (details finding)
              = Some (Str (fmt1 (mean (map gap_minutes sorted)) ++ " minutes"))
           /\ dict_get "page_specific_issues" (details finding)
              = Some (GapsByPage page_gaps)
           /\ keys page_gaps = first_occurrences (map stuck_on_page gaps)
           /\ forall p,
                Py.get (dict_get p page_gaps) []
                = filter (fun g => stuck_on_page g =? p) gaps
     end.

(** The lower-cased [css] or [text] of the event, absent or strings, holds
    an error keyword. *)
Definition mentions_error (e : Event) : bool :=
  match has_error_keyword e with
  | Some true => true
  | _ => false
  end.

(** The records of the events with an error keyword, in the order of
    [self.events]. *)
Definition error_events_of (evs : list Event) : list ErrorInfo :=
  flat_map (fun e =>
              match error_info_of e with
              | Some error_info => [error_info]
              | None => []
              end)
           (filter mentions_error evs).

(** The detection of error keywords of [self], with [result] the analyzer
    after [_detect_error_patterns]. *)
Definition error_patterns_report (self result : Analyzer) : Prop :=
  let error_events := error_events_of (events self) in
  (forall e,
      mentions_error e = true
      <-> exists keyword c t,
            In keyword error_keywords
            /\ get_lower (css e) = Some c /\ get_lower (text e) = Some t
            /\ (occurs_in keyword c \/ occurs_in keyword t))
  /\ (forall i,
        In i error_events
        <-> exists e,
              In e (events self) /\ mentions_error e = true
              /\ error_event i = e
              /\ error_type i = "CSS/Text contains error keywords"
              /\ get_str (text e) "N/A" = Some (error_text i)
              /\ get_str (css e) "N/A" = Some (error_css i))
  /\ events result = events self
  /\ user_sessions result = user_sessions self
  /\ flows result = flows self
  /\ match error_events with
     | [] => anomalies result = anomalies self
     | _ :: _ =>
         exists finding page_errors,
           anomalies result = Py.append (anomalies self) finding
           /\ title finding = "Technical Errors"
           /\ severity finding = Some "High"
           /\ dict_get "total_errors" (details finding)
              = Some (Int (List.length error_events))
           /\ dict_get "page_specific_errors" (details finding)
              = Some (ErrorsByPage page_errors)
           /\ keys page_errors
              = first_occurrences
                  (map (fun i => path (error_event i)) error_events)
           /\ forall p,
                Py.get (dict_get p page_errors) []
                = filter (fun i => path (error_event i) =? p) error_events
     end.

(** The titles of the findings that [analyze_flows] appends for a grouped
    structure, in their order. *)
Definition flow_titles (set_iter : list string -> list string) (us : Sessions)
  : list string :=
  ((if existsb (fun s => successful (snd s)) (sessions_of us)
    then ["Successful Purchase Flows"] else [])
   ++ (if existsb (fun s => abandoned (snd s)) (sessions_of us)
       then ["Flow Abandonment Patterns"] else [])
   ++ ["User Entry Points"]
   ++ match product_scan set_iter us with
      | [] => []
      | _ :: _ => ["Most Consulted Products"]
      end
   ++ match attributed us with
      | [] => []
      | _ :: _ => ["Pages with Longest Activity"]
      end)%list.

(** The titles of the findings that [detect_anomalies] appends. *)
Definition anomaly_titles (fsqrt : Q -> Q) (self : Analyzer) : list string :=
  let us := user_sessions self in
  (match gaps_found us with
   | [] => []
   | _ :: _ => ["User Confusion / Long Delays"]
   end
   ++ (if existsb mentions_error (events self)
       then ["Technical Errors"] else [])
   ++ match flagged_sessions (threshold_of fsqrt (session_lengths_of us)) us with
      | [] => []
      | _ :: _ => ["Unusual Session Activity"]
      end)%list.

(** ** Vocabulary of the reported lists *)

(** The value stored under [key] in the details of the first finding
    titled [t]. *)
Definition reported (t key : string) (findings : list Finding)
  : option Value :=
  match find (fun f => title f =? t) findings with
  | Some f => dict_get key (details f)
  | None => None
  end.








(** The product counts of [self], with [result] the analyzer after
    [_analyze_product_insights]: the counter holds for every product the
    number of sessions that view it; nothing is appended when no product
    is viewed, and otherwise the finding stores the number of distinct
    products and a list of at most ten distinct products, each with the
    number of sessions that view it. *)
Definition product_counts_report (set_iter : list string -> list string)
    (self result : Analyzer) : Prop :=
  let us := user_sessions self in
  (forall p,
      Py.get (dict_get p (product_sessions_of set_iter us)) 0%nat
      = List.length (filter (views_product p) (sessions_of us)))
  /\ match product_views us with
     | [] => result = self
     | _ :: _ =>
         exists finding top,
           result
           = mkAnalyzer (events self) us (Py.append (flows self) finding)
                        (anomalies self)
           /\ title finding = "Most Consulted Products"
           /\ dict_get "unique_products" (details finding)
              = Some (Int (List.length (nodup string_dec (product_views us))))
           /\ dict_get "top_products" (details finding) = Some (Counts top)
           /\ List.length top
              = Nat.min 10 (List.length (nodup string_dec (product_views us)))
           /\ NoDup (map fst top)
           /\ Forall (fun pn =>
                        snd pn = List.length (filter (views_product (fst pn))
                                                     (sessions_of us))
                        /\ (1 <= snd pn)%nat) top
     end.

(** ** The rendering of the anomalies ([_generate_anomalies_html],
    [_format_anomaly_details])

    A rendering that raises ([KeyError] for a missing key of a record,
    [ValueError] for a failed unpacking) is [None]. *)

Definition dq : string := String "034"%char "".
Definition nl : string := String "010"%char "".

(** [s.title()] on ASCII letters *)
Fixpoint title_from (previous_is_cased : bool) (s : string) : string :=
  match s with
  | EmptyString => EmptyString
  | String c s' =>
      let n := nat_of_ascii c in
      if (97 <=? n)%nat && (n <=? 122)%nat then
        String (if previous_is_cased then c else ascii_of_nat (n - 32))
               (title_from true s')
      else if (65 <=? n)%nat && (n <=? 90)%nat then
        String (if previous_is_cased then ascii_of_nat (n + 32) else c)
               (title_from true s')
      else String c (title_from false s')
  end.

(** [key.replace('_', ' ').title()] *)
Definition key_title (key : string) : string :=
  title_from false (Py.replace "_"%char " " key).

(** [isinstance(value, dict)] and [isinstance(value, list)] *)
Definition is_dict (value : Value) : bool :=
  match value with
  | GapsByPage _ | ErrorsByPage _ => true
  | _ => false
  end.

Definition is_list (value : Value) : bool :=
  match value with
  | Counts _ | Labelled _ | GapList _ | UnusualList _ => true
  | _ => false
  end.

(** [html += ...] over the elements of a list, with a body that may raise *)
Fixpoint concat_raise {A} (f : A -> option string) (l : list A)
  : option string :=
  match l with
  | [] => Some ""
  | x :: l' =>
      match f x with
      | None => None
      | Some piece =>
          match concat_raise f l' with
          | None => None
          | Some rest => Some (piece ++ rest)
          end
      end
  end.

Section Rendering.

Variable fmt1 : Q -> string.

Definition page_section (page : string) (n : nat) (noun : string) : string :=
  nl ++ "                    <div class=" ++ dq ++ "page-section" ++ dq ++ ">"
     ++ nl ++ "                        <div class=" ++ dq ++ "page-title"
     ++ dq ++ ">" ++ page ++ " (" ++ str_of_nat n ++ " " ++ noun ++ ")</div>"
     ++ nl ++ "                        <ul>" ++ nl ++ "                    ".

(** One page of [page_specific_issues] holding gap records. *)
Definition issues_of_page (pi : string * list Gap) : option string :=
  Some (page_section (fst pi) (List.length (snd pi)) "issues"
        ++ match snd pi with
           | [] => ""
           | first :: rest =>
               "<li>Longest delay: "
                 ++ fmt1 (gap_minutes (max_gap first rest)) ++ " minutes</li>"
           end
        ++ "</ul></div>").

(** One page of [page_specific_issues] holding error records, which have
    no [gap_minutes]. *)
Definition issues_of_error_page (pe : string * list ErrorInfo)
  : option string :=
  Some (page_section (fst pe) (List.length (snd pe)) "issues"
        ++ "</ul></div>").

(** One page of [page_specific_errors] holding error records. *)
Definition errors_of_page (pe : string * list ErrorInfo) : option string :=
  let error_texts :=
    filter (fun t => negb (t =? "N/A")) (map error_text (snd pe)) in
  let error_text_counts := Counter error_texts in
  Some (page_section (fst pe) (List.length (snd pe)) "errors"
        ++ match error_text_counts with
           | [] =>
               "<li>CSS-only errors: " ++ str_of_nat (List.length (snd pe))
                 ++ " occurrences</li>"
           | _ :: _ =>
               String.concat ""
                 (map (fun tc =>
                         "<li>'" ++ fst tc ++ "': " ++ str_of_nat (snd tc)
                           ++ " occurrences</li>")
                      (most_common 3 error_text_counts))
           end
        ++ "</ul></div>").

(** One page of [page_specific_errors] holding gap records, which have no
    [text]: the first record raises. *)
Definition errors_of_gap_page (pi : string * list Gap) : option string :=
  match snd pi with
  | [] =>
      Some (page_section (fst pi) 0 "errors"
            ++ "<li>CSS-only errors: " ++ str_of_nat 0 ++ " occurrences</li>"
            ++ "</ul></div>")
  | _ :: _ => None
  end.

Definition format_anomaly_detail (key : string) (value : Value)
  : option string :=
  if (key =? "page_specific_issues") && is_dict value then
    match value with
    | GapsByPage d =>
        option_map (fun h => "<strong>Issues by Page:</strong>" ++ h)
                   (concat_raise issues_of_page d)
    | ErrorsByPage d =>
        option_map (fun h => "<strong>Issues by Page:</strong>" ++ h)
                   (concat_raise issues_of_error_page d)
    | _ => Some ""
    end
  else if (key =? "page_specific_errors") && is_dict value then
    match value with
    | ErrorsByPage d =>
        option_map (fun h => "<strong>Errors by Page:</strong>" ++ h)
                   (concat_raise errors_of_page d)
    | GapsByPage d =>
        option_map (fun h => "<strong>Errors by Page:</strong>" ++ h)
                   (concat_raise errors_of_gap_page d)
    | _ => Some ""
    end
  else if (key =? "examples") && is_list value then
    Some ("<strong>" ++ key_title key ++ ":</strong><ul>"
          ++ match value with
             | GapList l =>
                 String.concat ""
                   (map (fun example =>
                           "<li>User stuck on " ++ stuck_on_page example
                             ++ " for " ++ fmt1 (gap_minutes example)
                             ++ " minutes</li>")
                        (firstn 3 l))
             | UnusualList l =>
                 String.concat ""
                   (map (fun example =>
                           "<li>Session with "
                             ++ str_of_nat (event_count example)
                             ++ " events ("
                             ++ fmt1 (duration_minutes example)
                             ++ " minutes)</li>")
                        (firstn 3 l))
             | _ => ""
             end
          ++ "</ul>")
  else if (key =? "most_problematic_pages") && is_list value then
    let li (page count : string) :=
      "<li>" ++ page ++ " <span class='metric danger'>" ++ count
             ++ " issues</span></li>" in
    match value with
    | Counts l =>
        Some ("<strong>" ++ key_title key ++ ":</strong><ul>"
              ++ String.concat ""
                   (map (fun pc => li (fst pc) (str_of_nat (snd pc))) l)
              ++ "</ul>")
    | Labelled l =>
        Some ("<strong>" ++ key_title key ++ ":</strong><ul>"
              ++ String.concat "" (map (fun pc => li (fst pc) (snd pc)) l)
              ++ "</ul>")
    | GapList [] | UnusualList [] =>
        Some ("<strong>" ++ key_title key ++ ":</strong><ul>" ++ "</ul>")
    | _ => None
    end
  else if (key =? "error_pages") && is_list value then Some ""
  else if negb (is_list value || is_dict value) then
    Some ("<span class='metric'>" ++ key_title key ++ ": "
          ++ match value with
             | Int n => str_of_nat n
             | Str s => s
             | _ => ""
             end
          ++ "</span>")
  else Some "".

Definition _format_anomaly_details (details : dict Value) : option string :=
  concat_raise (fun kv => format_anomaly_detail (fst kv) (snd kv)) details.

Definition anomaly_item (anomaly : Finding) : option string :=
  let severity_class := Py.lower (Py.get (severity anomaly) "medium") in
  match _format_anomaly_details (details anomaly) with
  | None => None
  | Some details_html =>
      Some (nl ++ "            <div class=" ++ dq ++ "anomaly-item "
               ++ severity_class ++ dq ++ ">"
               ++ nl ++ "                <div class=" ++ dq ++ "anomaly-title"
               ++ dq ++ ">" ++ title anomaly ++ "</div>"
               ++ nl ++ "                <div class=" ++ dq
               ++ "anomaly-description" ++ dq ++ ">" ++ description anomaly
               ++ "</div>"
               ++ nl ++ "                <div class=" ++ dq ++ "details" ++ dq
               ++ ">" ++ nl ++ "                    " ++ details_html
               ++ nl ++ "                </div>" ++ nl ++ "            </div>"
               ++ nl ++ "            ")
  end.

Definition _generate_anomalies_html (self : Analyzer) : option string :=
  match anomalies self with
  | [] => Some "<p>No anomalies detected.</p>"
  | _ :: _ => concat_raise anomaly_item (anomalies self)
  end.

End Rendering.

(** A list under another key than [examples] and [most_problematic_pages],
    or a dictionary under another key than [page_specific_issues] and
    [page_specific_errors]. *)
Definition unlisted_collection (key : string) (value : Value) : bool :=
  (is_list value
   && negb ((key =? "examples") || (key =? "most_problematic_pages")))
  || (is_dict value
      && negb ((key =? "page_specific_issues")
               || (key =? "page_specific_errors"))).

(** ** The rendering of the flows ([_generate_flows_html])

    The fall-through branch of [_format_flow_details] prints a value with
    Python's [repr], which for lists and floats is not modelled: the
    rendering of a finding's details is an argument, [None] when it
    raises. *)

Section FlowRendering.

Variable format_flow_details : dict Value -> option string.

Definition flow_item (flow : Finding) : option string :=
  match format_flow_details (details flow) with
  | None => None
  | Some details_html =>
      Some (nl ++ "            <div class=" ++ dq ++ "flow-item" ++ dq ++ ">"
               ++ nl ++ "                <div class=" ++ dq ++ "flow-title"
               ++ dq ++ ">" ++ title flow ++ "</div>"
               ++ nl ++ "                <div class=" ++ dq
               ++ "flow-description" ++ dq ++ ">" ++ description flow
               ++ "</div>"
               ++ nl ++ "                <div class=" ++ dq ++ "details" ++ dq
               ++ ">" ++ nl ++ "                    " ++ details_html
               ++ nl ++ "                </div>" ++ nl ++ "            </div>"
               ++ nl ++ "            ")
  end.

Definition _generate_flows_html (self : Analyzer) : option string :=
  match flows self with
  | [] => Some "<p>No significant flows detected.</p>"
  | _ :: _ => concat_raise flow_item (flows self)
  end.

End FlowRendering.

(** The finding can be rendered as an anomaly without raising. *)
Definition can_render (fmt1 : Q -> string) (a : Finding) : Prop :=
  anomaly_item fmt1 a <> None.
(** * Properties *)

(** ** Properties of the string primitives *)

Section StringFacts.

Lemma startswith_app (p s : string) : Py.startswith p (p ++ s) = true.
Proof.
  induction p as [|a p IH]; simpl; [reflexivity|].
  now rewrite Ascii.eqb_refl, IH.
Qed.

Lemma startswith_inv (p s : string) :
  Py.startswith p s = true -> exists post, s = p ++ post.
Proof.
  revert s; induction p as [|a p IH]; intros s H; simpl in *.
  - now exists s.
  - destruct s as [|b s]; [discriminate|].
    apply andb_true_iff in H as [Hab Hps].
    apply Ascii.eqb_eq in Hab; subst b.
    destruct (IH _ Hps) as [post ->].
    now exists post.
Qed.

Lemma contains_occurs (sub s : string) :
  Py.contains sub s = true <-> occurs_in sub s.
Proof.
  split.
  - induction s as [|c s IH]; simpl; intros H.
    + rewrite orb_false_r in H.
      apply startswith_inv in H as [post ->].
      now exists EmptyString, post.
    + apply orb_true_iff in H as [H|H].
      * apply startswith_inv in H as [post ->].
        now exists EmptyString, post.
      * destruct (IH H) as (pre & post & ->).
        now exists (String c pre), post.
  - intros (pre & post & ->).
    induction pre as [|c pre IH]; simpl.
    + replace (Py.contains sub (sub ++ post)) with true; [reflexivity|].
      symmetry. destruct (sub ++ post) eqn:E; simpl.
      * rewrite <- E, startswith_app. reflexivity.
      * rewrite <- E, startswith_app. reflexivity.
    + rewrite IH. apply orb_true_r.
Qed.

Lemma contains_false (sub s : string) :
  Py.contains sub s = false <-> ~ occurs_in sub s.
Proof.
  rewrite <- contains_occurs.
  destruct (Py.contains sub s); split; intros; congruence.
Qed.

End StringFacts.

(** ** Checkout classification *)

Section Checkout.

Lemma is_successful_checkout_unfold (evs : list Event) :
  _is_successful_checkout evs = check_checkout_events (checkout_events_of evs).
Proof.
  unfold _is_successful_checkout. now destruct (checkout_events_of evs).
Qed.

Lemma qualifying_readable (e : Event) :
  qualifying_checkout e -> readable e = true.
Proof.
  intros (_ & c & t & Hc & Ht & _). unfold readable. now rewrite Hc, Ht.
Qed.

(** One turn of the second loop on a [/checkout] event. *)
Lemma check_checkout_events_cons (e : Event) (rest : list Event) :
  path e = "/checkout" ->
  if readable e then
    (qualifying_checkout e /\ check_checkout_events (e :: rest) = Some true)
    \/ (~ qualifying_checkout e
        /\ check_checkout_events (e :: rest) = check_checkout_events rest)
  else check_checkout_events (e :: rest) = None.
Proof.
  intros Hp. unfold readable. cbn [check_checkout_events].
  destruct (get_lower (css e)) as [c|] eqn:Ec; [|reflexivity].
  destruct (get_lower (text e)) as [t|] eqn:Et; [|reflexivity].
  destruct (Py.contains "error" c) eqn:E1;
  destruct (Py.contains "error" t) eqn:E2;
  destruct (Py.contains "cancel" c) eqn:E3;
  destruct (Py.contains "cancel" t) eqn:E4;
  destruct (Py.contains "place order" t) eqn:E5;
  cbn [orb];
  first
    [ right; split; [|reflexivity];
      intros (_ & c' & t' & Hc & Ht & Q1 & Q2 & Q3 & Q4 & Q5);
      rewrite Ec in Hc; rewrite Et in Ht;
      injection Hc as <-; injection Ht as <-;
      rewrite <- ?contains_false, <- ?contains_occurs in *; congruence
    | left; split; [|reflexivity];
      split; [exact Hp|]; exists c, t;
      rewrite <- !contains_false, <- contains_occurs; auto 10 ].
Qed.

(** The three outcomes of [_is_successful_checkout]: [True] at the first
    qualifying [/checkout] event when every earlier one could be read,
    [AttributeError] at the first [/checkout] event whose [css] or [text]
    is not a string when no earlier one qualifies, [False] otherwise. *)
Lemma is_successful_checkout_spec (evs : list Event) :
  match _is_successful_checkout evs with
  | Some true =>
      exists l1 e l2,
        evs = (l1 ++ e :: l2)%list /\ qualifying_checkout e
        /\ forall e', In e' l1 -> path e' = "/checkout" -> readable e' = true
  | Some false =>
      (forall e, In e evs -> path e = "/checkout" -> readable e = true)
      /\ forall e, In e evs -> ~ qualifying_checkout e
  | None =>
      exists l1 e l2,
        evs = (l1 ++ e :: l2)%list /\ path e = "/checkout"
        /\ readable e = false
        /\ forall e', In e' l1 -> ~ qualifying_checkout e'
  end.
Proof.
  rewrite is_successful_checkout_unfold.
  induction evs as [|ev evs IH].
  - cbn. split; intros e [].
  - unfold checkout_events_of in *. cbn [filter].
    destruct (path ev =? "/checkout") eqn:Ep.
    + apply String.eqb_eq in Ep.
      pose proof (check_checkout_events_cons ev
                    (filter (fun event => path event =? "/checkout") evs) Ep)
        as Hstep.
      destruct (readable ev) eqn:Er.
      * destruct Hstep as [[Hq ->] | [Hnq ->]].
        { exists [], ev, evs.
          split; [reflexivity|]. split; [assumption|]. intros e' []. }
        destruct (check_checkout_events
                    (filter (fun event => path event =? "/checkout") evs))
          as [[|]|].
        { destruct IH as (l1 & e & l2 & -> & Hq & Hr).
          exists (ev :: l1), e, l2. split; [reflexivity|]. split; [assumption|].
          intros e' [<- | Hin] Hp'; [assumption | now apply Hr]. }
        { destruct IH as [Hr Hn]. split.
          - intros e [<- | Hin] Hp'; [assumption | now apply Hr].
          - intros e [<- | Hin]; [assumption | now apply Hn]. }
        { destruct IH as (l1 & e & l2 & -> & Hp' & Hr & Hn).
          exists (ev :: l1), e, l2. split; [reflexivity|]. do 2 (split; [assumption|]).
          intros e' [<- | Hin]; [assumption | now apply Hn]. }
      * rewrite Hstep. exists [], ev, evs.
        split; [reflexivity|]. do 2 (split; [assumption|]). intros e' [].
    + assert (Hnq : ~ qualifying_checkout ev).
      { intros (Hp & _). rewrite Hp in Ep. discriminate. }
      destruct (check_checkout_events
                  (filter (fun event => path event =? "/checkout") evs))
        as [[|]|].
      * destruct IH as (l1 & e & l2 & -> & Hq & Hr).
        exists (ev :: l1), e, l2. split; [reflexivity|]. split; [assumption|].
        intros e' [<- | Hin] Hp'; [|now apply Hr].
        rewrite Hp' in Ep. discriminate.
      * destruct IH as [Hr Hn]. split.
        -- intros e [<- | Hin] Hp'; [|now apply Hr].
           rewrite Hp' in Ep. discriminate.
        -- intros e [<- | Hin]; [assumption | now apply Hn].
      * destruct IH as (l1 & e & l2 & -> & Hp' & Hr & Hn).
        exists (ev :: l1), e, l2. split; [reflexivity|]. do 2 (split; [assumption|]).
        intros e' [<- | Hin]; [assumption | now apply Hn].
Qed.

(** On a session whose [/checkout] events can all be read, the function
    returns, and it returns [True] exactly for a session that holds a
    qualifying [/checkout] event. *)
Lemma is_successful_checkout_readable (evs : list Event) :
  (forall e, In e evs -> path e = "/checkout" -> readable e = true) ->
  exists b,
    _is_successful_checkout evs = Some b
    /\ (b = true <-> exists e, In e evs /\ qualifying_checkout e).
Proof.
  intros Hr. pose proof (is_successful_checkout_spec evs) as H.
  destruct (_is_successful_checkout evs) as [[|]|].
  - exists true. split; [reflexivity|]. split; [intros _|reflexivity].
    destruct H as (l1 & e & l2 & -> & Hq & _).
    exists e. split; [|assumption]. apply in_or_app. right. now left.
  - exists false. split; [reflexivity|]. split; [discriminate|].
    intros (e & Hin & Hq). now destruct (proj2 H e Hin).
  - destruct H as (l1 & e & l2 & -> & Hp & Hne & _).
    rewrite Hr in Hne; [discriminate| |assumption].
    apply in_or_app. right. now left.
Qed.

(** C1: the claim fails on a session that validation lets through.  Two
    [/checkout] records of one session, the first with [css] set to JSON
    [null], the second with the text ["Place Order"]: both pass
    [_is_valid_event], the second is a qualifying checkout event, so the
    session is successful by the claim; but [.get('css', '').lower()]
    raises [AttributeError] on the first, so [_is_successful_checkout]
    returns nothing and [analyze_flows] raises as well. *)
Theorem is_successful_checkout_raises_on_null_css :
  let records :=
    [mkRaw (Some "u") (Some "s") (Some "2024-01-01T09:00:00Z")
           (Some "/checkout") NonString Absent;
     mkRaw (Some "u") (Some "s") (Some "2024-01-01T09:01:00Z")
           (Some "/checkout") Absent (Present "Place Order")] in
  let session := load_data records in
  List.length session = 2%nat
  /\ (exists e, In e session /\ qualifying_checkout e)
  /\ _is_successful_checkout session = None
  /\ sessions_of (user_sessions (process_events (loaded session)))
     = [("u", "s", session)]
  /\ forall fmt1 set_iter,
       analyze_flows fmt1 set_iter (process_events (loaded session)) = None.
Proof.
  cbv zeta.
  split; [vm_compute; reflexivity|].
  split.
  { exists (mkEvent "u" "s" "2024-01-01T09:01:00Z" "/checkout"
                    Absent (Present "Place Order")).
    split; [vm_compute; auto|].
    split; [reflexivity|].
    exists "", "place order".
    split; [reflexivity|]. split; [reflexivity|].
    rewrite <- !contains_false, <- contains_occurs.
    repeat split; vm_compute; reflexivity. }
  split; [vm_compute; reflexivity|].
  split; [vm_compute; reflexivity|].
  intros fmt1 set_iter. vm_compute. reflexivity.
Qed.

End Checkout.

Example parse_time_utc :
  parse_time "2024-01-01T09:00:00Z"
  = Some (DT.mkDT 1704099600000000%Z (Some 0%Z)).
Proof. vm_compute. reflexivity. Qed.

Example parse_time_offset :
  parse_time "2024-01-01T10:00:00+02:00"
  = Some (DT.mkDT 1704103200000000%Z (Some 7200000000%Z)).
Proof. vm_compute. reflexivity. Qed.

Example parse_time_naive_ms :
  parse_time "1970-01-02 00:00:01.250"
  = Some (DT.mkDT 86401250000%Z None).
Proof. vm_compute. reflexivity. Qed.

Example parse_time_bad : parse_time "yesterday" = None.
Proof. vm_compute. reflexivity. Qed.

(** ** The stable sort *)

Section StableSort.

Context {A : Type} (le : A -> A -> bool).

Lemma insert_by_perm (x : A) (l : list A) :
  Permutation (insert_by le x l) (x :: l).
Proof.
  induction l as [|y l IH]; simpl; [reflexivity|].
  destruct (le x y); [reflexivity|].
  rewrite IH. apply perm_swap.
Qed.

Lemma stable_sort_perm (l : list A) : Permutation (stable_sort le l) l.
Proof.
  induction l as [|x l IH]; simpl; [reflexivity|].
  unfold stable_sort in *; simpl.
  rewrite insert_by_perm. now constructor.
Qed.

Lemma stable_sort_length (l : list A) :
  List.length (stable_sort le l) = List.length l.
Proof. apply Permutation_length, stable_sort_perm. Qed.

Hypothesis le_total : forall a b, le a b = true \/ le b a = true.
Hypothesis le_trans : forall a b c, le a b = true -> le b c = true -> le a c = true.

Lemma insert_by_sorted (x : A) (l : list A) :
  StronglySorted (fun a b => le a b = true) l ->
  StronglySorted (fun a b => le a b = true) (insert_by le x l).
Proof.
  induction 1 as [|y l Hs IH Hy]; simpl.
  - repeat constructor.
  - destruct (le x y) eqn:E.
    + constructor; [now constructor|].
      constructor; [exact E|].
      eapply Forall_impl; [|exact Hy]. intros z Hz. eauto.
    + constructor; [exact IH|].
      eapply Permutation_Forall; [symmetry; apply insert_by_perm|].
      constructor; [|exact Hy].
      destruct (le_total x y); congruence.
Qed.

Lemma stable_sort_sorted (l : list A) :
  StronglySorted (fun a b => le a b = true) (stable_sort le l).
Proof.
  induction l as [|x l IH]; [constructor|].
  apply insert_by_sorted, IH.
Qed.

End StableSort.

(** Stability: the elements of a class of mutually tied elements keep their
    relative order. *)
Lemma stable_sort_stable {A} (le : A -> A -> bool) (p : A -> bool) :
  (forall a b, p a = true -> p b = true -> le a b = true) ->
  forall l, filter p (stable_sort le l) = filter p l.
Proof.
  intros Htie.
  assert (Hins : forall x l, filter p (insert_by le x l) = filter p (x :: l)).
  { intros x l; induction l as [|y l IH]; [reflexivity|].
    cbn [insert_by]. destruct (le x y) eqn:E; [reflexivity|].
    cbn [filter] in *. rewrite IH.
    destruct (p x) eqn:Px, (p y) eqn:Py; try reflexivity.
    rewrite (Htie x y Px Py) in E. discriminate. }
  induction l as [|x l IH]; [reflexivity|].
  unfold stable_sort in *; cbn [fold_right].
  rewrite Hins. cbn [filter]. now rewrite IH.
Qed.

(** ** Dictionaries *)

Section Dict.

Context {V : Type}.

Lemma keys_dict_update (k : string) (dflt : V) (f : V -> V) (d : dict V) :
  keys (dict_update k dflt f d)
  = if in_dec string_dec k (keys d) then keys d else (keys d ++ [k])%list.
Proof.
  induction d as [|[k' v] d IH]; simpl; [reflexivity|].
  destruct (String.eqb_spec k' k) as [->|Hne]; simpl.
  - destruct (string_dec k k); [|congruence].
    reflexivity.
  - rewrite IH. destruct (string_dec k' k); [congruence|].
    now destruct (in_dec string_dec k (keys d)).
Qed.

Lemma dict_get_update (k k' : string) (dflt : V) (f : V -> V) (d : dict V) :
  dict_get k' (dict_update k dflt f d)
  = if k =? k' then Some (f (Py.get (dict_get k d) dflt)) else dict_get k' d.
Proof.
  induction d as [|[k0 v] d IH]; simpl.
  - now destruct (k =? k').
  - destruct (String.eqb_spec k0 k) as [->|Hne]; simpl.
    + now destruct (k =? k').
    + rewrite IH. destruct (String.eqb_spec k k') as [->|Hne'].
      * apply String.eqb_neq in Hne. now rewrite Hne.
      * reflexivity.
Qed.

Lemma dict_update_NoDup (k : string) (dflt : V) (f : V -> V) (d : dict V) :
  NoDup (keys d) -> NoDup (keys (dict_update k dflt f d)).
Proof.
  intros H. rewrite keys_dict_update.
  destruct (in_dec string_dec k (keys d)); [exact H|].
  apply NoDup_app; [exact H|repeat constructor; auto|].
  intros x Hx Hx'. simpl in Hx'. intuition congruence.
Qed.

(** A weight summed over the values: an update adds what it adds to the
    value it touches. *)
Lemma weight_dict_update (w : V -> nat) (n : nat) (k : string) (dflt : V)
    (f : V -> V) (d : dict V) :
  w dflt = 0%nat -> (forall v, w (f v) = (n + w v)%nat) ->
  list_sum (map w (values (dict_update k dflt f d)))
  = (n + list_sum (map w (values d)))%nat.
Proof.
  intros H0 Hf. unfold values.
  induction d as [|[k' v] d IH]; simpl.
  - rewrite Hf, H0. lia.
  - destruct (k' =? k); simpl.
    + rewrite Hf. lia.
    + rewrite IH. lia.
Qed.

End Dict.

Lemma sum_list_sum (l : list nat) : sum l = list_sum l.
Proof.
  unfold sum.
  assert (H : forall a, fold_left Nat.add l a = (a + list_sum l)%nat).
  { induction l as [|x l IH]; intros a; simpl; [lia|]. rewrite IH. lia. }
  apply H.
Qed.

(** ** Session grouping *)

Section Grouping.

Lemma Forall_dict_update2 {V} (P Q : V -> Prop) (k : string) (dflt : V)
    (f : V -> V) (d : dict V) :
  Q (f dflt) -> (forall v, P v -> Q (f v)) -> (forall v, P v -> Q v) ->
  Forall (fun kv => P (snd kv)) d ->
  Forall (fun kv => Q (snd kv)) (dict_update k dflt f d).
Proof.
  intros Hd Hf Hk. induction 1 as [|[k' v] d Hv Hrest IH]; simpl.
  - repeat constructor. exact Hd.
  - destruct (k' =? k); constructor; simpl in *; auto.
    eapply Forall_impl; [|exact Hrest]. intros [? ?]; simpl; auto.
Qed.

Lemma Forall_dict_update {V} (P : V -> Prop) (k : string) (dflt : V)
    (f : V -> V) (d : dict V) :
  P (f dflt) -> (forall v, P v -> P (f v)) ->
  Forall (fun kv => P (snd kv)) d ->
  Forall (fun kv => P (snd kv)) (dict_update k dflt f d).
Proof. intros Hd Hf. apply Forall_dict_update2; auto. Qed.

Lemma content_dict_update {V X} (c : V -> list X) (x : X) (k : string)
    (dflt : V) (f : V -> V) (d : dict V) :
  c dflt = [] -> (forall v, Permutation (c (f v)) (x :: c v)) ->
  Permutation (flat_map (fun kv => c (snd kv)) (dict_update k dflt f d))
              (x :: flat_map (fun kv => c (snd kv)) d).
Proof.
  intros H0 Hf. induction d as [|[k' v] d IH]; simpl.
  - rewrite app_nil_r, Hf, H0. reflexivity.
  - destruct (k' =? k); simpl.
    + rewrite Hf. reflexivity.
    + rewrite IH. symmetry. apply Permutation_middle.
Qed.

Lemma sessions_of_Forall (P : list Event -> Prop) (us : Sessions) :
  Forall (fun s => P (snd s)) (sessions_of us)
  <-> Forall (fun u => Forall (fun se => P (snd se)) (snd u)) us.
Proof.
  unfold sessions_of. induction us as [|[u ss] us IH]; simpl.
  - split; constructor.
  - rewrite Forall_app, IH, Forall_cons_iff, Forall_map. simpl. tauto.
Qed.

Lemma all_events_nested (us : Sessions) :
  all_events us = flat_map (fun u => flat_map (fun se => snd se) (snd u)) us.
Proof.
  unfold all_events, sessions_of.
  induction us as [|[u ss] us IH]; simpl; [reflexivity|].
  rewrite flat_map_app, IH. f_equal.
  induction ss as [|[s evs] ss IHs]; simpl; [reflexivity|].
  now rewrite IHs.
Qed.

Lemma group_event_nonempty (us : Sessions) (e : Event) :
  Forall (fun s => snd s <> []) (sessions_of us) ->
  Forall (fun s => snd s <> []) (sessions_of (group_event us e)).
Proof.
  rewrite !(sessions_of_Forall (fun l => l <> [])). unfold group_event.
  apply (Forall_dict_update
           (fun ss : dict (list Event) => Forall (fun se => snd se <> []) ss)).
  - repeat constructor. simpl. discriminate.
  - intros ss. apply (Forall_dict_update (fun l : list Event => l <> [])).
    + discriminate.
    + intros l _. unfold Py.append. now destruct l.
Qed.

Lemma group_event_perm (us : Sessions) (e : Event) :
  Permutation (all_events (group_event us e)) (e :: all_events us).
Proof.
  rewrite !all_events_nested. unfold group_event.
  apply (content_dict_update
           (fun ss : dict (list Event) => flat_map (fun se => snd se) ss)).
  - reflexivity.
  - intros ss.
    apply (content_dict_update (fun l : list Event => l)); [reflexivity|].
    intros l. unfold Py.append. symmetry. apply Permutation_cons_append.
Qed.

Lemma fold_group_nonempty (l : list Event) (us : Sessions) :
  Forall (fun s => snd s <> []) (sessions_of us) ->
  Forall (fun s => snd s <> []) (sessions_of (fold_left group_event l us)).
Proof.
  revert us; induction l as [|e l IH]; intros us H; simpl; [exact H|].
  apply IH, group_event_nonempty, H.
Qed.

Lemma fold_group_perm (l : list Event) (us : Sessions) :
  Permutation (all_events (fold_left group_event l us)) (all_events us ++ l).
Proof.
  revert us; induction l as [|e l IH]; intros us; simpl.
  - now rewrite app_nil_r.
  - rewrite IH, group_event_perm. apply Permutation_middle.
Qed.

Lemma process_events_perm (evs : list Event) :
  Permutation (all_events (user_sessions (process_events (loaded evs)))) evs.
Proof.
  unfold process_events, loaded. cbn [events user_sessions].
  destruct evs as [|e evs]; [reflexivity|]. cbn [user_sessions].
  rewrite fold_group_perm.
  change (all_events []) with (@nil Event). rewrite app_nil_l.
  apply stable_sort_perm.
Qed.

Lemma load_data_length (records : list RawRecord) :
  List.length (load_data records)
  = List.length (filter _is_valid_event records).
Proof.
  induction records as [|r rs IH]; simpl; [reflexivity|].
  destruct (_is_valid_event r) eqn:E; [|exact IH].
  unfold _is_valid_event in E. unfold as_event.
  destruct (raw_user_id r), (raw_session_id r), (raw_event_time r),
           (raw_path r); try discriminate.
  simpl. now rewrite IH.
Qed.

Lemma session_lengths_total (us : Sessions) :
  sum (session_lengths_of us) = List.length (all_events us).
Proof.
  rewrite sum_list_sum. unfold session_lengths_of, all_events.
  induction (sessions_of us) as [|s l IH]; simpl; [reflexivity|].
  rewrite length_app, IH. reflexivity.
Qed.

(** C8: the event counts of all (user, session) groups add up to the number
    of records that passed validation, and the groups together hold exactly
    the loaded events, each one once. *)
Theorem grouping_conserves_events (records : list RawRecord) :
  let us := user_sessions (process_events (loaded (load_data records))) in
  sum (session_lengths_of us)
  = List.length (filter _is_valid_event records)
  /\ Permutation (all_events us) (load_data records).
Proof.
  cbv zeta. split.
  - rewrite session_lengths_total, <- load_data_length.
    apply Permutation_length, process_events_perm.
  - apply process_events_perm.
Qed.

Lemma nonempty_first_last (evs : list Event) :
  evs <> [] -> has_first_and_last evs.
Proof.
  intros H. unfold has_first_and_last, last_of.
  destruct evs as [|e evs]; [congruence|].
  exists (path e). simpl hd_error.
  destruct (exists_last (l := map Some (map path (e :: evs)))) as (l' & x & E).
  { discriminate. }
  rewrite E, last_last.
  destruct x as [p|]; [now exists p|].
  assert (Hin : In None (map Some (map path (e :: evs)))).
  { rewrite E. apply in_or_app. right. now left. }
  apply in_map_iff in Hin as (? & ? & _). discriminate.
Qed.

(** C10: after [process_events] every (user, session) entry of the grouped
    structure holds at least one event, and so has a first and a last
    path. *)
Theorem grouped_sessions_nonempty (evs : list Event) :
  Forall (fun s => snd s <> [] /\ has_first_and_last (snd s))
         (sessions_of (user_sessions (process_events (loaded evs)))).
Proof.
  assert (H : Forall (fun s => snd s <> [])
                (sessions_of (user_sessions (process_events (loaded evs))))).
  { unfold process_events, loaded. cbn [events user_sessions].
    destruct evs as [|e evs]; [constructor|]. cbn [user_sessions].
    apply fold_group_nonempty. constructor. }
  eapply Forall_impl; [|exact H].
  intros s Hs. split; [exact Hs|]. now apply nonempty_first_last.
Qed.

End Grouping.

(** ** The order of the events of a session *)

Section EventOrder.

Lemma leb_trans (a b c : string) :
  String.leb a b = true -> String.leb b c = true -> String.leb a c = true.
Proof.
  unfold String.leb. intros Hab Hbc.
  destruct (String.compare a b) eqn:Eab; try discriminate;
  destruct (String.compare b c) eqn:Ebc; try discriminate.
  - apply String_as_OT.cmp_eq in Eab, Ebc. subst.
    pose proof (proj2 (String_as_OT.cmp_eq c c) eq_refl) as Hcc.
    unfold String_as_OT.cmp in Hcc. now rewrite Hcc.
  - apply String_as_OT.cmp_eq in Eab. subst. now rewrite Ebc.
  - apply String_as_OT.cmp_eq in Ebc. subst. now rewrite Eab.
  - apply String_as_OT.cmp_lt in Eab, Ebc.
    pose proof (String_as_OT.lt_trans _ _ _ Eab Ebc) as Hac.
    apply String_as_OT.cmp_lt in Hac. unfold String_as_OT.cmp in Hac.
    now rewrite Hac.
Qed.

Lemma sort_events_sorted (evs : list Event) :
  ascending_text (sort_events evs).
Proof.
  apply (stable_sort_sorted
           (fun a b => String.leb (event_time a) (event_time b))).
  - intros a b. apply String.leb_total.
  - intros a b c. apply leb_trans.
Qed.

Lemma StronglySorted_snoc {A} (R : A -> A -> Prop) (l : list A) (x : A) :
  StronglySorted R l -> Forall (fun y => R y x) l ->
  StronglySorted R (l ++ [x]).
Proof.
  induction 1 as [|y l Hs IH Hy]; intros Hx; simpl.
  - repeat constructor.
  - inversion Hx; subst. constructor; [auto|].
    apply Forall_app. split; [exact Hy|]. repeat constructor. assumption.
Qed.

Lemma fold_group_sorted (R : Event -> Event -> Prop) (l : list Event) :
  StronglySorted R l ->
  forall us : Sessions,
    Forall (fun s => StronglySorted R (snd s)
                     /\ Forall (fun x => Forall (R x) l) (snd s))
           (sessions_of us) ->
    Forall (fun s => StronglySorted R (snd s))
           (sessions_of (fold_left group_event l us)).
Proof.
  induction 1 as [|e l Hs IH He]; intros us Hus; simpl.
  - eapply Forall_impl; [|exact Hus]. now intros s [].
  - apply IH.
    pose (P rest (g : list Event) :=
            StronglySorted R g /\ Forall (fun x => Forall (R x) rest) g).
    change (Forall (fun s => P l (snd s)) (sessions_of (group_event us e))).
    change (Forall (fun s => P (e :: l) (snd s)) (sessions_of us)) in Hus.
    rewrite (sessions_of_Forall (P (e :: l))) in Hus.
    rewrite (sessions_of_Forall (P l)).
    assert (Hweak : forall g, P (e :: l) g -> P l g).
    { intros g [Hg Hall]. split; [exact Hg|].
      eapply Forall_impl; [|exact Hall].
      intros x Hx. now inversion Hx. }
    assert (Hadd : forall g, P (e :: l) g -> P l (Py.append g e)).
    { intros g [Hg Hall]. unfold Py.append. split.
      - apply StronglySorted_snoc; [exact Hg|].
        eapply Forall_impl; [|exact Hall]. intros x Hx. now inversion Hx.
      - apply Forall_app. split; [now apply Hweak|].
        repeat constructor. exact He. }
    assert (Hnew : P l (Py.append [] e)).
    { unfold Py.append; simpl. split; repeat constructor. exact He. }
    unfold group_event.
    apply (Forall_dict_update2
             (fun ss : dict (list Event) =>
                Forall (fun se => P (e :: l) (snd se)) ss)
             (fun ss : dict (list Event) =>
                Forall (fun se => P l (snd se)) ss)).
    + simpl. constructor; [exact Hnew | constructor].
    + intros ss Hss. apply (Forall_dict_update2 (P (e :: l)) (P l)); auto.
    + intros ss Hss. eapply Forall_impl; [|exact Hss]. intros []; simpl; auto.
    + exact Hus.
Qed.

(** What the grouping does guarantee: every session lists its events in
    ascending order of the text of [event_time]. *)
Lemma grouped_sessions_ascending_text (evs : list Event) :
  Forall (fun s => ascending_text (snd s))
         (sessions_of (user_sessions (process_events (loaded evs)))).
Proof.
  unfold process_events, loaded. cbn [events user_sessions].
  destruct evs as [|e evs]; [constructor|]. cbn [user_sessions].
  apply fold_group_sorted; [apply sort_events_sorted|constructor].
Qed.

(** C3, at the records of one session stamped [10:00:00+02:00] (08:00 UTC)
    and [09:00:00Z]: both pass validation, [process_events] orders the
    session by the text of [event_time], and the session's events are then
    not in ascending order of their instants. *)
Theorem process_events_orders_text_not_instants :
  let first := raw_event "u" "s" "2024-01-01T10:00:00+02:00" "/cart" in
  let second := raw_event "u" "s" "2024-01-01T09:00:00Z" "/home" in
  let at_0800_utc := plain_event "u" "s" "2024-01-01T10:00:00+02:00" "/cart" in
  let at_0900_utc := plain_event "u" "s" "2024-01-01T09:00:00Z" "/home" in
  load_data [first; second] = [at_0800_utc; at_0900_utc]
  /\ sessions_of (user_sessions
                    (process_events (loaded (load_data [first; second]))))
     = [("u", "s", [at_0900_utc; at_0800_utc])]
  /\ instant_of at_0900_utc = Some 1704099600000000%Z
  /\ instant_of at_0800_utc = Some 1704096000000000%Z
  /\ ~ ascending_instants [at_0900_utc; at_0800_utc].
Proof.
  cbv zeta.
  split; [vm_compute; reflexivity|].
  split; [vm_compute; reflexivity|].
  split; [vm_compute; reflexivity|].
  split; [vm_compute; reflexivity|].
  intros H. inversion H as [|? ? _ Hall]; subst.
  inversion Hall as [|? ? (ta & tb & Ha & Hb & Hle) _]; subst.
  vm_compute in Ha, Hb.
  injection Ha as Ha. injection Hb as Hb. subst ta tb.
  apply Hle. vm_compute. reflexivity.
Qed.

End EventOrder.

(** ** Counters *)

Section Counters.

Lemma Counter_step (l : list string) (c : dict nat) :
  sum (values (fold_left (fun c k => dict_update k 0%nat S c) l c))
  = (List.length l + sum (values c))%nat.
Proof.
  revert c; induction l as [|k l IH]; intros c; simpl; [reflexivity|].
  rewrite IH, !sum_list_sum.
  pose proof (weight_dict_update (fun n : nat => n) 1 k 0%nat S c
                eq_refl (fun v => eq_refl)) as W.
  rewrite !map_id in W. rewrite W. lia.
Qed.

Lemma Counter_total (l : list string) :
  sum (values (Counter l)) = List.length l.
Proof. unfold Counter. rewrite Counter_step. cbv [sum values map fold_left]. lia. Qed.

Lemma Counter_step_NoDup (l : list string) (c : dict nat) :
  NoDup (keys c) ->
  NoDup (keys (fold_left (fun c k => dict_update k 0%nat S c) l c)).
Proof.
  revert c; induction l as [|k l IH]; intros c H; simpl; [exact H|].
  apply IH, dict_update_NoDup, H.
Qed.

Lemma Counter_NoDup (l : list string) : NoDup (keys (Counter l)).
Proof. apply Counter_step_NoDup. constructor. Qed.

End Counters.

(** ** The classification of the sessions *)

Section Classification.

Lemma classify_fold (l : list (string * string * list Event))
    (a : list SuccessFlow) (b : list AbandonedFlow) (c : list (list string)) :
  fold_raise classify_session l (a, b, c)
  = if forallb (fun s => classifiable (snd s)) l
    then Some ((a ++ map success_flow_of
                       (filter (fun s => successful (snd s)) l))%list,
               (b ++ map abandoned_flow_of
                       (filter (fun s => abandoned (snd s)) l))%list,
               (c ++ map (fun s => map path (snd s)) l)%list)
    else None.
Proof.
  revert a b c. induction l as [|[[u s] evs] l IH]; intros a b c.
  - simpl. now rewrite !app_nil_r.
  - cbn [fold_raise forallb filter map snd fst].
    unfold classify_session at 1, classifiable at 1, successful at 1,
      abandoned at 1.
    destruct (_is_successful_checkout evs) as [[|]|];
      cbn [andb map filter]; [| |reflexivity];
      rewrite IH; unfold Py.append;
      destruct (forallb (fun s => classifiable (snd s)) l);
      try reflexivity;
      now rewrite <- !app_assoc.
Qed.

(** The classification raises when [_is_successful_checkout] raises on a
    session; otherwise every session goes, in scan order, to the successful
    flows or to the abandoned flows, as the function says, and its path
    sequence to the path sequences. *)
Lemma classify_spec (us : Sessions) :
  classify us
  = if forallb (fun s => classifiable (snd s)) (sessions_of us)
    then Some (map success_flow_of (successful_sessions us),
               map abandoned_flow_of (abandoned_sessions us),
               map (fun s => map path (snd s)) (sessions_of us))
    else None.
Proof.
  unfold classify. now rewrite classify_fold.
Qed.

Lemma classify_Some (us : Sessions) successful_checkouts abandoned_flows
    path_sequences :
  classify us = Some (successful_checkouts, abandoned_flows, path_sequences) ->
  forallb (fun s => classifiable (snd s)) (sessions_of us) = true
  /\ successful_checkouts = map success_flow_of (successful_sessions us)
  /\ abandoned_flows = map abandoned_flow_of (abandoned_sessions us)
  /\ path_sequences = map (fun s => map path (snd s)) (sessions_of us).
Proof.
  rewrite classify_spec.
  destruct (forallb _ _); [|discriminate].
  intros [= <- <- <-]. auto.
Qed.

Lemma entry_points_total (us : Sessions) :
  sum (values (entry_points_of
                 (map (fun s => map path (snd s)) (sessions_of us))))
  = List.length (nonempty_sessions us).
Proof.
  unfold entry_points_of, entry_paths_of, nonempty_sessions.
  rewrite Counter_total.
  induction (sessions_of us) as [|[[u s] evs] l IH]; simpl; [reflexivity|].
  destruct evs; simpl; now rewrite IH.
Qed.

(** The exit-point counts add up to the number of abandoned sessions whose
    last path is not the empty string. *)
Lemma abandonment_points_total (us : Sessions) :
  sum (values (abandonment_points_of
                 (map abandoned_flow_of (abandoned_sessions us))))
  = List.length
      (filter (fun s => truthy (last_of (map path (snd s))))
              (abandoned_sessions us)).
Proof.
  unfold abandonment_points_of, exit_paths_of. rewrite Counter_total.
  induction (abandoned_sessions us) as [|[[u s] evs] l IH]; simpl;
    [reflexivity|].
  rewrite length_app, IH.
  destruct (last_of (map path evs)) as [p|]; simpl; [|reflexivity].
  now destruct (p =? "").
Qed.

(** C9, at one session of a single event whose path is the empty string:
    the classification returns, the session is abandoned and not empty, the
    entry-point counts add up to the one non-empty session, and the
    exit-point counts add up to 0, not to the one non-empty abandoned
    session. *)
Theorem exit_points_miss_empty_path :
  let us := user_sessions
              (process_events
                 (loaded [plain_event "u" "s" "2024-01-01T09:00:00Z" ""])) in
  exists successful_checkouts abandoned_flows path_sequences,
    classify us = Some (successful_checkouts, abandoned_flows, path_sequences)
    /\ List.length (nonempty_sessions us) = 1%nat
    /\ List.length (nonempty_abandoned_sessions us) = 1%nat
    /\ sum (values (entry_points_of path_sequences)) = 1%nat
    /\ sum (values (abandonment_points_of abandoned_flows)) = 0%nat.
Proof.
  cbv zeta.
  eexists _, _, _.
  split; [vm_compute; reflexivity|].
  split; [vm_compute; reflexivity|].
  split; [vm_compute; reflexivity|].
  split; vm_compute; reflexivity.
Qed.

End Classification.

(** ** Product popularity *)

Section Products.

Variable set_iter : list string -> list string.

Lemma product_sessions_total (us : Sessions) :
  sum (values (product_sessions_of set_iter us))
  = list_sum (map (fun s => List.length (set_iter (product_paths (snd s))))
                  (sessions_of us)).
Proof.
  unfold product_sessions_of.
  assert (H : forall l c,
             sum (values
                    (fold_left
                       (fun product_sessions (s : string * string * list Event) =>
                          fold_left (fun c product => dict_update product 0%nat S c)
                                    (set_iter (product_paths (snd s)))
                                    product_sessions) l c))
             = (list_sum (map (fun s => List.length (set_iter (product_paths (snd s)))) l)
                + sum (values c))%nat).
  { induction l as [|s l IH]; intros c; simpl; [reflexivity|].
    rewrite IH, Counter_step. lia. }
  rewrite H. cbv [sum values map fold_left]. lia.
Qed.

Lemma product_insights_finding (self : Analyzer) :
  let total := sum (values (product_sessions_of set_iter (user_sessions self))) in
  total <> 0%nat ->
  exists finding,
    flows (_analyze_product_insights set_iter self)
    = Py.append (flows self) finding
    /\ title finding = "Most Consulted Products"
    /\ description finding
       = "Analysis of products viewed across " ++ str_of_nat total
           ++ " user sessions"
    /\ dict_get "total_product_sessions" (details finding) = Some (Int total).
Proof.
  cbv zeta. unfold _analyze_product_insights.
  destruct (product_sessions_of set_iter (user_sessions self)) as [|kv ps].
  - intros H. now destruct H.
  - intros _. eexists. cbn [flows]. split; [reflexivity|].
    cbn [title description details]. repeat split.
Qed.

(** C2, at one session that views [/products/1] and then [/products/2]:
    exactly one session views products, and the finding reports 2 under
    [total_product_sessions] and in its description. *)
Theorem product_total_counts_products_per_session :
  valid_set_iter set_iter ->
  let self :=
    process_events
      (loaded [plain_event "u" "s" "2024-01-01T09:00:00Z" "/products/1";
               plain_event "u" "s" "2024-01-01T09:01:00Z" "/products/2"]) in
  List.length (product_viewing_sessions (user_sessions self)) = 1%nat
  /\ exists finding,
       flows (_analyze_product_insights set_iter self) = [finding]
       /\ title finding = "Most Consulted Products"
       /\ description finding
          = "Analysis of products viewed across 2 user sessions"
       /\ dict_get "total_product_sessions" (details finding) = Some (Int 2).
Proof.
  intros Hvalid self. split; [vm_compute; reflexivity|].
  assert (Htotal : sum (values (product_sessions_of set_iter (user_sessions self)))
                   = 2%nat).
  { rewrite product_sessions_total.
    change (sessions_of (user_sessions self))
      with [("u", "s", [plain_event "u" "s" "2024-01-01T09:00:00Z" "/products/1";
                        plain_event "u" "s" "2024-01-01T09:01:00Z" "/products/2"])].
    cbn [map list_sum snd].
    rewrite (Permutation_length (Hvalid _)). vm_compute. reflexivity. }
  destruct (product_insights_finding self) as (finding & Hf & Ht & Hd & Hg).
  { rewrite Htotal. discriminate. }
  rewrite Htotal in Hd, Hg.
  exists finding. repeat split; assumption.
Qed.

End Products.

(** The same session under a set that iterates in insertion order. *)
Lemma product_total_counts_products_per_session_witness :
  valid_set_iter (nodup string_dec)
  /\ let self :=
       process_events
         (loaded [plain_event "u" "s" "2024-01-01T09:00:00Z" "/products/1";
                  plain_event "u" "s" "2024-01-01T09:01:00Z" "/products/2"]) in
     List.length (product_viewing_sessions (user_sessions self)) = 1%nat
     /\ exists finding,
          flows (_analyze_product_insights (nodup string_dec) self) = [finding]
          /\ title finding = "Most Consulted Products"
          /\ description finding
             = "Analysis of products viewed across 2 user sessions"
          /\ dict_get "total_product_sessions" (details finding)
             = Some (Int 2).
Proof.
  assert (H : valid_set_iter (nodup string_dec)) by (intros l; reflexivity).
  split; [exact H|].
  exact (product_total_counts_products_per_session (nodup string_dec) H).
Defined.

(** ** Empty input *)

Section EmptyInput.

Variable fmt1 : Q -> string.
Variable fsqrt : Q -> Q.
Variable set_iter : list string -> list string.

(** C4, at zero events: no step raises, the successful-flow, abandonment,
    product, dwell-time and anomaly steps append nothing, and the
    entry-point step appends a finding whose list is empty. *)
Theorem empty_input_reports_entry_points :
  run_analysis fmt1 fsqrt set_iter []
  = Some (mkAnalyzer [] []
            [mkFinding "User Entry Points"
               "Most common starting pages for user sessions"
               None
               [("top_entry_points", Counts [])]]
            []).
Proof. reflexivity. Qed.

End EmptyInput.

(** ** Rankings: descending order with ties in insertion order *)

Section Rankings.

Lemma filter_filter_andb {A} (P Q : A -> bool) (l : list A) :
  filter P (filter Q l) = filter (fun y => Q y && P y) l.
Proof.
  induction l as [|x l IH]; simpl; [reflexivity|].
  destruct (Q x); simpl; [destruct (P x)|]; now rewrite IH.
Qed.

Lemma filter_none {A} (P : A -> bool) (l : list A) :
  (forall x, In x l -> P x = false) -> filter P l = [].
Proof.
  induction l as [|x l IH]; intros H; simpl; [reflexivity|].
  rewrite (H x (or_introl eq_refl)). apply IH. intros y Hy. apply H. now right.
Qed.

Lemma mem_In (l : list string) (k : string) : mem l k = true <-> In k l.
Proof.
  unfold mem. rewrite existsb_exists. split.
  - intros (x & Hx & E). apply String.eqb_eq in E. now subst.
  - intros H. exists k. split; [exact H|apply String.eqb_refl].
Qed.

Lemma mem_app (l1 l2 : list string) (k : string) :
  mem (l1 ++ l2) k = mem l1 k || mem l2 k.
Proof. unfold mem. apply existsb_app. Qed.

Lemma keys_fold_update {V X} (key : X -> string) (dflt : V)
    (f : X -> V -> V) (l : list X) (c : dict V) :
  keys (fold_left (fun c x => dict_update (key x) dflt (f x) c) l c)
  = (keys c ++ filter (fun y => negb (mem (keys c) y))
                      (first_occurrences (map key l)))%list.
Proof.
  revert c; induction l as [|x l IH]; intros c.
  - simpl. now rewrite app_nil_r.
  - cbn [fold_left first_occurrences filter map]. rewrite IH, keys_dict_update.
    destruct (in_dec string_dec (key x) (keys c)) as [Hin|Hnin].
    + rewrite (proj2 (mem_In _ _) Hin). cbn [negb]. f_equal.
      rewrite filter_filter_andb. apply filter_ext. intros y.
      destruct (String.eqb_spec y (key x)) as [->|]; cbn [negb andb];
        [|reflexivity].
      now rewrite (proj2 (mem_In _ _) Hin).
    + assert (Hm : mem (keys c) (key x) = false).
      { destruct (mem (keys c) (key x)) eqn:E; [|reflexivity].
        apply mem_In in E. contradiction. }
      rewrite Hm. cbn [negb]. rewrite <- app_assoc. cbn [app]. do 2 f_equal.
      rewrite filter_filter_andb. apply filter_ext. intros y.
      rewrite mem_app. unfold mem at 2. cbn [existsb].
      rewrite orb_false_r, negb_orb. apply andb_comm.
Qed.

Lemma filter_true {A} (l : list A) : filter (fun _ => true) l = l.
Proof. induction l as [|x l IH]; simpl; [reflexivity|now rewrite IH]. Qed.

Lemma keys_Counter (l : list string) : keys (Counter l) = first_occurrences l.
Proof.
  unfold Counter.
  rewrite (keys_fold_update (fun k : string => k) 0%nat (fun _ => S)).
  rewrite map_id. simpl. apply filter_true.
Qed.

Lemma fold_left_flat_map {A B C} (f : A -> C -> A) (g : B -> list C)
    (l : list B) (a : A) :
  fold_left f (flat_map g l) a = fold_left (fun a x => fold_left f (g x) a) l a.
Proof.
  revert a; induction l as [|x l IH]; intros a; simpl; [reflexivity|].
  now rewrite fold_left_app, IH.
Qed.

Lemma product_sessions_Counter (set_iter : list string -> list string)
    (us : Sessions) :
  product_sessions_of set_iter us = Counter (product_scan set_iter us).
Proof.
  unfold product_sessions_of, Counter, product_scan.
  now rewrite fold_left_flat_map.
Qed.

Lemma filter_firstn {A} (p : A -> bool) (n : nat) (l : list A) :
  exists m, filter p (firstn n l) = firstn m (filter p l).
Proof.
  revert n; induction l as [|x l IH]; intros n.
  - exists 0%nat. now rewrite firstn_nil.
  - destruct n as [|n]; [now exists 0%nat|].
    destruct (IH n) as [m Hm]. cbn [firstn filter].
    destruct (p x); [exists (S m); cbn [firstn]; now rewrite Hm|now exists m].
Qed.

Lemma StronglySorted_firstn {A} (R : A -> A -> Prop) (n : nat) (l : list A) :
  StronglySorted R l -> StronglySorted R (firstn n l).
Proof.
  intros H; revert n; induction H as [|x l Hs IH Hx]; intros n.
  - rewrite firstn_nil. constructor.
  - destruct n as [|n]; [constructor|]. cbn [firstn].
    constructor; [apply IH|].
    apply Forall_forall. intros y Hy.
    rewrite Forall_forall in Hx. apply Hx.
    rewrite <- (firstn_skipn n l). apply in_or_app. now left.
Qed.

Lemma order_of_prefix {V} (p : string * V -> bool) (c : dict V) :
  NoDup (keys c) ->
  forall m, lists_in_order_of (keys c) (map fst (firstn m (filter p c))).
Proof.
  unfold lists_in_order_of, keys.
  induction c as [|[k v] c IH]; intros Hnd m.
  - simpl. now rewrite firstn_nil.
  - inversion Hnd as [|? ? Hk Hc]; subst. specialize (IH Hc).
    assert (Hsub : forall n y, In y (map fst (firstn n (filter p c))) ->
                               In y (map fst c)).
    { intros n y Hy. apply in_map_iff in Hy as ([k' v'] & <- & Hy).
      apply in_map_iff. exists (k', v'). split; [reflexivity|].
      assert (Hf : In (k', v') (filter p c)).
      { rewrite <- (firstn_skipn n (filter p c)). apply in_or_app. now left. }
      now apply filter_In in Hf. }
    cbn [filter]. destruct (p (k, v)).
    + destruct m as [|m]; cbn [firstn map fst filter].
      * apply filter_none. reflexivity.
      * unfold mem at 1. cbn [existsb]. rewrite String.eqb_refl. cbn [orb].
        f_equal. rewrite <- (IH m) at 2. apply filter_ext_in.
        intros y Hy. unfold mem. cbn [existsb].
        destruct (String.eqb_spec y k) as [->|]; [contradiction|reflexivity].
    + cbn [map fst filter].
      assert (Hm : mem (map fst (firstn m (filter p c))) k = false).
      { destruct (mem (map fst (firstn m (filter p c))) k) eqn:E;
          [|reflexivity].
        apply mem_In, Hsub in E. contradiction. }
      rewrite Hm. apply IH.
Qed.

Lemma ranking_descending_stable {V} (ge tie : V -> V -> bool) (n : nat)
    (c : dict V) :
  (forall a b, ge a b = true \/ ge b a = true) ->
  (forall a b d, ge a b = true -> ge b d = true -> ge a d = true) ->
  (forall a b v, tie a v = true -> tie b v = true -> ge a b = true) ->
  NoDup (keys c) ->
  descending_stable ge tie (keys c)
    (firstn n (stable_sort (fun a b => ge (snd a) (snd b)) c)).
Proof.
  intros Htot Htrans Htie Hnd. split.
  - apply StronglySorted_firstn.
    apply (stable_sort_sorted (fun a b : string * V => ge (snd a) (snd b))).
    + intros a b. apply Htot.
    + intros a b d. apply Htrans.
  - intros v.
    destruct (filter_firstn (fun a : string * V => tie (snd a) v) n
                (stable_sort (fun a b => ge (snd a) (snd b)) c)) as [m ->].
    rewrite stable_sort_stable.
    + now apply order_of_prefix.
    + intros a b Ha Hb. eapply Htie; eassumption.
Qed.

Lemma most_common_descending_stable (n : nat) (l : list string) :
  descending_stable count_ge Nat.eqb (first_occurrences l)
                    (most_common n (Counter l)).
Proof.
  rewrite <- keys_Counter. unfold most_common.
  apply (ranking_descending_stable count_ge Nat.eqb).
  - intros a b. unfold count_ge.
    destruct (Nat.leb_spec b a); [now left|right].
    apply Nat.leb_le. lia.
  - unfold count_ge. intros a b d H1 H2.
    apply Nat.leb_le in H1, H2. apply Nat.leb_le. lia.
  - unfold count_ge. intros a b v H1 H2.
    apply Nat.eqb_eq in H1, H2. apply Nat.leb_le. lia.
  - apply Counter_NoDup.
Qed.

Lemma sorted_pages_descending_stable (n : nat) (avgs : dict Q) :
  NoDup (keys avgs) ->
  descending_stable duration_ge Qeq_bool (keys avgs)
                    (firstn n (sorted_pages_of avgs)).
Proof.
  intros Hnd. unfold sorted_pages_of.
  apply (ranking_descending_stable duration_ge Qeq_bool); [| | |exact Hnd];
    unfold duration_ge.
  - intros a b. rewrite !Qle_bool_iff.
    destruct (Qlt_le_dec a b) as [H|H]; [right; now apply Qlt_le_weak|now left].
  - intros a b d. rewrite !Qle_bool_iff. intros H1 H2.
    eapply Qle_trans; eassumption.
  - intros a b v. rewrite !Qeq_bool_iff, Qle_bool_iff. intros H1 H2.
    rewrite H1, H2. apply Qle_refl.
Qed.

End Rankings.

(** ** Page dwell time *)

Section PageActivity.

Lemma session_activity_spec (evs : list Event) (pd : dict (list Q)) :
  session_activity evs pd
  = if session_comparable evs
    then Some (fold_left add_duration (session_attributed evs) pd)
    else None.
Proof.
  revert pd; induction evs as [|current rest IH]; intros pd; [reflexivity|].
  destruct rest as [|next rest]; [reflexivity|].
  change (session_activity (current :: next :: rest) pd)
    with (match pair_duration current next with
          | None => None
          | Some (Some d) =>
              session_activity (next :: rest) (add_duration pd (path current, d))
          | Some None => session_activity (next :: rest) pd
          end).
  change (session_comparable (current :: next :: rest))
    with (negb (incomparable current next)
          && session_comparable (next :: rest)).
  change (session_attributed (current :: next :: rest))
    with ((pair_attributed (current, next)
           ++ session_attributed (next :: rest))%list).
  rewrite fold_left_app.
  unfold pair_duration, incomparable, pair_attributed, delta_seconds.
  cbn [fst snd].
  destruct (parse_time (event_time current)) as [a|];
    [|cbn [negb andb fold_left]; apply IH].
  destruct (parse_time (event_time next)) as [b|];
    [|cbn [negb andb fold_left]; apply IH].
  destruct (DT.sub b a) as [us|]; [|reflexivity].
  cbn [negb andb option_map].
  destruct (Qlt_le_dec 0 (inject_Z us / 1000000)); [|apply IH].
  destruct (Qlt_le_dec (inject_Z us / 1000000) 1800); apply IH.
Qed.

Lemma page_durations_spec (us : Sessions) :
  page_durations_of us
  = if pairs_comparable us
    then Some (fold_left add_duration (attributed us) [])
    else None.
Proof.
  unfold page_durations_of, pairs_comparable, attributed.
  generalize (@nil (string * list Q)).
  induction (sessions_of us) as [|s l IH]; intros pd; [reflexivity|].
  cbn [fold_raise forallb flat_map]. rewrite session_activity_spec.
  destruct (session_comparable (snd s)); [|reflexivity].
  cbn [andb]. rewrite fold_left_app. apply IH.
Qed.

Lemma get_fold_durations (p : string) (l : list (string * Q))
    (pd : dict (list Q)) :
  Py.get (dict_get p (fold_left add_duration l pd)) []
  = (Py.get (dict_get p pd) [] ++ durations_of p l)%list.
Proof.
  revert pd; induction l as [|[k d] l IH]; intros pd.
  - simpl. now rewrite app_nil_r.
  - cbn [fold_left]. rewrite IH. unfold add_duration at 1.
    rewrite dict_get_update. unfold durations_of. cbn [fst snd filter].
    destruct (String.eqb_spec k p) as [->|Hne].
    + unfold Py.append. cbn [Py.get map]. now rewrite <- app_assoc.
    + reflexivity.
Qed.

Lemma fold_durations_NoDup (l : list (string * Q)) (pd : dict (list Q)) :
  NoDup (keys pd) -> NoDup (keys (fold_left add_duration l pd)).
Proof.
  revert pd; induction l as [|kd l IH]; intros pd H; [exact H|].
  apply IH, dict_update_NoDup, H.
Qed.

Lemma fold_durations_nonempty (l : list (string * Q)) (pd : dict (list Q)) :
  Forall (fun kv => snd kv <> []) pd ->
  Forall (fun kv => snd kv <> []) (fold_left add_duration l pd).
Proof.
  revert pd; induction l as [|kd l IH]; intros pd H; [exact H|].
  apply IH. apply (Forall_dict_update (fun v : list Q => v <> [])).
  - discriminate.
  - intros v _. unfold Py.append. now destruct v.
  - exact H.
Qed.

Lemma page_avg_durations_nonempty (pd : dict (list Q)) :
  Forall (fun kv => snd kv <> []) pd ->
  page_avg_durations_of pd = map (fun kv => (fst kv, mean (snd kv))) pd.
Proof.
  unfold page_avg_durations_of.
  induction 1 as [|[k ds] pd Hk Hrest IH]; simpl; [reflexivity|].
  destruct ds; [now destruct Hk|]. now rewrite IH.
Qed.

Lemma dict_get_map_values {V W} (g : V -> W) (p : string) (d : dict V) :
  dict_get p (map (fun kv => (fst kv, g (snd kv))) d)
  = option_map g (dict_get p d).
Proof.
  induction d as [|[k v] d IH]; simpl; [reflexivity|].
  now destruct (k =? p).
Qed.

Lemma dict_get_None_keys {V} (p : string) (d : dict V) :
  dict_get p d = None <-> ~ In p (keys d).
Proof.
  induction d as [|[k v] d IH]; simpl; [tauto|].
  destruct (String.eqb_spec k p) as [->|Hne].
  - split; [discriminate|]. intros H. destruct H. now left.
  - rewrite IH. tauto.
Qed.

Lemma attributed_In (us : Sessions) (p : string) (d : Q) :
  In (p, d) (attributed us)
  <-> exists s current next,
        In s (sessions_of us)
        /\ In (current, next) (adjacent_pairs (snd s))
        /\ path current = p
        /\ delta_seconds current next = Some d
        /\ (0 < d)%Q /\ (d < 1800)%Q.
Proof.
  unfold attributed, session_attributed. rewrite in_flat_map. split.
  - intros (s & Hs & Hin). apply in_flat_map in Hin as ([cur nxt] & Hcn & Hin).
    exists s, cur, nxt. unfold pair_attributed in Hin. cbn [fst snd] in Hin.
    destruct (delta_seconds cur nxt) as [d'|]; [|now destruct Hin].
    destruct (Qlt_le_dec 0 d') as [H0|]; [|now destruct Hin].
    destruct (Qlt_le_dec d' 1800) as [H1|]; [|now destruct Hin].
    destruct Hin as [E|[]]. injection E as <- <-. auto 10.
  - intros (s & cur & nxt & Hs & Hcn & <- & Hd & H0 & H1).
    exists s. split; [exact Hs|]. apply in_flat_map.
    exists (cur, nxt). split; [exact Hcn|].
    unfold pair_attributed. cbn [fst snd]. rewrite Hd.
    destruct (Qlt_le_dec 0 d) as [|Hle].
    + destruct (Qlt_le_dec d 1800) as [|Hle]; [now left|].
      exfalso. apply (Qlt_irrefl d), (Qlt_le_trans _ 1800); assumption.
    + exfalso. apply (Qlt_irrefl 0), (Qlt_le_trans _ d); assumption.
Qed.

End PageActivity.

Section PageActivityReport.

Variable fmt1 : Q -> string.

Lemma StronglySorted_impl {A} (R S : A -> A -> Prop) (l : list A) :
  (forall a b, R a b -> S a b) -> StronglySorted R l -> StronglySorted S l.
Proof.
  intros H; induction 1 as [|x l Hs IH Hx]; constructor; [exact IH|].
  eapply Forall_impl; [|exact Hx]. intros y. apply H.
Qed.

Lemma sorted_pages_sorted (avgs : dict Q) :
  StronglySorted (fun a b => (snd b <= snd a)%Q) (sorted_pages_of avgs).
Proof.
  apply (StronglySorted_impl
           (fun a b : string * Q => Qle_bool (snd b) (snd a) = true)).
  - intros a b. apply Qle_bool_iff.
  - apply (stable_sort_sorted
             (fun a b : string * Q => Qle_bool (snd b) (snd a))).
    + intros a b. rewrite !Qle_bool_iff.
      destruct (Qlt_le_dec (snd a) (snd b)) as [H|H];
        [right; now apply Qlt_le_weak|now left].
    + intros a b c. rewrite !Qle_bool_iff. intros H1 H2.
      eapply Qle_trans; eassumption.
Qed.

Lemma dict_get_nonempty {V} (p : string) (d : dict (list V)) (v : list V) :
  Forall (fun kv => snd kv <> []) d -> dict_get p d = Some v -> v <> [].
Proof.
  induction 1 as [|[k w] d Hk Hrest IH]; simpl; [discriminate|].
  destruct (k =? p); [|exact IH]. now intros [= <-].
Qed.

Lemma page_avg_durations_get (l : list (string * Q)) (p : string) :
  dict_get p (page_avg_durations_of (fold_left add_duration l []))
  = match durations_of p l with
    | [] => None
    | _ :: _ => Some (mean (durations_of p l))
    end.
Proof.
  pose proof (fold_durations_nonempty l [] (Forall_nil _)) as Hne.
  rewrite (page_avg_durations_nonempty _ Hne), dict_get_map_values.
  pose proof (get_fold_durations p l []) as Hget. cbn [dict_get Py.get app] in Hget.
  destruct (dict_get p (fold_left add_duration l [])) as [ds|] eqn:E.
  - cbn [Py.get] in Hget. cbn [option_map].
    pose proof (dict_get_nonempty _ _ _ Hne E) as Hds.
    rewrite <- Hget. destruct ds; [now destruct Hds|reflexivity].
  - cbn [Py.get] in Hget. now rewrite <- Hget.
Qed.

(** When the timestamps of adjacent events can be subtracted, the
    dwell-time analysis returns and its result is as [dwell_time_report]
    says. *)
Lemma page_activity_comparable (self : Analyzer) :
  pairs_comparable (user_sessions self) = true ->
  exists result,
    _analyze_page_activity fmt1 self = Some result
    /\ dwell_time_report fmt1 self result.
Proof.
  intros Hc.
  assert (Hpd : page_durations_of (user_sessions self)
                = Some (fold_left add_duration
                          (attributed (user_sessions self)) []))
    by now rewrite page_durations_spec, Hc.
  pose proof (fun p => page_avg_durations_get
                         (attributed (user_sessions self)) p) as Havg.
  pose proof (stable_sort_perm
                (fun a b : string * Q => Qle_bool (snd b) (snd a))
                (page_avg_durations_of
                   (fold_left add_duration
                      (attributed (user_sessions self)) []))) as Hperm.
  pose proof (sorted_pages_sorted
                (page_avg_durations_of
                   (fold_left add_duration
                      (attributed (user_sessions self)) []))) as Hsorted.
  unfold _analyze_page_activity, dwell_time_report. rewrite Hpd.
  fold (sorted_pages_of
          (page_avg_durations_of
             (fold_left add_duration (attributed (user_sessions self)) [])))
    in Hperm.
  remember (page_avg_durations_of
              (fold_left add_duration (attributed (user_sessions self)) []))
    as avgs eqn:Eavgs.
  assert (Hlen : List.length (sorted_pages_of avgs) = List.length avgs)
    by apply stable_sort_length.
  destruct avgs as [|kv avgs]; eexists; (split; [reflexivity|]);
    (split; [intros p d; apply attributed_In|]);
    eexists; (split; [reflexivity|]);
    (split; [intros p; now rewrite get_fold_durations|]);
    cbv zeta; rewrite <- Eavgs;
    (split; [exact Havg|]);
    eexists; (split; [exact Hperm|]); (split; [exact Hsorted|]).
  - reflexivity.
  - now rewrite Hlen.
Qed.

(** X23: [_analyze_page_activity] raises ([TypeError]) exactly when a
    session holds two adjacent events of which one timestamp has a UTC
    offset and the other has none.  Otherwise (a) a pair's time in seconds
    goes to the earlier event's page exactly when it lies strictly between
    0 and 1800, and (b) each page's value is the mean of its attributed
    times, the finding lists the first ten pages in descending order of
    that mean, formatted with an ["s"] suffix, and its overall figure is
    the mean of the per-page means. *)
Theorem page_activity_outcome (self : Analyzer) :
  match _analyze_page_activity fmt1 self with
  | Some result =>
      pairs_comparable (user_sessions self) = true
      /\ dwell_time_report fmt1 self result
  | None => pairs_comparable (user_sessions self) = false
  end.
Proof.
  destruct (pairs_comparable (user_sessions self)) eqn:E.
  - destruct (page_activity_comparable self E) as (result & -> & H).
    now split.
  - unfold _analyze_page_activity. now rewrite page_durations_spec, E.
Qed.

End PageActivityReport.

(** A session of two events five minutes apart. *)
Example page_activity_example :
  let self :=
    process_events
      (loaded [plain_event "u" "s" "2024-01-01T09:00:00Z" "/home";
               plain_event "u" "s" "2024-01-01T09:05:00Z" "/cart"]) in
  pairs_comparable (user_sessions self) = true
  /\ exists result,
       _analyze_page_activity (fun _ => "300.0") self = Some result
       /\ dwell_time_report (fun _ => "300.0") self result.
Proof.
  cbv zeta. split; [vm_compute; reflexivity|].
  apply page_activity_comparable. vm_compute. reflexivity.
Qed.

(** ** The keys of the dwell-time aggregation *)

Section DwellKeys.

Lemma page_durations_keys (us : Sessions) (pd : dict (list Q)) :
  page_durations_of us = Some pd ->
  keys (page_avg_durations_of pd) = first_occurrences (map fst (attributed us))
  /\ NoDup (keys (page_avg_durations_of pd)).
Proof.
  rewrite page_durations_spec.
  destruct (pairs_comparable us); [|discriminate]. intros [= <-].
  pose proof (fold_durations_nonempty (attributed us) [] (Forall_nil _)) as Hne.
  rewrite (page_avg_durations_nonempty _ Hne).
  assert (Hk : keys (map (fun kv : string * list Q => (fst kv, mean (snd kv)))
                         (fold_left add_duration (attributed us) []))
               = keys (fold_left add_duration (attributed us) [])).
  { unfold keys. rewrite map_map. reflexivity. }
  rewrite Hk. split.
  - unfold add_duration.
    rewrite (keys_fold_update (fun kd : string * Q => fst kd) []
               (fun kd l => Py.append l (snd kd))).
    simpl. apply filter_true.
  - apply fold_durations_NoDup. constructor.
Qed.

End DwellKeys.

(** ** Unusual session length *)

Section UnusualSessions.

Variable fmt1 : Q -> string.
Variable fsqrt : Q -> Q.

Lemma incomparable_refl (a : Event) : incomparable a a = false.
Proof.
  unfold incomparable, DT.sub.
  destruct (parse_time (event_time a)) as [t|]; [|reflexivity].
  now destruct (DT.utcoffset t).
Qed.

Lemma calculate_session_duration_spec (evs : list Event) :
  match evs, last_of evs with
  | first :: _, Some last => incomparable first last = false
  | _, _ => True
  end ->
  exists minutes,
    _calculate_session_duration evs = Some minutes
    /\ duration_reported evs minutes.
Proof.
  intros Hc. unfold _calculate_session_duration.
  destruct (Nat.ltb_spec (List.length evs) 2) as [Hlt|Hge].
  - exists 0%Q. split; [reflexivity|]. split; [reflexivity|].
    intros first last d H2. lia.
  - destruct evs as [|first rest]; [simpl in Hge; lia|].
    destruct (last_of (first :: rest)) as [last|] eqn:El.
    + unfold incomparable in Hc.
      destruct (parse_time (event_time first)) as [a|] eqn:Ea.
      * destruct (parse_time (event_time last)) as [b|] eqn:Eb.
        -- destruct (DT.sub b a) as [us|] eqn:Es; [|discriminate].
           eexists. split; [reflexivity|]. split; [intros; lia|].
           intros f l d _ [= <-] Hl Hd. rewrite El in Hl. injection Hl as <-.
           unfold delta_seconds in Hd. rewrite Ea, Eb, Es in Hd.
           now injection Hd as <-.
        -- exists 0%Q. split; [reflexivity|]. split; [intros; lia|].
           intros f l d _ [= <-] Hl Hd. rewrite El in Hl. injection Hl as <-.
           unfold delta_seconds in Hd. rewrite Ea, Eb in Hd. discriminate.
      * exists 0%Q. split; [reflexivity|]. split; [intros; lia|].
        intros f l d _ [= <-] Hl Hd.
        unfold delta_seconds in Hd. rewrite Ea in Hd. discriminate.
    + exists 0%Q. split; [reflexivity|]. split; [intros; lia|].
      intros f l d _ _ Hl. rewrite El in Hl. discriminate.
Qed.

Lemma unusual_sessions_of_spec (threshold : Q) (us : Sessions) :
  durations_comparable us = true ->
  exists unusual_sessions,
    unusual_sessions_of threshold us = Some unusual_sessions
    /\ Forall2 (fun s r =>
                  unusual_user_id r = fst (fst s)
                  /\ unusual_session_id r = snd (fst s)
                  /\ event_count r = List.length (snd s)
                  /\ duration_reported (snd s) (duration_minutes r))
               (flagged_sessions threshold us) unusual_sessions.
Proof.
  unfold durations_comparable, unusual_sessions_of, flagged_sessions.
  set (step := fun unusual_sessions (s : string * string * list Event) => _).
  assert (H : forall l acc,
             forallb (fun s : string * string * list Event =>
                        match snd s, last_of (snd s) with
                        | first :: _, Some last => negb (incomparable first last)
                        | _, _ => true
                        end) l = true ->
             exists found,
               fold_raise step l acc = Some (acc ++ found)%list
               /\ Forall2 (fun s r =>
                             unusual_user_id r = fst (fst s)
                             /\ unusual_session_id r = snd (fst s)
                             /\ event_count r = List.length (snd s)
                             /\ duration_reported (snd s) (duration_minutes r))
                          (filter (fun s => negb (Qle_bool (Q_of_nat (List.length (snd s))) threshold)) l)
                          found).
  { induction l as [|[[u sid] evs] l IH]; intros acc Hall.
    - exists []. split; [simpl; now rewrite app_nil_r|constructor].
    - cbn [forallb] in Hall. apply andb_true_iff in Hall as [Hs Hall].
      cbn [snd] in Hs. cbn [fold_raise filter snd].
      replace (step acc (u, sid, evs))
        with (if Qlt_le_dec threshold (Q_of_nat (List.length evs))
              then match _calculate_session_duration evs with
                   | Some d =>
                       Some (Py.append acc
                               (mkUnusual u sid (List.length evs) d))
                   | None => None
                   end
              else Some acc) by reflexivity.
      destruct (Qlt_le_dec threshold (Q_of_nat (List.length evs))) as [Hlt|Hle].
      + assert (Hb : Qle_bool (Q_of_nat (List.length evs)) threshold = false).
        { destruct (Qle_bool (Q_of_nat (List.length evs)) threshold) eqn:E;
            [|reflexivity].
          apply Qle_bool_iff in E. exfalso.
          apply (Qlt_irrefl threshold), (Qlt_le_trans _ (Q_of_nat (List.length evs)));
            assumption. }
        rewrite Hb. cbn [negb].
        destruct (calculate_session_duration_spec evs) as (m & Hm & Hrep).
        { destruct evs as [|first rest]; [exact I|].
          destruct (last_of (first :: rest)); [|exact I].
          now apply negb_true_iff in Hs. }
        rewrite Hm.
        destruct (IH (Py.append acc (mkUnusual u sid (List.length evs) m)) Hall)
          as (found & Hf & HF).
        exists (mkUnusual u sid (List.length evs) m :: found). split.
        * rewrite Hf. unfold Py.append. now rewrite <- app_assoc.
        * constructor; [|exact HF]. cbn. auto.
      + assert (Hb : Qle_bool (Q_of_nat (List.length evs)) threshold = true)
          by now apply Qle_bool_iff.
        rewrite Hb. cbn [negb]. apply IH, Hall. }
  intros Hall. destruct (H (sessions_of us) [] Hall) as (found & Hf & HF).
  exists found. split; [exact Hf|exact HF].
Qed.

Lemma calculate_session_duration_raises (evs : list Event) :
  duration_comparable evs = false -> _calculate_session_duration evs = None.
Proof.
  unfold duration_comparable, _calculate_session_duration. intros H.
  destruct evs as [|first rest]; [discriminate|].
  destruct (last_of (first :: rest)) as [last|] eqn:El; [|discriminate].
  apply negb_false_iff in H.
  destruct rest as [|second rest].
  - cbn in El. injection El as <-. rewrite incomparable_refl in H.
    discriminate.
  - cbn [List.length Nat.ltb Nat.leb]. unfold incomparable in H.
    destruct (parse_time (event_time first)) as [a|]; [|discriminate].
    destruct (parse_time (event_time last)) as [b|]; [|discriminate].
    now destruct (DT.sub b a).
Qed.

(** The loop over the sessions raises exactly when the first and the last
    timestamp of a flagged session cannot be subtracted, and otherwise
    keeps one record per flagged session, in scan order. *)
Lemma unusual_sessions_of_outcome (threshold : Q) (us : Sessions) :
  match unusual_sessions_of threshold us with
  | Some unusual_sessions =>
      flagged_comparable threshold us = true
      /\ Forall2 (fun s r =>
                    unusual_user_id r = fst (fst s)
                    /\ unusual_session_id r = snd (fst s)
                    /\ event_count r = List.length (snd s)
                    /\ duration_reported (snd s) (duration_minutes r))
                 (flagged_sessions threshold us) unusual_sessions
  | None => flagged_comparable threshold us = false
  end.
Proof.
  unfold flagged_comparable, unusual_sessions_of, flagged_sessions.
  set (step := fun unusual_sessions (s : string * string * list Event) => _).
  set (flagged := fun s : string * string * list Event =>
                    negb (Qle_bool (Q_of_nat (List.length (snd s))) threshold)).
  set (dc := fun s : string * string * list Event =>
               duration_comparable (snd s)).
  assert (H : forall l acc,
             match fold_raise step l acc with
             | Some r =>
                 forallb dc (filter flagged l) = true
                 /\ exists found,
                      r = (acc ++ found)%list
                      /\ Forall2 (fun s r =>
                                    unusual_user_id r = fst (fst s)
                                    /\ unusual_session_id r = snd (fst s)
                                    /\ event_count r = List.length (snd s)
                                    /\ duration_reported (snd s)
                                                         (duration_minutes r))
                                 (filter flagged l) found
             | None => forallb dc (filter flagged l) = false
             end).
  { induction l as [|[[u sid] evs] l IH]; intros acc.
    - cbn. split; [reflexivity|]. exists []. split; [now rewrite app_nil_r|].
      constructor.
    - cbn [fold_raise].
      replace (step acc (u, sid, evs))
        with (if Qlt_le_dec threshold (Q_of_nat (List.length evs))
              then match _calculate_session_duration evs with
                   | Some d =>
                       Some (Py.append acc
                               (mkUnusual u sid (List.length evs) d))
                   | None => None
                   end
              else Some acc) by reflexivity.
      destruct (Qlt_le_dec threshold (Q_of_nat (List.length evs))) as [Hlt|Hle].
      + assert (Hb : Qle_bool (Q_of_nat (List.length evs)) threshold = false).
        { destruct (Qle_bool (Q_of_nat (List.length evs)) threshold) eqn:E;
            [|reflexivity].
          apply Qle_bool_iff in E. exfalso.
          apply (Qlt_irrefl threshold),
                (Qlt_le_trans _ (Q_of_nat (List.length evs))); assumption. }
        assert (Hfilter : filter flagged ((u, sid, evs) :: l)
                          = (u, sid, evs) :: filter flagged l).
        { cbn [filter]. unfold flagged at 1. cbn [snd]. now rewrite Hb. }
        rewrite Hfilter. cbn [forallb].
        replace (dc (u, sid, evs)) with (duration_comparable evs)
          by reflexivity.
        destruct (duration_comparable evs) eqn:Edc.
        * destruct (calculate_session_duration_spec evs) as (m & Hm & Hrep).
          { unfold duration_comparable in Edc.
            destruct evs as [|first rest]; [exact I|].
            destruct (last_of (first :: rest)); [|exact I].
            now apply negb_true_iff in Edc. }
          rewrite Hm.
          specialize (IH (Py.append acc (mkUnusual u sid (List.length evs) m))).
          destruct (fold_raise step l _) as [r|]; [|exact IH].
          destruct IH as (Hall & found & -> & HF).
          split; [exact Hall|].
          exists (mkUnusual u sid (List.length evs) m :: found). split.
          -- unfold Py.append. now rewrite <- app_assoc.
          -- constructor; [|exact HF]. cbn. auto.
        * rewrite (calculate_session_duration_raises evs Edc). reflexivity.
      + assert (Hb : Qle_bool (Q_of_nat (List.length evs)) threshold = true)
          by now apply Qle_bool_iff.
        assert (Hfilter : filter flagged ((u, sid, evs) :: l)
                          = filter flagged l).
        { cbn [filter]. unfold flagged at 1. cbn [snd]. now rewrite Hb. }
        rewrite Hfilter. apply IH. }
  specialize (H (sessions_of us) []).
  destruct (fold_raise step (sessions_of us) []) as [r|]; [|exact H].
  destruct H as (Hall & found & -> & HF). now split.
Qed.

(** X24: [_detect_unusual_behaviors] raises ([TypeError]) exactly when the
    first timestamp of a flagged session has a UTC offset and the last has
    none, or the other way round.  Otherwise the threshold is the mean
    session length plus twice the sample standard deviation when there are
    at least two sessions and twice the mean when there is one; the
    flagged sessions are exactly those whose event count is strictly
    greater than the threshold; the finding is appended only when a
    session is flagged and has severity Medium; and a flagged session's
    duration is the time from its first to its last event in minutes, 0
    below two events. *)
Theorem unusual_behaviors_outcome (self : Analyzer) :
  let us := user_sessions self in
  let threshold := threshold_of fsqrt (session_lengths_of us) in
  match _detect_unusual_behaviors fmt1 fsqrt self with
  | Some result =>
      flagged_comparable threshold us = true
      /\ unusual_sessions_report fmt1 fsqrt self result
  | None => flagged_comparable threshold us = false
  end.
Proof.
  cbv zeta.
  pose proof (unusual_sessions_of_outcome
                (threshold_of fsqrt (session_lengths_of (user_sessions self)))
                (user_sessions self)) as Hout.
  assert (Hthr2 : forall lens : list nat,
             (2 <= List.length (map Q_of_nat lens))%nat ->
             threshold_of fsqrt lens
             = (mean (map Q_of_nat lens)
                + 2 * fsqrt (Qsum (map (fun x => (x - mean (map Q_of_nat lens))
                                                 * (x - mean (map Q_of_nat lens)))
                                       (map Q_of_nat lens))
                             / Q_of_nat (List.length (map Q_of_nat lens) - 1)))%Q).
  { intros lens H. rewrite length_map in H. unfold threshold_of.
    destruct (Nat.ltb_spec 1 (List.length lens)); [reflexivity|lia]. }
  assert (Hthr1 : forall lens : list nat,
             List.length (map Q_of_nat lens) = 1%nat ->
             threshold_of fsqrt lens = (mean (map Q_of_nat lens) * 2)%Q).
  { intros lens H. rewrite length_map in H. unfold threshold_of.
    now rewrite H. }
  unfold _detect_unusual_behaviors, unusual_sessions_report.
  destruct (session_lengths_of (user_sessions self)) as [|n lens] eqn:El.
  - assert (Hnone : flagged_sessions (threshold_of fsqrt [])
                                     (user_sessions self) = []).
    { unfold flagged_sessions. unfold session_lengths_of in El.
      apply map_eq_nil in El. now rewrite El. }
    split; [unfold flagged_comparable; now rewrite Hnone|].
    split; [simpl; lia|]. split; [simpl; lia|].
    exists []. split; [|reflexivity]. rewrite Hnone. constructor.
  - destruct (unusual_sessions_of _ (user_sessions self)) as [found|];
      [|exact Hout].
    destruct Hout as [Hc HF].
    destruct found as [|r found]; cbv beta iota;
      (split; [exact Hc|]);
      (split; [apply Hthr2|]); (split; [apply Hthr1|]);
      eexists; (split; [exact HF|reflexivity]).
Qed.

End UnusualSessions.

(** C7: the claim fails on a grouped event set that validation lets
    through.  Nine sessions of one event and one session of ten events, the
    first of the ten with a timestamp without UTC offset and the others
    with a [Z] timestamp.  The session of ten events exceeds the threshold,
    so by the claim it is flagged and a finding of severity Medium reports
    it; but the subtraction of its first from its last timestamp raises
    [TypeError], which the [except (ValueError, AttributeError)] of
    [_calculate_session_duration] does not catch, so
    [_detect_unusual_behaviors] raises and appends nothing. *)
Theorem unusual_behaviors_raises_on_mixed_offsets :
  let visit u :=
    raw_event (String (ascii_of_nat (65 + u)) "") "s"
              "2024-01-01T09:00:00Z" "/home" in
  let click m :=
    raw_event "busy" "s"
              ("2024-01-01T10:0" ++ String (ascii_of_nat (48 + m)) ":00Z")
              "/cart" in
  let records :=
    (map visit (seq 0 9)
     ++ raw_event "busy" "s" "2024-01-01T10:00:00" "/cart"
     :: map click (seq 1 9))%list in
  let self := process_events (loaded (load_data records)) in
  let us := user_sessions self in
  let busy := lookup_session "busy" "s" us in
  List.length (load_data records) = 19%nat
  /\ session_lengths_of us = [1; 1; 1; 1; 1; 1; 1; 1; 1; 10]%nat
  /\ map fst (flagged_sessions
                (threshold_of sqrt_milli (session_lengths_of us)) us)
     = [("busy", "s")]
  /\ map event_time busy
     = ["2024-01-01T10:00:00"; "2024-01-01T10:01:00Z";
        "2024-01-01T10:02:00Z"; "2024-01-01T10:03:00Z";
        "2024-01-01T10:04:00Z"; "2024-01-01T10:05:00Z";
        "2024-01-01T10:06:00Z"; "2024-01-01T10:07:00Z";
        "2024-01-01T10:08:00Z"; "2024-01-01T10:09:00Z"]
  /\ _calculate_session_duration busy = None
  /\ forall fmt1, _detect_unusual_behaviors fmt1 sqrt_milli self = None.
Proof.
  cbv zeta.
  split; [vm_compute; reflexivity|].
  split; [vm_compute; reflexivity|].
  split; [vm_compute; reflexivity|].
  split; [vm_compute; reflexivity|].
  split; [vm_compute; reflexivity|].
  intros fmt1. vm_compute. reflexivity.
Qed.

(** * Further properties of the pipeline *)

(** ** Loading and sorting *)

Section Loading.

Lemma load_data_parses (records : list RawRecord) :
  Forall (fun e => parse_time (event_time e) <> None) (load_data records).
Proof.
  induction records as [|r rs IH]; [constructor|].
  cbn [load_data]. destruct (_is_valid_event r) eqn:E; [|exact IH].
  destruct r as [[u|] [s|] [t|] [p|] c x]; try discriminate E.
  unfold _is_valid_event in E. cbn in E.
  cbn [as_event raw_user_id raw_session_id raw_event_time raw_path
       raw_css raw_text].
  constructor; [|exact IH]. cbn [event_time].
  destruct (parse_time t); [discriminate|discriminate E].
Qed.

(** X1: [load_data] keeps exactly the records that [_is_valid_event]
    accepts, in their input order, and the [event_time] of every event it
    keeps parses. *)
Theorem load_data_keeps_valid_records (records : list RawRecord) :
  map Some (load_data records) = map as_event (filter _is_valid_event records)
  /\ Forall (fun e => parse_time (event_time e) <> None) (load_data records).
Proof.
  induction records as [|r rs [IH1 IH2]]; [split; [reflexivity|constructor]|].
  cbn [load_data filter].
  destruct (_is_valid_event r) eqn:E; [|split; assumption].
  destruct r as [[u|] [s|] [t|] [p|] c x]; try discriminate E.
  unfold _is_valid_event in E. cbn in E.
  cbn [as_event raw_user_id raw_session_id raw_event_time raw_path
       raw_css raw_text map].
  split.
  - now rewrite IH1.
  - constructor; [|exact IH2]. cbn [event_time].
    destruct (parse_time t); [discriminate|discriminate E].
Qed.

Lemma leb_refl (s : string) : String.leb s s = true.
Proof.
  unfold String.leb.
  pose proof (proj2 (String_as_OT.cmp_eq s s) eq_refl) as H.
  unfold String_as_OT.cmp in H. now rewrite H.
Qed.

(** X2: [process_events] leaves in [self.events] a stable sort of the
    loaded events by the text of [event_time]: the same events, in
    ascending order of that text, and events with the same text in their
    input order. *)
Theorem process_events_sorts_stably (evs : list Event) :
  let sorted := events (process_events (loaded evs)) in
  Permutation sorted evs
  /\ ascending_text sorted
  /\ forall t,
       filter (fun e => event_time e =? t) sorted
       = filter (fun e => event_time e =? t) evs.
Proof.
  cbv zeta. unfold process_events, loaded. cbn [events].
  destruct evs as [|e evs]; [repeat split; constructor|].
  cbn [events]. split; [apply stable_sort_perm|].
  split; [apply sort_events_sorted|].
  intros t. apply stable_sort_stable.
  intros a b Ha Hb.
  apply String.eqb_eq in Ha, Hb. rewrite Ha, Hb. apply leb_refl.
Qed.

End Loading.

(** ** The grouped structure *)

Section GroupedStructure.

Lemma lookup_group_event (u s : string) (us : Sessions) (e : Event) :
  lookup_session u s (group_event us e)
  = if same_session u s e
    then Py.append (lookup_session u s us) e
    else lookup_session u s us.
Proof.
  unfold lookup_session, group_event, same_session.
  rewrite dict_get_update.
  destruct (String.eqb_spec (user_id e) u) as [->|Hu]; cbn [andb Py.get].
  - rewrite dict_get_update.
    destruct (String.eqb_spec (session_id e) s) as [->|Hs]; reflexivity.
  - reflexivity.
Qed.

Lemma lookup_fold_group (u s : string) (l : list Event) (us : Sessions) :
  lookup_session u s (fold_left group_event l us)
  = (lookup_session u s us ++ filter (same_session u s) l)%list.
Proof.
  revert us; induction l as [|e l IH]; intros us; cbn [fold_left filter].
  - now rewrite app_nil_r.
  - rewrite IH, lookup_group_event.
    destruct (same_session u s e); [|reflexivity].
    unfold Py.append. now rewrite <- app_assoc.
Qed.

Lemma group_event_distinct_keys (us : Sessions) (e : Event) :
  distinct_keys us -> distinct_keys (group_event us e).
Proof.
  intros [H1 H2]. unfold group_event. split.
  - apply dict_update_NoDup, H1.
  - apply (Forall_dict_update
             (fun ss : dict (list Event) => NoDup (keys ss))).
    + apply dict_update_NoDup. constructor.
    + intros ss Hss. apply dict_update_NoDup, Hss.
    + exact H2.
Qed.

Lemma fold_group_distinct_keys (l : list Event) (us : Sessions) :
  distinct_keys us -> distinct_keys (fold_left group_event l us).
Proof.
  revert us; induction l as [|e l IH]; intros us H; [exact H|].
  apply IH, group_event_distinct_keys, H.
Qed.

Lemma dict_get_In {V} (k : string) (v : V) (d : dict V) :
  NoDup (keys d) -> In (k, v) d -> dict_get k d = Some v.
Proof.
  induction d as [|[k' v'] d IH]; intros Hnd Hin; [now destruct Hin|].
  inversion Hnd as [|? ? Hk Hd]; subst. cbn [dict_get].
  destruct Hin as [[= -> ->]|Hin].
  - now rewrite String.eqb_refl.
  - destruct (String.eqb_spec k' k) as [->|Hne]; [|now apply IH].
    destruct Hk. apply in_map_iff. now exists (k, v).
Qed.

Lemma sessions_of_In (us : Sessions) (u s : string) (l : list Event) :
  In (u, s, l) (sessions_of us)
  <-> exists ss, In (u, ss) us /\ In (s, l) ss.
Proof.
  unfold sessions_of. rewrite in_flat_map. split.
  - intros ([u' ss] & Hu & Hin). apply in_map_iff in Hin as ([s' l'] & E & Hs).
    cbn in E. injection E as -> -> ->. now exists ss.
  - intros (ss & Hu & Hs). exists (u, ss). split; [exact Hu|].
    apply in_map_iff. now exists (s, l).
Qed.

Lemma sessions_of_lookup (us : Sessions) (u s : string) (l : list Event) :
  distinct_keys us -> In (u, s, l) (sessions_of us) ->
  lookup_session u s us = l.
Proof.
  intros [H1 H2] Hin. apply sessions_of_In in Hin as (ss & Hu & Hs).
  unfold lookup_session. rewrite (dict_get_In u ss us H1 Hu). cbn [Py.get].
  rewrite Forall_forall in H2. specialize (H2 _ Hu). cbn in H2.
  now rewrite (dict_get_In s l ss H2 Hs).
Qed.

Lemma sessions_of_keys_NoDup (us : Sessions) :
  distinct_keys us -> NoDup (map fst (sessions_of us)).
Proof.
  unfold sessions_of. induction us as [|[u ss] us IH]; intros [H1 H2].
  - constructor.
  - inversion H1 as [|? ? Hu Hus]; subst.
    inversion H2 as [|? ? Hss Hrest]; subst. cbn in Hss.
    cbn [flat_map fst snd]. rewrite map_app. apply NoDup_app.
    + rewrite map_map. cbn [fst].
      clear -Hss. induction ss as [|[s l] ss IHs]; [constructor|].
      inversion Hss as [|? ? Hs Hrest]; subst. cbn [map fst].
      constructor; [|now apply IHs].
      intros Hin. apply in_map_iff in Hin as ([s' l'] & [= ->] & Hin).
      apply Hs. apply in_map_iff. now exists (s, l').
    + apply IH. now split.
    + intros [u' s'] Hin1 Hin2.
      apply in_map_iff in Hin1 as ([[u1 s1] l1] & E1 & Hin1). cbn in E1.
      apply in_map_iff in Hin1 as ([s2 l2] & E2 & _). cbn in E2.
      injection E2 as <- <- <-. injection E1 as <- <-.
      apply in_map_iff in Hin2 as ([[u3 s3] l3] & E3 & Hin2). cbn in E3.
      injection E3 as -> ->.
      apply in_flat_map in Hin2 as ([u4 ss4] & Hu4 & Hin2).
      apply in_map_iff in Hin2 as (se & E4 & _). cbn in E4.
      injection E4 as -> _ _.
      apply Hu. apply in_map_iff. now exists (u, ss4).
Qed.

Lemma process_events_distinct_keys (evs : list Event) :
  distinct_keys (user_sessions (process_events (loaded evs))).
Proof.
  unfold process_events, loaded. cbn [events user_sessions].
  destruct evs as [|e evs]; cbn [user_sessions].
  - split; constructor.
  - apply fold_group_distinct_keys. split; constructor.
Qed.

(** X3: after [process_events] no (user, session) pair is listed twice,
    and each session holds exactly the events of the sorted list that
    carry its user and session identifiers, in the order of that list. *)
Theorem grouped_sessions_partition_sorted_events (evs : list Event) :
  let self := process_events (loaded evs) in
  NoDup (map fst (sessions_of (user_sessions self)))
  /\ Forall (fun s =>
               snd s = filter (same_session (fst (fst s)) (snd (fst s)))
                              (events self))
            (sessions_of (user_sessions self)).
Proof.
  cbv zeta. split.
  - apply sessions_of_keys_NoDup, process_events_distinct_keys.
  - apply Forall_forall. intros [[u s] l] Hin. cbn [fst snd].
    rewrite <- (sessions_of_lookup _ u s l
                  (process_events_distinct_keys evs) Hin).
    unfold process_events, loaded. cbn [events user_sessions].
    destruct evs as [|e evs]; [reflexivity|]. cbn [events user_sessions].
    now rewrite lookup_fold_group.
Qed.

(** X4: [process_events] is not idempotent: a second call groups every
    event once more, so the sessions then hold each event twice. *)
Theorem process_events_twice_duplicates (evs : list Event) :
  Permutation
    (all_events (user_sessions (process_events (process_events (loaded evs)))))
    (evs ++ evs).
Proof.
  pose proof (process_events_perm evs) as H1.
  unfold process_events at 1.
  destruct (events (process_events (loaded evs))) as [|e rest] eqn:E.
  - assert (Hevs : evs = []).
    { unfold process_events, loaded in E. cbn [events] in E.
      destruct evs as [|e evs]; [reflexivity|]. cbn [events] in E.
      apply (f_equal (@List.length Event)) in E.
      unfold sort_events in E. rewrite stable_sort_length in E.
      discriminate. }
    subst evs. exact H1.
  - cbn [user_sessions]. rewrite fold_group_perm, H1.
    apply Permutation_app_head.
    unfold sort_events. rewrite stable_sort_perm, <- E.
    unfold process_events, loaded. cbn [events].
    destruct evs as [|e' evs]; [reflexivity|]. cbn [events].
    apply stable_sort_perm.
Qed.

Lemma fold_group_users_nonempty (l : list Event) (us : Sessions) :
  Forall (fun u => snd u <> []) us ->
  Forall (fun u => snd u <> []) (fold_left group_event l us).
Proof.
  revert us; induction l as [|e l IH]; intros us H; [exact H|].
  apply IH. unfold group_event.
  apply (Forall_dict_update (fun ss : dict (list Event) => ss <> [])).
  - discriminate.
  - intros ss _. destruct ss as [|[k v] ss]; cbn; [discriminate|].
    destruct (k =? session_id e); discriminate.
  - exact H.
Qed.

Lemma total_sessions_length (self : Analyzer) :
  total_sessions self = List.length (sessions_of (user_sessions self)).
Proof.
  unfold total_sessions, sessions_of. rewrite sum_list_sum.
  induction (user_sessions self) as [|[u ss] us IH]; [reflexivity|].
  cbn [map flat_map snd]. rewrite length_app, length_map, <- IH.
  reflexivity.
Qed.

(** X5: the summary figures of the report after [process_events]: the
    session total counts the (user, session) entries, every user has at
    least one session, so that the total is at least the number of users,
    the event total is the sum of the sessions' event counts, and the
    average number of sessions per user is 0 without users and at least 1
    otherwise. *)
Theorem report_summary_consistent (evs : list Event) :
  let self := process_events (loaded evs) in
  total_sessions self = List.length (sessions_of (user_sessions self))
  /\ Forall (fun u => snd u <> []) (user_sessions self)
  /\ (List.length (user_sessions self) <= total_sessions self)%nat
  /\ List.length (events self) = sum (session_lengths_of (user_sessions self))
  /\ match user_sessions self with
     | [] => avg_sessions_per_user self = 0%Q
     | _ :: _ => (1 <= avg_sessions_per_user self)%Q
     end.
Proof.
  cbv zeta.
  assert (Hne : Forall (fun u : string * dict (list Event) => snd u <> [])
                       (user_sessions (process_events (loaded evs)))).
  { unfold process_events, loaded. cbn [events user_sessions].
    destruct evs as [|e evs]; [constructor|]. cbn [user_sessions].
    apply fold_group_users_nonempty. constructor. }
  assert (Hle : (List.length (user_sessions (process_events (loaded evs)))
                 <= total_sessions (process_events (loaded evs)))%nat).
  { unfold total_sessions. rewrite sum_list_sum.
    induction Hne as [|[u ss] us Hu Hrest IH]; [cbn; lia|].
    cbn in Hu. destruct ss; [now destruct Hu|].
    simpl. simpl in IH. lia. }
  split; [apply total_sessions_length|].
  split; [exact Hne|]. split; [exact Hle|]. split.
  2:{ unfold avg_sessions_per_user.
      destruct (user_sessions (process_events (loaded evs))) as [|u us] eqn:E;
        [reflexivity|].
      apply Qle_shift_div_l.
      - unfold Q_of_nat, Qlt. simpl. lia.
      - rewrite Qmult_1_l. unfold Q_of_nat. rewrite <- Zle_Qle. lia. }
  - rewrite session_lengths_total.
    rewrite (Permutation_length (process_events_perm evs)).
    unfold process_events, loaded. cbn [events].
    destruct evs as [|e evs]; [reflexivity|]. cbn [events].
    unfold sort_events. now rewrite stable_sort_length.
Qed.

End GroupedStructure.

(** ** Checkout detection over several events *)

Section CheckoutComposition.

Lemma check_checkout_events_app (l1 l2 : list Event) :
  check_checkout_events (l1 ++ l2)
  = or_else (check_checkout_events l1) (check_checkout_events l2).
Proof.
  induction l1 as [|e l1 IH].
  - cbn. now destruct (check_checkout_events l2) as [[|]|].
  - cbn [app check_checkout_events]. rewrite IH.
    destruct (get_lower (css e)) as [c|]; [|reflexivity].
    destruct (get_lower (text e)) as [t|]; [|reflexivity].
    destruct (Py.contains "error" c || Py.contains "error" t);
      [reflexivity|].
    destruct (Py.contains "cancel" c || Py.contains "cancel" t);
      [reflexivity|].
    now destruct (Py.contains "place order" t).
Qed.

(** X6: the checkout outcome of a session is decided event by event: the
    outcome of a session made of two parts is the outcome of the first
    part unless that is [False], and then the outcome of the second part
    (the session is successful exactly when one of the parts is, and an
    exception of the first part is an exception of the whole); events on
    other pages than [/checkout] never change the outcome. *)
Theorem is_successful_checkout_app (l1 l2 : list Event) :
  _is_successful_checkout (l1 ++ l2)
  = or_else (_is_successful_checkout l1) (_is_successful_checkout l2)
  /\ _is_successful_checkout l1
     = _is_successful_checkout (checkout_events_of l1).
Proof.
  rewrite !is_successful_checkout_unfold. split.
  - unfold checkout_events_of. rewrite filter_app.
    apply check_checkout_events_app.
  - f_equal. unfold checkout_events_of.
    rewrite filter_filter_andb. apply filter_ext. intros e.
    now destruct (path e =? "/checkout").
Qed.

Lemma filter_partition_length {A} (p q : A -> bool) (l : list A) :
  (forall x, In x l -> q x = negb (p x)) ->
  (List.length (filter p l) + List.length (filter q l) = List.length l)%nat.
Proof.
  induction l as [|x l IH]; intros H; [reflexivity|].
  cbn [filter]. rewrite (H x (or_introl eq_refl)).
  specialize (IH (fun y Hy => H y (or_intror Hy))).
  destruct (p x); cbn [negb List.length]; lia.
Qed.

Lemma classifiable_exclusive (l : list (string * string * list Event)) :
  forallb (fun s => classifiable (snd s)) l = true ->
  forall s, In s l -> abandoned (snd s) = negb (successful (snd s)).
Proof.
  intros H s Hs. rewrite forallb_forall in H. specialize (H s Hs).
  unfold classifiable, abandoned, successful in *.
  now destruct (_is_successful_checkout (snd s)) as [[|]|].
Qed.

(** X7: the classification loop of [analyze_flows] raises when the
    checkout test raises on a session.  Otherwise it puts every session
    into exactly one of the two lists: the successful flows are the
    records, in scan order, of the sessions on which the checkout test
    returns [True], the abandoned flows those of the sessions on which it
    returns [False], with [last_path] the last path of the session, the
    path sequences are those of all sessions, and the two lists together
    are as many as the sessions. *)
Theorem classify_partitions_sessions (us : Sessions) :
  match classify us with
  | Some (successful_checkouts, abandoned_flows, path_sequences) =>
      successful_checkouts
      = map (fun s => mkSuccessFlow (fst (fst s)) (snd (fst s))
                        (map path (snd s)) (snd s))
            (filter (fun s => match _is_successful_checkout (snd s) with
                              | Some true => true
                              | _ => false
                              end) (sessions_of us))
      /\ abandoned_flows
         = map (fun s => mkAbandonedFlow (fst (fst s)) (snd (fst s))
                           (map path (snd s)) (last_of (map path (snd s)))
                           (snd s))
               (filter (fun s => match _is_successful_checkout (snd s) with
                                 | Some false => true
                                 | _ => false
                                 end) (sessions_of us))
      /\ path_sequences = map (fun s => map path (snd s)) (sessions_of us)
      /\ (forall s, In s (sessions_of us) ->
                    _is_successful_checkout (snd s) <> None)
      /\ (List.length successful_checkouts + List.length abandoned_flows
          = List.length (sessions_of us))%nat
  | None =>
      exists s, In s (sessions_of us) /\ _is_successful_checkout (snd s) = None
  end.
Proof.
  rewrite classify_spec.
  destruct (forallb (fun s => classifiable (snd s)) (sessions_of us)) eqn:E.
  - split; [reflexivity|]. split; [reflexivity|]. split; [reflexivity|].
    split.
    + intros s Hs. rewrite forallb_forall in E. specialize (E s Hs).
      unfold classifiable in E.
      now destruct (_is_successful_checkout (snd s)).
    + rewrite !length_map. apply filter_partition_length.
      now apply classifiable_exclusive.
  - assert (H : existsb (fun s => negb (classifiable (snd s))) (sessions_of us)
                = true).
    { clear -E. induction (sessions_of us) as [|s l IH]; [discriminate|].
      cbn [forallb existsb] in *.
      destruct (classifiable (snd s)); [now apply IH|reflexivity]. }
    apply existsb_exists in H as (s & Hs & Hc). exists s. split; [exact Hs|].
    unfold classifiable in Hc.
    now destruct (_is_successful_checkout (snd s)).
Qed.

End CheckoutComposition.

(** ** What the counts count *)

Section Counts.

Lemma Counter_step_get (k : string) (l : list string) (c : dict nat) :
  Py.get (dict_get k (fold_left (fun c k => dict_update k 0%nat S c) l c)) 0%nat
  = (Py.get (dict_get k c) 0 + count_occ string_dec l k)%nat.
Proof.
  revert c; induction l as [|x l IH]; intros c; cbn [fold_left count_occ].
  - lia.
  - rewrite IH, dict_get_update.
    destruct (String.eqb_spec x k) as [->|Hne].
    + destruct (string_dec k k); [|congruence]. cbn [Py.get]. lia.
    + destruct (string_dec x k); [congruence|]. reflexivity.
Qed.

Lemma Counter_get (k : string) (l : list string) :
  Py.get (dict_get k (Counter l)) 0%nat = count_occ string_dec l k.
Proof. unfold Counter. now rewrite Counter_step_get. Qed.

Lemma Counter_step_positive (l : list string) (c : dict nat) :
  Forall (fun kv => 1 <= snd kv)%nat c ->
  Forall (fun kv => 1 <= snd kv)%nat
         (fold_left (fun c k => dict_update k 0%nat S c) l c).
Proof.
  revert c; induction l as [|x l IH]; intros c H; [exact H|].
  apply IH. apply (Forall_dict_update (fun v : nat => (1 <= v)%nat)); auto.
Qed.

Lemma most_common_In (n : nat) (c : dict nat) (kv : string * nat) :
  In kv (most_common n c) -> In kv c.
Proof.
  unfold most_common. intros H.
  apply (Permutation_in _
           (stable_sort_perm (fun a b : string * nat => (snd b <=? snd a)%nat) c)).
  rewrite <- (firstn_skipn n (stable_sort _ c)). apply in_or_app. now left.
Qed.

(** Every entry of a ranking of [Counter l] carries the number of
    occurrences of its key in [l], which is at least 1. *)
Lemma most_common_counts (n : nat) (l : list string) :
  Forall (fun kv => snd kv = count_occ string_dec l (fst kv)
                    /\ (1 <= snd kv)%nat)
         (most_common n (Counter l)).
Proof.
  apply Forall_forall. intros [k v] Hin. apply most_common_In in Hin.
  cbn [fst snd]. split.
  - rewrite <- Counter_get.
    now rewrite (dict_get_In k v _ (Counter_NoDup l) Hin).
  - pose proof (Counter_step_positive l [] (Forall_nil _)) as Hpos.
    rewrite Forall_forall in Hpos. apply (Hpos (k, v) Hin).
Qed.

Lemma list_sum_cons (x : nat) (l : list nat) :
  list_sum (x :: l) = (x + list_sum l)%nat.
Proof. reflexivity. Qed.

Lemma count_occ_flat_map {A} (f : A -> list string) (k : string)
    (l : list A) :
  count_occ string_dec (flat_map f l) k
  = list_sum (map (fun x => count_occ string_dec (f x) k) l).
Proof.
  induction l as [|x l IH]; [reflexivity|].
  cbn [flat_map map]. now rewrite count_occ_app, IH, list_sum_cons.
Qed.

Lemma list_sum_indicator {A} (p : A -> bool) (l : list A) :
  list_sum (map (fun x => if p x then 1 else 0)%nat l)
  = List.length (filter p l).
Proof.
  induction l as [|x l IH]; [reflexivity|].
  cbn [map filter]. rewrite list_sum_cons, IH. now destruct (p x).
Qed.




End Counts.

Section ProductCounts.

Variable set_iter : list string -> list string.

Lemma count_occ_nodup (l : list string) (k : string) :
  count_occ string_dec (nodup string_dec l) k
  = if mem l k then 1%nat else 0%nat.
Proof.
  destruct (mem l k) eqn:E.
  - apply mem_In in E. apply (nodup_In string_dec) in E.
    pose proof (proj1 (NoDup_count_occ' string_dec (nodup string_dec l))
                  (NoDup_nodup string_dec l) k E) as H.
    exact H.
  - assert (Hn : ~ In k (nodup string_dec l)).
    { intros H. apply nodup_In, mem_In in H. congruence. }
    now apply (count_occ_not_In string_dec).
Qed.

Lemma first_occurrences_In (l : list string) (y : string) :
  In y (first_occurrences l) <-> In y l.
Proof.
  clear set_iter.
  induction l as [|x l IH]; [reflexivity|].
  cbn [first_occurrences In]. rewrite filter_In, IH.
  destruct (String.eqb_spec y x) as [->|Hne]; cbn [negb].
  - intuition congruence.
  - intuition congruence.
Qed.

Lemma product_scan_In (us : Sessions) (p : string) :
  valid_set_iter set_iter ->
  In p (product_scan set_iter us) <-> In p (product_views us).
Proof.
  intros Hv. unfold product_scan, product_views. rewrite !in_flat_map.
  split; intros (s & Hs & Hp); exists s; (split; [exact Hs|]).
  - apply (Permutation_in _ (Hv _)) in Hp. now apply nodup_In in Hp.
  - apply (Permutation_in _ (Permutation_sym (Hv _))). now apply nodup_In.
Qed.

(** Whatever the order in which a session's set of products is iterated,
    the counter holds for every product the number of sessions that view
    it at least once, it has one entry per distinct product, and every
    ranked product carries that number of sessions. *)
Lemma product_counter_spec (us : Sessions) :
  valid_set_iter set_iter ->
  (forall p,
      Py.get (dict_get p (product_sessions_of set_iter us)) 0%nat
      = List.length (filter (views_product p) (sessions_of us)))
  /\ List.length (product_sessions_of set_iter us)
     = List.length (nodup string_dec (product_views us))
  /\ forall n,
       Forall (fun pn =>
                 snd pn = List.length (filter (views_product (fst pn))
                                              (sessions_of us))
                 /\ (1 <= snd pn)%nat)
              (most_common n (product_sessions_of set_iter us)).
Proof.
  intros Hv. rewrite product_sessions_Counter.
  assert (Hcount : forall p,
             count_occ string_dec (product_scan set_iter us) p
             = List.length (filter (views_product p) (sessions_of us))).
  { intros p. unfold product_scan. rewrite count_occ_flat_map.
    rewrite <- list_sum_indicator. f_equal. apply map_ext. intros s.
    rewrite (proj1 (Permutation_count_occ string_dec _ _) (Hv _)).
    apply count_occ_nodup. }
  split; [intros p; now rewrite Counter_get|]. split.
  - rewrite <- (length_map fst). fold (keys (Counter (product_scan set_iter us))).
    rewrite keys_Counter. apply Permutation_length, NoDup_Permutation.
    + rewrite <- keys_Counter. apply Counter_NoDup.
    + apply NoDup_nodup.
    + intros p. rewrite first_occurrences_In, nodup_In.
      now apply product_scan_In.
  - intros n. eapply Forall_impl; [|apply most_common_counts].
    intros [p k] [-> Hn]. cbn [fst snd] in *. now rewrite <- Hcount.
Qed.

End ProductCounts.



(** ** Long gaps *)

Section TimeGaps.

Variable fmt1 : Q -> string.

Lemma get_fold_group {X V} (key : X -> string) (val : X -> V) (p : string)
    (l : list X) (d : dict (list V)) :
  Py.get (dict_get p
            (fold_left (fun d x =>
                          dict_update (key x) []
                                      (fun l => Py.append l (val x)) d) l d))
         []
  = (Py.get (dict_get p d) [] ++ map val (filter (fun x => key x =? p) l))%list.
Proof.
  revert d; induction l as [|x l IH]; intros d.
  - simpl. now rewrite app_nil_r.
  - cbn [fold_left filter]. rewrite IH, dict_get_update.
    destruct (String.eqb_spec (key x) p) as [->|Hne]; [|reflexivity].
    unfold Py.append. cbn [Py.get map]. now rewrite <- app_assoc.
Qed.

Lemma session_gaps_spec (u s : string) (evs : list Event) (acc : list Gap) :
  session_gaps u s evs acc
  = if session_comparable evs
    then Some (acc ++ flat_map (pair_gap_found u s) (adjacent_pairs evs))%list
    else None.
Proof.
  revert acc; induction evs as [|prev rest IH]; intros acc.
  - simpl. now rewrite app_nil_r.
  - destruct rest as [|curr rest]; [simpl; now rewrite app_nil_r|].
    change (session_gaps u s (prev :: curr :: rest) acc)
      with (match pair_gap u s prev curr with
            | None => None
            | Some (Some gap) =>
                session_gaps u s (curr :: rest) (Py.append acc gap)
            | Some None => session_gaps u s (curr :: rest) acc
            end).
    change (session_comparable (prev :: curr :: rest))
      with (negb (incomparable prev curr) && session_comparable (curr :: rest)).
    change (flat_map (pair_gap_found u s) (adjacent_pairs (prev :: curr :: rest)))
      with ((pair_gap_found u s (prev, curr)
             ++ flat_map (pair_gap_found u s) (adjacent_pairs (curr :: rest)))%list).
    unfold pair_gap, incomparable, pair_gap_found, delta_seconds.
    cbn [fst snd].
    destruct (parse_time (event_time prev)) as [a|];
      [|cbn [negb andb app]; apply IH].
    destruct (parse_time (event_time curr)) as [b|];
      [|cbn [negb andb app]; apply IH].
    destruct (DT.sub b a) as [us|]; [|reflexivity].
    cbn [negb andb option_map].
    destruct (Qlt_le_dec 300 (inject_Z us / 1000000)); [|apply IH].
    rewrite IH. unfold Py.append.
    destruct (session_comparable (curr :: rest)); [|reflexivity].
    now rewrite <- app_assoc.
Qed.

Lemma long_gaps_spec (us : Sessions) :
  long_gaps_of us
  = if pairs_comparable us then Some (gaps_found us) else None.
Proof.
  unfold long_gaps_of, pairs_comparable, gaps_found.
  assert (H : forall l acc,
             fold_raise (fun gaps (s : string * string * list Event) =>
                           session_gaps (fst (fst s)) (snd (fst s)) (snd s) gaps)
                        l acc
             = if forallb (fun s => session_comparable (snd s)) l
               then Some (acc ++ flat_map
                                   (fun s => flat_map
                                               (pair_gap_found (fst (fst s)) (snd (fst s)))
                                               (adjacent_pairs (snd s))) l)%list
               else None).
  { induction l as [|s l IH]; intros acc.
    - simpl. now rewrite app_nil_r.
    - cbn [fold_raise forallb flat_map]. rewrite session_gaps_spec.
      destruct (session_comparable (snd s)); [|reflexivity].
      cbn [andb]. rewrite IH.
      destruct (forallb _ l); [|reflexivity]. now rewrite <- app_assoc. }
  apply H.
Qed.

Lemma max_gap_sorted (x : Gap) (l : list Gap) :
  StronglySorted (fun a b => (gap_minutes b <= gap_minutes a)%Q) (x :: l) ->
  max_gap x l = x.
Proof.
  intros H. inversion H as [|? ? Hs Hx]; subst. clear H Hs.
  induction l as [|g l IH]; [reflexivity|].
  inversion Hx as [|? ? Hg Hl]; subst. cbn [max_gap].
  destruct (Qlt_le_dec (gap_minutes x) (gap_minutes g)) as [Hlt|_];
    [|now apply IH].
  exfalso. apply (Qlt_irrefl (gap_minutes x)), (Qlt_le_trans _ (gap_minutes g));
    assumption.
Qed.

Lemma sorted_gaps_sorted (l : list Gap) :
  StronglySorted (fun a b => (gap_minutes b <= gap_minutes a)%Q)
    (stable_sort (fun a b => Qle_bool (gap_minutes b) (gap_minutes a)) l).
Proof.
  apply (StronglySorted_impl
           (fun a b : Gap => Qle_bool (gap_minutes b) (gap_minutes a) = true)).
  - intros a b. apply Qle_bool_iff.
  - apply (stable_sort_sorted
             (fun a b : Gap => Qle_bool (gap_minutes b) (gap_minutes a))).
    + intros a b. rewrite !Qle_bool_iff.
      destruct (Qlt_le_dec (gap_minutes a) (gap_minutes b)) as [H|H];
        [right; now apply Qlt_le_weak|now left].
    + intros a b c. rewrite !Qle_bool_iff. intros H1 H2.
      eapply Qle_trans; eassumption.
Qed.

Lemma gaps_found_In (us : Sessions) (g : Gap) :
  In g (gaps_found us)
  <-> exists s current next d,
        In s (sessions_of us)
        /\ In (current, next) (adjacent_pairs (snd s))
        /\ delta_seconds current next = Some d
        /\ (300 < d)%Q
        /\ g = mkGap (fst (fst s)) (snd (fst s)) (d / 60)%Q
                     (path current) (path next).
Proof.
  unfold gaps_found. rewrite in_flat_map. split.
  - intros (s & Hs & Hin). apply in_flat_map in Hin as ([cur nxt] & Hcn & Hin).
    exists s, cur, nxt. unfold pair_gap_found in Hin. cbn [fst snd] in Hin.
    destruct (delta_seconds cur nxt) as [d|]; [|now destruct Hin].
    destruct (Qlt_le_dec 300 d) as [H0|]; [|now destruct Hin].
    destruct Hin as [<-|[]]. exists d. auto 10.
  - intros (s & cur & nxt & d & Hs & Hcn & Hd & H0 & ->).
    exists s. split; [exact Hs|]. apply in_flat_map.
    exists (cur, nxt). split; [exact Hcn|].
    unfold pair_gap_found. cbn [fst snd]. rewrite Hd.
    destruct (Qlt_le_dec 300 d) as [|Hle]; [now left|].
    exfalso. apply (Qlt_irrefl 300), (Qlt_le_trans _ d); assumption.
Qed.

(** X10: when the timestamps of adjacent events can be subtracted,
    [_detect_time_gaps] returns; its gaps are exactly the adjacent pairs
    more than 300 seconds apart, each with the earlier page as the page the
    user was stuck on; it appends nothing without a gap and otherwise one
    finding whose severity is High above ten gaps and Medium otherwise,
    whose examples are the first three gaps in descending order of length,
    whose longest gap is the first of them, and whose per-page lists hold
    each page's gaps in scan order. *)
Theorem detect_time_gaps_spec (self : Analyzer) :
  pairs_comparable (user_sessions self) = true ->
  exists result,
    _detect_time_gaps fmt1 self = Some result
    /\ time_gaps_report fmt1 self result.
Proof.
  intros Hc. unfold _detect_time_gaps, time_gaps_report.
  rewrite long_gaps_spec, Hc.
  pose proof (gaps_found_In (user_sessions self)) as Hin.
  destruct (gaps_found (user_sessions self)) as [|g gaps] eqn:E.
  - exists self. split; [reflexivity|]. repeat split; try apply Hin.
  - eexists. split; [reflexivity|].
    split; [exact Hin|]. cbn [events user_sessions flows anomalies].
    split; [reflexivity|]. split; [reflexivity|]. split; [reflexivity|].
    set (sorted := stable_sort
                     (fun a b => Qle_bool (gap_minutes b) (gap_minutes a))
                     (g :: gaps)).
    assert (Hperm : Permutation sorted (g :: gaps)) by apply stable_sort_perm.
    assert (Hsorted : StronglySorted
                        (fun a b => (gap_minutes b <= gap_minutes a)%Q) sorted)
      by apply sorted_gaps_sorted.
    assert (Hlen : List.length sorted = List.length (g :: gaps))
      by apply stable_sort_length.
    eexists. exists sorted. eexists.
    split; [reflexivity|]. cbn [title severity details dict_get].
    cbn [String.eqb Ascii.eqb Bool.eqb].
    split; [reflexivity|].
    split; [now rewrite Hlen|].
    split; [now rewrite Hlen|].
    split; [exact Hperm|]. split; [exact Hsorted|].
    split; [reflexivity|].
    split.
    { do 3 f_equal.
      destruct sorted as [|x rest] eqn:Es; [discriminate Hlen|].
      cbn [hd tl]. now rewrite (max_gap_sorted x rest Hsorted). }
    split; [reflexivity|]. split; [reflexivity|]. split.
    + rewrite (keys_fold_update (fun gap : Gap => stuck_on_page gap) []
                 (fun gap l => Py.append l gap)).
      change (keys (@nil (string * list Gap))) with (@nil string).
      cbn [app]. apply filter_true.
    + intros p.
      rewrite (get_fold_group (fun gap : Gap => stuck_on_page gap)
                 (fun gap : Gap => gap) p (g :: gaps) []).
      cbn [dict_get Py.get app]. apply map_id.
Qed.

End TimeGaps.

(** Two events 400 seconds apart. *)
Lemma detect_time_gaps_spec_witness :
  let self :=
    process_events
      (loaded [plain_event "u" "s" "2024-01-01T09:00:00Z" "/home";
               plain_event "u" "s" "2024-01-01T09:06:40Z" "/cart"]) in
  pairs_comparable (user_sessions self) = true
  /\ exists result,
       _detect_time_gaps (fun _ => "6.7") self = Some result
       /\ time_gaps_report (fun _ => "6.7") self result.
Proof.
  cbv zeta. split; [vm_compute; reflexivity|].
  apply detect_time_gaps_spec. vm_compute. reflexivity.
Defined.

(** ** Error keywords *)

Section ErrorPatterns.

Lemma readable_iff (e : Event) :
  readable e = false <-> css e = NonString \/ text e = NonString.
Proof.
  unfold readable, get_lower.
  destruct (css e), (text e); cbn; split; intros H;
    try discriminate; try reflexivity; auto;
    destruct H; discriminate.
Qed.

Lemma mentions_error_iff (e : Event) :
  mentions_error e = true
  <-> exists keyword c t,
        In keyword error_keywords
        /\ get_lower (css e) = Some c /\ get_lower (text e) = Some t
        /\ (occurs_in keyword c \/ occurs_in keyword t).
Proof.
  unfold mentions_error, has_error_keyword.
  destruct (get_lower (css e)) as [c|].
  2:{ split; [discriminate|]. intros (k & c & t & _ & H & _). discriminate. }
  destruct (get_lower (text e)) as [t|].
  2:{ split; [discriminate|]. intros (k & c' & t & _ & _ & H & _).
      discriminate. }
  destruct (existsb _ error_keywords) eqn:E.
  - split; [intros _|reflexivity].
    apply existsb_exists in E as (k & Hk & H).
    exists k, c, t. split; [exact Hk|]. split; [reflexivity|].
    split; [reflexivity|].
    apply orb_true_iff in H. now rewrite <- !contains_occurs.
  - split; [discriminate|]. intros (k & c' & t' & Hk & [= <-] & [= <-] & H).
    assert (true = false); [|discriminate].
    rewrite <- E. symmetry. apply existsb_exists. exists k.
    split; [exact Hk|]. apply orb_true_iff. now rewrite !contains_occurs.
Qed.

Lemma error_events_of_cons (e : Event) (evs : list Event) :
  error_events_of (e :: evs)
  = (error_events_of [e] ++ error_events_of evs)%list.
Proof.
  unfold error_events_of. cbn [filter].
  destruct (mentions_error e); cbn [flat_map app]; [|reflexivity].
  now rewrite app_nil_r.
Qed.

(** One turn of the loop: it raises on an event whose [css] or [text] is
    not a string, and otherwise records the event if it has a keyword. *)
Lemma scan_event_spec (acc : list ErrorInfo * dict (list ErrorInfo))
    (e : Event) :
  scan_event acc e
  = if readable e
    then Some ((fst acc ++ error_events_of [e])%list,
               fold_left (fun d i =>
                            dict_update (path (error_event i)) []
                                        (fun l => Py.append l i) d)
                         (error_events_of [e]) (snd acc))
    else None.
Proof.
  destruct acc as [acc pe]. destruct e as [u s t p c x].
  unfold scan_event, error_events_of, mentions_error, readable,
    has_error_keyword, error_info_of, get_lower.
  cbn [filter css text path].
  destruct c, x; cbn [get_str option_map]; try reflexivity;
    (destruct (existsb _ error_keywords);
     cbn [flat_map fold_left fst snd app error_event css text path get_str];
     rewrite ?app_nil_r; reflexivity).
Qed.

Lemma error_scan_spec (evs : list Event) (acc : list ErrorInfo)
    (pe : dict (list ErrorInfo)) :
  fold_raise scan_event evs (acc, pe)
  = if forallb readable evs
    then Some ((acc ++ error_events_of evs)%list,
               fold_left (fun d i =>
                            dict_update (path (error_event i)) []
                                        (fun l => Py.append l i) d)
                         (error_events_of evs) pe)
    else None.
Proof.
  revert acc pe; induction evs as [|e evs IH]; intros acc pe.
  - unfold error_events_of. simpl. now rewrite app_nil_r.
  - cbn [fold_raise forallb]. rewrite scan_event_spec.
    destruct (readable e); [|reflexivity]. cbn [andb fst snd].
    rewrite IH, (error_events_of_cons e evs).
    destruct (forallb readable evs); [|reflexivity].
    now rewrite fold_left_app, <- app_assoc.
Qed.

Lemma error_events_of_In (evs : list Event) (i : ErrorInfo) :
  In i (error_events_of evs)
  <-> exists e,
        In e evs /\ mentions_error e = true
        /\ error_event i = e
        /\ error_type i = "CSS/Text contains error keywords"
        /\ get_str (text e) "N/A" = Some (error_text i)
        /\ get_str (css e) "N/A" = Some (error_css i).
Proof.
  unfold error_events_of. rewrite in_flat_map. split.
  - intros (e & He & Hi). apply filter_In in He as [He Hm].
    exists e. split; [exact He|]. split; [exact Hm|].
    unfold error_info_of in Hi.
    destruct (get_str (text e) "N/A") as [t|]; [|destruct Hi].
    destruct (get_str (css e) "N/A") as [c|]; [|destruct Hi].
    destruct Hi as [<-|[]]. now repeat split.
  - intros (e & He & Hm & Hev & Hty & Ht & Hc).
    exists e. split; [apply filter_In; now split|].
    unfold error_info_of. rewrite Ht, Hc. left.
    destruct i as [ev ty t c]. cbn in *. now subst.
Qed.

Lemma detect_error_patterns_result (self : Analyzer) :
  match _detect_error_patterns self with
  | Some result =>
      forallb readable (events self) = true
      /\ error_patterns_report self result
  | None => forallb readable (events self) = false
  end.
Proof.
  unfold _detect_error_patterns. rewrite error_scan_spec.
  destruct (forallb readable (events self)); [|reflexivity].
  cbn [app]. unfold error_patterns_report.
  destruct (error_events_of (events self)) as [|i errs] eqn:E.
  - split; [reflexivity|]. split; [apply mentions_error_iff|].
    split; [intros i; rewrite <- E; apply error_events_of_In|].
    now repeat split.
  - split; [reflexivity|]. split; [apply mentions_error_iff|].
    split; [intros j; rewrite <- E; apply error_events_of_In|].
    cbn [events user_sessions flows anomalies].
    split; [reflexivity|]. split; [reflexivity|]. split; [reflexivity|].
    eexists. eexists. split; [reflexivity|].
    cbn [title severity details dict_get]. cbn [String.eqb Ascii.eqb Bool.eqb].
    split; [reflexivity|]. split; [reflexivity|]. split; [reflexivity|].
    split; [reflexivity|]. split.
    + rewrite (keys_fold_update (fun i : ErrorInfo => path (error_event i)) []
                 (fun i l => Py.append l i)).
      change (keys (@nil (string * list ErrorInfo))) with (@nil string).
      cbn [app]. apply filter_true.
    + intros p.
      rewrite (get_fold_group (fun i : ErrorInfo => path (error_event i))
                 (fun i : ErrorInfo => i) p (i :: errs) []).
      cbn [dict_get Py.get app]. apply map_id.
Qed.

(** X11: [_detect_error_patterns] raises ([AttributeError]) exactly when
    the [css] or the [text] of an event holds a value that is not a string.
    Otherwise an event counts as an error exactly when its lower-cased
    [css] or [text] (an absent key read as the empty string) contains one
    of the six keywords; nothing is appended without such an event, and
    otherwise one finding of severity High whose total is the number of
    those events and whose per-page lists hold each page's error records
    in the order of [self.events]. *)
Theorem detect_error_patterns_spec (self : Analyzer) :
  match _detect_error_patterns self with
  | Some result =>
      (forall e, In e (events self) ->
                 css e <> NonString /\ text e <> NonString)
      /\ error_patterns_report self result
  | None =>
      exists e, In e (events self) /\ (css e = NonString \/ text e = NonString)
  end.
Proof.
  pose proof (detect_error_patterns_result self) as H.
  destruct (_detect_error_patterns self) as [result|].
  - destruct H as [Hr Hrep]. split; [|exact Hrep].
    intros e He. rewrite forallb_forall in Hr. specialize (Hr e He).
    split; intros Hn;
      assert (readable e = false) by (apply readable_iff; auto); congruence.
  - assert (Hex : existsb (fun e => negb (readable e)) (events self) = true).
    { clear -H. induction (events self) as [|e l IH]; [discriminate|].
      cbn [forallb existsb] in *.
      destruct (readable e); [now apply IH|reflexivity]. }
    apply existsb_exists in Hex as (e & He & Hn). exists e.
    split; [exact He|]. apply readable_iff. now destruct (readable e).
Qed.

End ErrorPatterns.

(** ** A single session *)

Section SingleSession.

Variable fmt1 : Q -> string.
Variable fsqrt : Q -> Q.

Lemma Q_of_nat_nonneg (n : nat) : (0 <= Q_of_nat n)%Q.
Proof. unfold Q_of_nat, Qle. simpl. lia. Qed.

(** X12: with exactly one session the threshold is twice its length, so
    no session is flagged and [_detect_unusual_behaviors] leaves the
    analyzer as it is. *)
Theorem single_session_never_unusual (self : Analyzer) :
  List.length (sessions_of (user_sessions self)) = 1%nat ->
  _detect_unusual_behaviors fmt1 fsqrt self = Some self.
Proof.
  intros H. unfold _detect_unusual_behaviors, session_lengths_of,
              unusual_sessions_of.
  destruct (sessions_of (user_sessions self)) as [|[[u s] evs] rest];
    [discriminate|].
  destruct rest; [|discriminate]. cbn [map snd fold_raise].
  destruct (Qlt_le_dec (threshold_of fsqrt [List.length evs])
                       (Q_of_nat (List.length evs))) as [Hlt|_];
    [|reflexivity].
  exfalso. pose proof (Q_of_nat_nonneg (List.length evs)) as Hq.
  unfold threshold_of, mean, Qsum in Hlt. cbn in Hlt.
  change (Q_of_nat 1) with 1%Q in Hlt.
  revert Hlt Hq. generalize (Q_of_nat (List.length evs)). intros q Hlt Hq.
  assert (E : ((0 + q) / 1 * 2 == q * 2)%Q) by field.
  rewrite E in Hlt. lra.
Qed.

End SingleSession.

(** One session of one event. *)
Lemma single_session_never_unusual_witness :
  let self :=
    process_events
      (loaded [plain_event "u" "s" "2024-01-01T09:00:00Z" "/home"]) in
  List.length (sessions_of (user_sessions self)) = 1%nat
  /\ _detect_unusual_behaviors (fun _ => "-") sqrt_milli self = Some self.
Proof.
  cbv zeta. split; [reflexivity|].
  apply single_session_never_unusual. reflexivity.
Defined.

(** ** Which findings are produced *)

Section Findings.

Variable fmt1 : Q -> string.
Variable fsqrt : Q -> Q.
Variable set_iter : list string -> list string.

Lemma existsb_filter {A} (p : A -> bool) (l : list A) :
  existsb p l = match filter p l with [] => false | _ :: _ => true end.
Proof.
  induction l as [|x l IH]; [reflexivity|].
  cbn [existsb filter]. now destruct (p x).
Qed.

Lemma flow_patterns_frame (successful_checkouts : list SuccessFlow)
    (abandoned_flows : list AbandonedFlow)
    (path_sequences : list (list string)) (self : Analyzer) :
  let result :=
    _analyze_flow_patterns fmt1 successful_checkouts abandoned_flows
                           path_sequences self in
  events result = events self
  /\ user_sessions result = user_sessions self
  /\ anomalies result = anomalies self
  /\ map title (flows result)
     = (map title (flows self)
        ++ match successful_checkouts with
           | [] => []
           | _ :: _ => ["Successful Purchase Flows"]
           end
        ++ match abandoned_flows with
           | [] => []
           | _ :: _ => ["Flow Abandonment Patterns"]
           end
        ++ ["User Entry Points"])%list.
Proof.
  cbv zeta. unfold _analyze_flow_patterns.
  cbn [events user_sessions anomalies flows].
  repeat split.
  destruct successful_checkouts, abandoned_flows; unfold Py.append;
    rewrite ?map_app; cbn [map title app]; rewrite <- ?app_assoc; reflexivity.
Qed.

Lemma product_insights_frame (self : Analyzer) :
  let result := _analyze_product_insights set_iter self in
  events result = events self
  /\ user_sessions result = user_sessions self
  /\ anomalies result = anomalies self
  /\ map title (flows result)
     = (map title (flows self)
        ++ match product_scan set_iter (user_sessions self) with
           | [] => []
           | _ :: _ => ["Most Consulted Products"]
           end)%list.
Proof.
  cbv zeta. unfold _analyze_product_insights.
  assert (Hk : keys (product_sessions_of set_iter (user_sessions self))
               = first_occurrences (product_scan set_iter (user_sessions self)))
    by (rewrite product_sessions_Counter; apply keys_Counter).
  destruct (product_sessions_of set_iter (user_sessions self)) as [|kv ps];
    destruct (product_scan set_iter (user_sessions self)) as [|p scan];
    try discriminate Hk.
  - rewrite app_nil_r. now repeat split.
  - cbn [events user_sessions anomalies flows]. repeat split.
    unfold Py.append. now rewrite map_app.
Qed.

Lemma page_activity_frame (self : Analyzer) :
  let us := user_sessions self in
  match _analyze_page_activity fmt1 self with
  | None => pairs_comparable us = false
  | Some result =>
      pairs_comparable us = true
      /\ events result = events self
      /\ user_sessions result = us
      /\ anomalies result = anomalies self
      /\ map title (flows result)
         = (map title (flows self)
            ++ match attributed us with
               | [] => []
               | _ :: _ => ["Pages with Longest Activity"]
               end)%list
  end.
Proof.
  cbv zeta. unfold _analyze_page_activity.
  destruct (page_durations_of (user_sessions self)) as [pd|] eqn:E.
  - destruct (page_durations_keys _ _ E) as [Hk _].
    rewrite page_durations_spec in E.
    destruct (pairs_comparable (user_sessions self)); [|discriminate].
    destruct (page_avg_durations_of pd) as [|kv avgs];
      destruct (attributed (user_sessions self)) as [|a att];
      try discriminate Hk.
    + rewrite app_nil_r. now repeat split.
    + cbn [events user_sessions anomalies flows]. repeat split.
      unfold Py.append. now rewrite map_app.
  - rewrite page_durations_spec in E.
    now destruct (pairs_comparable (user_sessions self)).
Qed.

Lemma analyze_flows_frame (self : Analyzer) :
  let us := user_sessions self in
  match analyze_flows fmt1 set_iter self with
  | None =>
      forallb (fun s => classifiable (snd s)) (sessions_of us) = false
      \/ pairs_comparable us = false
  | Some result =>
      forallb (fun s => classifiable (snd s)) (sessions_of us) = true
      /\ pairs_comparable us = true
      /\ events result = events self
      /\ user_sessions result = us
      /\ anomalies result = anomalies self
      /\ map title (flows result)
         = (map title (flows self) ++ flow_titles set_iter us)%list
  end.
Proof.
  cbv zeta. unfold analyze_flows. rewrite classify_spec.
  destruct (forallb (fun s => classifiable (snd s))
                    (sessions_of (user_sessions self))); [|now left].
  set (succ := map _ (successful_sessions _)).
  set (aband := map _ (abandoned_sessions _)).
  set (seqs := map _ (sessions_of _)).
  destruct (flow_patterns_frame succ aband seqs self) as (E1 & U1 & A1 & T1).
  set (r1 := _analyze_flow_patterns fmt1 succ aband seqs self) in *.
  destruct (product_insights_frame r1) as (E2 & U2 & A2 & T2).
  set (r2 := _analyze_product_insights set_iter r1) in *.
  pose proof (page_activity_frame r2) as H3. cbv zeta in H3.
  destruct (_analyze_page_activity fmt1 r2) as [r3|].
  - destruct H3 as (C3 & E3 & U3 & A3 & T3).
    rewrite U2, U1 in *.
    split; [reflexivity|].
    split; [exact C3|]. split; [congruence|]. split; [congruence|].
    split; [congruence|].
    rewrite T3, T2, T1. unfold flow_titles. rewrite <- !app_assoc.
    do 2 f_equal.
    + unfold succ, successful_sessions. rewrite existsb_filter.
      now destruct (filter (fun s : string * string * list Event =>
                              successful (snd s))
                           (sessions_of (user_sessions self))).
    + f_equal. unfold aband, abandoned_sessions. rewrite existsb_filter.
      now destruct (filter (fun s : string * string * list Event =>
                              abandoned (snd s))
                           (sessions_of (user_sessions self))).
  - right. now rewrite U2, U1 in H3.
Qed.

Lemma mentions_error_info (e : Event) :
  mentions_error e = true -> exists i, error_info_of e = Some i.
Proof.
  destruct e as [u s t p c x].
  unfold mentions_error, has_error_keyword, error_info_of, get_lower.
  cbn [css text].
  destruct c, x; cbn [get_str option_map]; try discriminate; eauto.
Qed.

Lemma error_events_of_nil (evs : list Event) :
  existsb mentions_error evs
  = match error_events_of evs with [] => false | _ :: _ => true end.
Proof.
  induction evs as [|e evs IH]; [reflexivity|].
  rewrite error_events_of_cons. cbn [existsb]. rewrite IH.
  destruct (mentions_error e) eqn:E.
  - destruct (mentions_error_info e E) as [i Hi].
    replace (error_events_of [e]) with [i]; [reflexivity|].
    unfold error_events_of. cbn [filter]. rewrite E. cbn [flat_map].
    now rewrite Hi.
  - replace (error_events_of [e]) with (@nil ErrorInfo); [reflexivity|].
    unfold error_events_of. cbn [filter]. now rewrite E.
Qed.

Lemma error_patterns_frame (self : Analyzer) :
  match _detect_error_patterns self with
  | None => forallb readable (events self) = false
  | Some result =>
      forallb readable (events self) = true
      /\ events result = events self
      /\ user_sessions result = user_sessions self
      /\ flows result = flows self
      /\ map title (anomalies result)
         = (map title (anomalies self)
            ++ if existsb mentions_error (events self)
               then ["Technical Errors"] else [])%list
  end.
Proof.
  pose proof (detect_error_patterns_result self) as H.
  destruct (_detect_error_patterns self) as [result|]; [|exact H].
  destruct H as (Hr & _ & _ & E & U & F & Hrep).
  split; [exact Hr|]. split; [exact E|]. split; [exact U|]. split; [exact F|].
  rewrite error_events_of_nil.
  destruct (error_events_of (events self)) as [|i errs].
  - rewrite Hrep. now rewrite app_nil_r.
  - destruct Hrep as (finding & pe & -> & Ht & _).
    unfold Py.append. rewrite map_app. cbn [map]. now rewrite Ht.
Qed.

Lemma time_gaps_frame (self : Analyzer) :
  let us := user_sessions self in
  match _detect_time_gaps fmt1 self with
  | None => pairs_comparable us = false
  | Some result =>
      pairs_comparable us = true
      /\ events result = events self
      /\ user_sessions result = us
      /\ flows result = flows self
      /\ map title (anomalies result)
         = (map title (anomalies self)
            ++ match gaps_found us with
               | [] => []
               | _ :: _ => ["User Confusion / Long Delays"]
               end)%list
  end.
Proof.
  cbv zeta. unfold _detect_time_gaps. rewrite long_gaps_spec.
  destruct (pairs_comparable (user_sessions self)); [|reflexivity].
  destruct (gaps_found (user_sessions self)) as [|g gaps].
  - rewrite app_nil_r. now repeat split.
  - cbn [events user_sessions flows anomalies]. repeat split.
    unfold Py.append. now rewrite map_app.
Qed.

Lemma detect_anomalies_Some (self result : Analyzer) :
  detect_anomalies fmt1 fsqrt self = Some result ->
  pairs_comparable (user_sessions self) = true
  /\ forallb readable (events self) = true.
Proof.
  unfold detect_anomalies.
  pose proof (time_gaps_frame self) as H1. cbv zeta in H1.
  destruct (_detect_time_gaps fmt1 self) as [r1|]; [|discriminate].
  destruct H1 as (Hp & E1 & _).
  pose proof (error_patterns_frame r1) as H2.
  destruct (_detect_error_patterns r1) as [r2|]; [|discriminate].
  destruct H2 as (Hr & _). intros _. split; [exact Hp|]. now rewrite <- E1.
Qed.

Lemma detect_anomalies_frame (self : Analyzer) :
  pairs_comparable (user_sessions self) = true ->
  durations_comparable (user_sessions self) = true ->
  forallb readable (events self) = true ->
  exists result,
    detect_anomalies fmt1 fsqrt self = Some result
    /\ events result = events self
    /\ user_sessions result = user_sessions self
    /\ flows result = flows self
    /\ map title (anomalies result)
       = (map title (anomalies self) ++ anomaly_titles fsqrt self)%list.
Proof.
  intros Hp Hd Hr. unfold detect_anomalies, anomaly_titles.
  pose proof (time_gaps_frame self) as H1. cbv zeta in H1.
  destruct (_detect_time_gaps fmt1 self) as [r1|]; [|congruence].
  destruct H1 as (_ & E1 & U1 & F1 & T1).
  pose proof (error_patterns_frame r1) as H2.
  destruct (_detect_error_patterns r1) as [r2|];
    [|rewrite E1, Hr in H2; discriminate].
  destruct H2 as (_ & E2 & U2 & F2 & T2).
  unfold _detect_unusual_behaviors. rewrite U2, U1.
  destruct (unusual_sessions_of_spec
              (threshold_of fsqrt (session_lengths_of (user_sessions self)))
              (user_sessions self) Hd) as (found & Hf & HF).
  assert (Hempty : session_lengths_of (user_sessions self) = [] ->
                   flagged_sessions
                     (threshold_of fsqrt (session_lengths_of (user_sessions self)))
                     (user_sessions self) = []).
  { unfold session_lengths_of, flagged_sessions. intros H.
    apply map_eq_nil in H. now rewrite H. }
  destruct (session_lengths_of (user_sessions self)) as [|n lens] eqn:El.
  - exists r2. split; [reflexivity|]. rewrite (Hempty eq_refl), app_nil_r.
    split; [congruence|]. split; [congruence|]. split; [congruence|].
    rewrite T2, T1, E1. now rewrite <- app_assoc.
  - rewrite Hf.
    destruct found as [|r found]; inversion HF as [|? ? ? ? _ _ Hx Hy]; subst.
    + exists r2. split; [reflexivity|]. rewrite app_nil_r.
      split; [congruence|]. split; [congruence|]. split; [congruence|].
      rewrite T2, T1, E1. now rewrite <- app_assoc.
    + eexists. split; [reflexivity|].
      cbn [events user_sessions flows anomalies].
      split; [congruence|]. split; [congruence|]. split; [congruence|].
      unfold Py.append. rewrite map_app, T2, T1, E1.
      cbn [map title]. now rewrite <- !app_assoc.
Qed.

Lemma forallb_false_exists {A} (p : A -> bool) (l : list A) :
  forallb p l = false -> exists x, In x l /\ p x = false.
Proof.
  induction l as [|x l IH]; [discriminate|]. cbn [forallb].
  destruct (p x) eqn:E.
  - intros H. destruct (IH H) as (y & Hy & Hp). exists y. split; [now right|].
    exact Hp.
  - intros _. exists x. split; [now left|exact E].
Qed.

(** X13: [analyze_flows] raises exactly when the checkout test raises on a
    session ([AttributeError]) or two adjacent timestamps of a session
    cannot be subtracted ([TypeError]).  Otherwise it leaves the events,
    the grouped structure and the anomalies as they are and appends, in
    this order, the successful-flow finding if a session is successful,
    the abandonment finding if a session is not, the entry-point finding
    always, the product finding if a product page was viewed, and the
    dwell-time finding if a dwell time was attributed. *)
Theorem analyze_flows_findings (self : Analyzer) :
  let us := user_sessions self in
  match analyze_flows fmt1 set_iter self with
  | None =>
      (exists s, In s (sessions_of us)
                 /\ _is_successful_checkout (snd s) = None)
      \/ pairs_comparable us = false
  | Some result =>
      (forall s, In s (sessions_of us) ->
                 _is_successful_checkout (snd s) <> None)
      /\ pairs_comparable us = true
      /\ events result = events self
      /\ user_sessions result = us
      /\ anomalies result = anomalies self
      /\ map title (flows result)
         = (map title (flows self) ++ flow_titles set_iter us)%list
  end.
Proof.
  cbv zeta. pose proof (analyze_flows_frame self) as H. cbv zeta in H.
  destruct (analyze_flows fmt1 set_iter self) as [result|].
  - destruct H as (Hc & H). split; [|exact H].
    intros s Hs. rewrite forallb_forall in Hc. specialize (Hc s Hs).
    unfold classifiable in Hc.
    now destruct (_is_successful_checkout (snd s)).
  - destruct H as [H|H]; [left|now right].
    apply forallb_false_exists in H as (s & Hs & Hc). exists s.
    split; [exact Hs|]. unfold classifiable in Hc.
    now destruct (_is_successful_checkout (snd s)).
Qed.

(** X14: when the timestamps that [detect_anomalies] subtracts can be
    subtracted and the [css] and [text] of every event are absent or
    strings, it returns, leaves the events, the grouped structure and the
    flow findings as they are, and appends, in this order, the long-gap
    finding if there is a gap, the error finding if an event has an error
    keyword, and the unusual-session finding if a session is flagged: at
    most one finding per detector. *)
Theorem detect_anomalies_findings (self : Analyzer) :
  pairs_comparable (user_sessions self) = true ->
  durations_comparable (user_sessions self) = true ->
  forallb readable (events self) = true ->
  exists result,
    detect_anomalies fmt1 fsqrt self = Some result
    /\ events result = events self
    /\ user_sessions result = user_sessions self
    /\ flows result = flows self
    /\ map title (anomalies result)
       = (map title (anomalies self) ++ anomaly_titles fsqrt self)%list.
Proof. exact (detect_anomalies_frame self). Qed.

End Findings.

(** Two events 400 seconds apart, the second with an error text. *)
Lemma detect_anomalies_findings_witness :
  let self :=
    process_events
      (loaded [plain_event "u" "s" "2024-01-01T09:00:00Z" "/home";
               mkEvent "u" "s" "2024-01-01T09:06:40Z" "/cart" Absent
                       (Present "Error 404: page not found")]) in
  pairs_comparable (user_sessions self) = true
  /\ durations_comparable (user_sessions self) = true
  /\ forallb readable (events self) = true
  /\ exists result,
       detect_anomalies (fun _ => "-") sqrt_milli self = Some result
       /\ events result = events self
       /\ user_sessions result = user_sessions self
       /\ flows result = flows self
       /\ map title (anomalies result)
          = (map title (anomalies self) ++ anomaly_titles sqrt_milli self)%list.
Proof.
  cbv zeta. split; [vm_compute; reflexivity|].
  split; [vm_compute; reflexivity|].
  split; [vm_compute; reflexivity|].
  apply detect_anomalies_findings; vm_compute; reflexivity.
Defined.

(** ** The whole analysis *)

Section WholeAnalysis.

Variable fmt1 : Q -> string.
Variable fsqrt : Q -> Q.
Variable set_iter : list string -> list string.

Lemma incomparable_trans (a b c : Event) :
  parse_time (event_time b) <> None ->
  incomparable a b = false -> incomparable b c = false ->
  incomparable a c = false.
Proof.
  unfold incomparable, DT.sub. intros Hb.
  destruct (parse_time (event_time a)) as [ta|]; [|reflexivity].
  destruct (parse_time (event_time b)) as [tb|]; [|now destruct Hb].
  destruct (parse_time (event_time c)) as [tc|]; [|reflexivity].
  destruct (DT.utcoffset ta), (DT.utcoffset tb), (DT.utcoffset tc);
    intros; congruence.
Qed.

Lemma session_comparable_first (first : Event) (rest : list Event) :
  Forall (fun e => parse_time (event_time e) <> None) (first :: rest) ->
  session_comparable (first :: rest) = true ->
  Forall (fun e => incomparable first e = false) (first :: rest).
Proof.
  revert first; induction rest as [|second rest IH]; intros first Hp Hc.
  - constructor; [apply incomparable_refl|constructor].
  - change (session_comparable (first :: second :: rest))
      with (negb (incomparable first second)
            && session_comparable (second :: rest)) in Hc.
    apply andb_true_iff in Hc as [H1 H2]. apply negb_true_iff in H1.
    inversion Hp as [|? ? Hf Hp']; subst.
    specialize (IH second Hp' H2).
    constructor; [apply incomparable_refl|].
    eapply Forall_impl; [|exact IH]. intros e He.
    inversion Hp' as [|? ? Hs _]; subst.
    now apply (incomparable_trans first second e).
Qed.

Lemma last_of_In {A} (l : list A) (x : A) : last_of l = Some x -> In x l.
Proof.
  unfold last_of. intros H.
  destruct l as [|a l]; [discriminate|].
  destruct (exists_last (l := map Some (a :: l))) as (l' & y & E);
    [discriminate|].
  rewrite E, last_last in H. subst y.
  assert (Hin : In (Some x) (map Some (a :: l))).
  { rewrite E. apply in_or_app. right. now left. }
  apply in_map_iff in Hin as (z & [= ->] & Hz). exact Hz.
Qed.

Lemma pairs_durations_comparable (us : Sessions) :
  Forall (fun e => parse_time (event_time e) <> None) (all_events us) ->
  pairs_comparable us = true -> durations_comparable us = true.
Proof.
  unfold all_events, pairs_comparable, durations_comparable.
  rewrite !forallb_forall. intros Hp Hc [[u s] evs] Hin. cbn [snd].
  destruct evs as [|first rest]; [reflexivity|].
  destruct (last_of (first :: rest)) as [last|] eqn:El; [|reflexivity].
  apply negb_true_iff.
  assert (Hall : Forall (fun e => incomparable first e = false)
                        (first :: rest)).
  { apply session_comparable_first; [|apply (Hc _ Hin)].
    apply Forall_forall. intros e He. rewrite Forall_forall in Hp.
    apply Hp. apply in_flat_map. exists (u, s, first :: rest). now split. }
  rewrite Forall_forall in Hall. apply Hall. now apply last_of_In.
Qed.

Lemma process_events_events_perm (evs : list Event) :
  Permutation (events (process_events (loaded evs))) evs.
Proof.
  unfold process_events, loaded. cbn [events].
  destruct evs as [|e evs]; [reflexivity|]. cbn [events].
  apply stable_sort_perm.
Qed.

Lemma unclassifiable_unreadable (evs : list Event) :
  classifiable evs = false -> exists e, In e evs /\ readable e = false.
Proof.
  unfold classifiable. pose proof (is_successful_checkout_spec evs) as H.
  destruct (_is_successful_checkout evs); [discriminate|]. intros _.
  destruct H as (l1 & e & l2 & -> & _ & Hr & _). exists e.
  split; [|exact Hr]. apply in_or_app. right. now left.
Qed.

(** X15: on the events that [load_data] keeps, the analysis between
    loading and rendering raises exactly when a session holds two adjacent
    events of which one timestamp has a UTC offset and the other has none
    ([TypeError]), or the [css] or the [text] of an event holds a value
    that is not a string ([AttributeError]); otherwise it returns with the
    sorted events, the grouped structure of [process_events], and the flow
    and anomaly findings in their fixed order. *)
Theorem run_analysis_outcome (records : list RawRecord) :
  let self := process_events (loaded (load_data records)) in
  let us := user_sessions self in
  match run_analysis fmt1 fsqrt set_iter (load_data records) with
  | None =>
      pairs_comparable us = false
      \/ exists e, In e (load_data records)
                   /\ (css e = NonString \/ text e = NonString)
  | Some result =>
      pairs_comparable us = true
      /\ (forall e, In e (load_data records) ->
                    css e <> NonString /\ text e <> NonString)
      /\ events result = events self
      /\ user_sessions result = us
      /\ map title (flows result) = flow_titles set_iter us
      /\ map title (anomalies result) = anomaly_titles fsqrt self
  end.
Proof.
  cbv zeta. unfold run_analysis.
  set (self := process_events (loaded (load_data records))).
  assert (Hflows : flows self = [] /\ anomalies self = []).
  { unfold self, process_events, loaded. cbn [events].
    now destruct (load_data records). }
  destruct Hflows as [Hf0 Ha0].
  assert (Hunread : forall e, In e (events self) -> readable e = false ->
                      exists e, In e (load_data records)
                                /\ (css e = NonString \/ text e = NonString)).
  { intros e He Hr. exists e. split; [|now apply readable_iff].
    apply (Permutation_in _ (process_events_events_perm _) He). }
  pose proof (analyze_flows_frame fmt1 set_iter self) as H1. cbv zeta in H1.
  destruct (analyze_flows fmt1 set_iter self) as [r1|].
  2:{ destruct H1 as [H1|H1]; [right|now left].
      apply forallb_false_exists in H1 as (s & Hs & Hc).
      apply unclassifiable_unreadable in Hc as (e & He & Hr).
      apply (Hunread e); [|exact Hr].
      apply (Permutation_in _
               (Permutation_sym (process_events_events_perm _))).
      apply (Permutation_in _ (process_events_perm _)).
      unfold all_events. apply in_flat_map. exists s. now split. }
  destruct H1 as (_ & Hp & E1 & U1 & A1 & T1).
  assert (Hd : durations_comparable (user_sessions self) = true).
  { apply pairs_durations_comparable; [|exact Hp].
    eapply Permutation_Forall;
      [symmetry; apply process_events_perm|apply load_data_parses]. }
  destruct (forallb readable (events self)) eqn:Hr.
  - destruct (detect_anomalies_frame fmt1 fsqrt r1)
      as (r2 & -> & E2 & U2 & F2 & T2);
      [now rewrite U1|now rewrite U1|now rewrite E1|].
    split; [exact Hp|]. split.
    { intros e He. rewrite forallb_forall in Hr.
      assert (Hre : readable e = true).
      { apply Hr.
        apply (Permutation_in _
                 (Permutation_sym (process_events_events_perm _)) He). }
      split; intros Hn;
        assert (readable e = false) by (apply readable_iff; auto);
        congruence. }
    split; [congruence|]. split; [congruence|]. split.
    + rewrite F2, T1, Hf0. reflexivity.
    + rewrite T2, A1, Ha0. unfold anomaly_titles. now rewrite U1, E1.
  - destruct (detect_anomalies fmt1 fsqrt r1) as [r2|] eqn:E2.
    + apply detect_anomalies_Some in E2 as [_ E2]. congruence.
    + right. apply forallb_false_exists in Hr as (e & He & Hre).
      now apply (Hunread e).
Qed.

End WholeAnalysis.

(** C6: the claim fails on a session that validation lets through.  Three
    records of one session: [/home] and, one minute later, [/cart], both
    with a [Z] timestamp, and then [/end] with a timestamp without UTC
    offset.  By the claim the 60 seconds of the first pair go to [/home]
    and the finding reports them; but the subtraction of the second pair
    raises [TypeError], which [except (ValueError, AttributeError)] does
    not catch, so [_analyze_page_activity] attributes and reports nothing,
    and the whole analysis raises. *)
Theorem page_activity_raises_on_mixed_offsets :
  let records :=
    [raw_event "u" "s" "2024-01-01T09:00:00Z" "/home";
     raw_event "u" "s" "2024-01-01T09:01:00Z" "/cart";
     raw_event "u" "s" "2024-01-01T09:02:00" "/end"] in
  let home := plain_event "u" "s" "2024-01-01T09:00:00Z" "/home" in
  let cart := plain_event "u" "s" "2024-01-01T09:01:00Z" "/cart" in
  let last := plain_event "u" "s" "2024-01-01T09:02:00" "/end" in
  let self := process_events (loaded (load_data records)) in
  sessions_of (user_sessions self) = [("u", "s", [home; cart; last])]
  /\ (exists d, delta_seconds home cart = Some d /\ (d == 60)%Q)
  /\ pair_duration cart last = None
  /\ (forall fmt1, _analyze_page_activity fmt1 self = None)
  /\ forall fmt1 fsqrt set_iter,
       run_analysis fmt1 fsqrt set_iter (load_data records) = None.
Proof.
  cbv zeta.
  split; [vm_compute; reflexivity|].
  split; [eexists; split; [vm_compute; reflexivity|reflexivity]|].
  split; [vm_compute; reflexivity|].
  split; [intros fmt1; vm_compute; reflexivity|].
  intros fmt1 fsqrt set_iter. unfold run_analysis.
  pose proof (analyze_flows_frame fmt1 set_iter
                (process_events
                   (loaded
                      (load_data
                         [raw_event "u" "s" "2024-01-01T09:00:00Z" "/home";
                          raw_event "u" "s" "2024-01-01T09:01:00Z" "/cart";
                          raw_event "u" "s" "2024-01-01T09:02:00" "/end"]))))
    as H.
  cbv zeta in H.
  destruct (analyze_flows fmt1 set_iter _) as [r|]; [|reflexivity].
  destruct H as (_ & H & _). vm_compute in H. discriminate H.
Qed.

(** ** Rendering *)

Section RenderingFacts.

Variable fmt1 : Q -> string.
Variable fsqrt : Q -> Q.

Lemma concat_raise_app {A} (f : A -> option string) (l1 l2 : list A) :
  concat_raise f (l1 ++ l2)
  = match concat_raise f l1, concat_raise f l2 with
    | Some h1, Some h2 => Some (h1 ++ h2)
    | _, _ => None
    end.
Proof.
  induction l1 as [|x l1 IH]; cbn [app concat_raise].
  - now destruct (concat_raise f l2).
  - destruct (f x) as [piece|]; [|reflexivity]. rewrite IH.
    destruct (concat_raise f l1) as [h1|]; [|reflexivity].
    destruct (concat_raise f l2) as [h2|]; [|reflexivity].
    f_equal. clear. induction piece as [|c piece IHp]; [reflexivity|].
    simpl. now rewrite IHp.
Qed.

Lemma concat_raise_total {A} (f : A -> option string) (l : list A) :
  Forall (fun x => f x <> None) l -> concat_raise f l <> None.
Proof.
  induction 1 as [|x l Hx Hl IH]; cbn [concat_raise]; [discriminate|].
  destruct (f x); [|contradiction].
  destruct (concat_raise f l); [discriminate|contradiction].
Qed.

Lemma unlisted_collection_empty (key : string) (value : Value) :
  unlisted_collection key value = true ->
  format_anomaly_detail fmt1 key value = Some "".
Proof.
  unfold unlisted_collection, format_anomaly_detail. intros H.
  destruct (key =? "page_specific_issues") eqn:E1;
  destruct (key =? "page_specific_errors") eqn:E2;
  destruct (key =? "examples") eqn:E3;
  destruct (key =? "most_problematic_pages") eqn:E4;
  destruct (key =? "error_pages") eqn:E5;
  destruct value; cbn in H |- *; try discriminate H; reflexivity.
Qed.

(** X16: a list kept under another key than [examples] and
    [most_problematic_pages], or a dictionary under another key than
    [page_specific_issues] and [page_specific_errors], leaves no trace in
    the rendered details: the flagged sessions, kept under
    [unusual_sessions], are never rendered. *)
Theorem unlisted_collections_not_rendered
    (before after : dict Value) (key : string) (value : Value) :
  unlisted_collection key value = true ->
  _format_anomaly_details fmt1 (before ++ (key, value) :: after)%list
  = _format_anomaly_details fmt1 (before ++ after)%list.
Proof.
  intros H. unfold _format_anomaly_details.
  rewrite !concat_raise_app. cbn [concat_raise fst snd].
  rewrite (unlisted_collection_empty key value H).
  destruct (concat_raise _ before); [|reflexivity].
  now destruct (concat_raise _ after).
Qed.

Lemma anomaly_item_starts_with_newline (a : Finding) (h : string) :
  anomaly_item fmt1 a = Some h -> exists rest, h = String "010"%char rest.
Proof.
  unfold anomaly_item.
  destruct (_format_anomaly_details fmt1 (details a)); [|discriminate].
  intros [= <-]. eexists. reflexivity.
Qed.

(** X17: [_generate_anomalies_html] gives the text "No anomalies detected"
    exactly when there is no anomaly finding. *)
Theorem no_anomalies_message_iff_empty (self : Analyzer) :
  _generate_anomalies_html fmt1 self = Some "<p>No anomalies detected.</p>"
  <-> anomalies self = [].
Proof.
  unfold _generate_anomalies_html. split.
  - destruct (anomalies self) as [|a l]; [reflexivity|].
    cbn [concat_raise]. intros H.
    destruct (anomaly_item fmt1 a) as [h|] eqn:E; [|discriminate].
    destruct (anomaly_item_starts_with_newline a h E) as [rest ->].
    destruct (concat_raise (anomaly_item fmt1) l); discriminate.
  - now intros ->.
Qed.

Lemma renders_details (a : Finding) :
  _format_anomaly_details fmt1 (details a) <> None -> can_render fmt1 a.
Proof.
  unfold can_render, anomaly_item.
  now destruct (_format_anomaly_details fmt1 (details a)).
Qed.

Lemma renders_append (l : list Finding) (a : Finding) :
  Forall (can_render fmt1) l -> can_render fmt1 a ->
  Forall (can_render fmt1) (Py.append l a).
Proof.
  intros Hl Ha. unfold Py.append. apply Forall_app. split; [exact Hl|].
  now repeat constructor.
Qed.

Lemma time_gaps_render (self result : Analyzer) :
  _detect_time_gaps fmt1 self = Some result ->
  Forall (can_render fmt1) (anomalies self) -> Forall (can_render fmt1) (anomalies result).
Proof.
  unfold _detect_time_gaps.
  destruct (long_gaps_of (user_sessions self)) as [[|g gaps]|];
    [now intros [= <-]| |discriminate].
  intros [= <-] H. cbn [anomalies]. apply renders_append; [exact H|].
  apply renders_details. cbn [details]. unfold _format_anomaly_details.
  cbn [concat_raise fst snd].
  match goal with
  | |- context [GapsByPage ?d] => set (page_gaps := d)
  end.
  assert (Hp : concat_raise (issues_of_page fmt1) page_gaps <> None).
  { apply concat_raise_total. apply Forall_forall. intros x _. discriminate. }
  unfold format_anomaly_detail.
  cbn [String.eqb Ascii.eqb Bool.eqb andb orb negb is_dict is_list].
  destruct (concat_raise (issues_of_page fmt1) page_gaps); [|contradiction].
  cbn [option_map]. discriminate.
Qed.

Lemma error_patterns_render (self result : Analyzer) :
  _detect_error_patterns self = Some result ->
  Forall (can_render fmt1) (anomalies self) ->
  Forall (can_render fmt1) (anomalies result).
Proof.
  unfold _detect_error_patterns. rewrite error_scan_spec.
  destruct (forallb readable (events self)); [|discriminate].
  cbn [app].
  destruct (error_events_of (events self)) as [|i errs];
    [now intros [= <-]|].
  intros [= <-] H.
  cbn [anomalies]. apply renders_append; [exact H|].
  apply renders_details. cbn [details]. unfold _format_anomaly_details.
  cbn [concat_raise fst snd].
  match goal with
  | |- context [ErrorsByPage ?d] => set (page_errors := d)
  end.
  assert (Hp : concat_raise errors_of_page page_errors <> None).
  { apply concat_raise_total. apply Forall_forall. intros x _. discriminate. }
  unfold format_anomaly_detail.
  cbn [String.eqb Ascii.eqb Bool.eqb andb orb negb is_dict is_list].
  destruct (concat_raise errors_of_page page_errors); [|contradiction].
  cbn [option_map]. discriminate.
Qed.

Lemma unusual_behaviors_render (self result : Analyzer) :
  _detect_unusual_behaviors fmt1 fsqrt self = Some result ->
  Forall (can_render fmt1) (anomalies self) -> Forall (can_render fmt1) (anomalies result).
Proof.
  unfold _detect_unusual_behaviors.
  destruct (session_lengths_of (user_sessions self)); [now intros [= <-]|].
  destruct (unusual_sessions_of _ (user_sessions self)) as [[|r found]|];
    [now intros [= <-]| |discriminate].
  intros [= <-] H. cbn [anomalies]. apply renders_append; [exact H|].
  apply renders_details. cbn [details]. unfold _format_anomaly_details.
  cbn [concat_raise fst snd]. unfold format_anomaly_detail.
  cbn [String.eqb Ascii.eqb Bool.eqb andb orb negb is_dict is_list].
  discriminate.
Qed.

(** X18: the findings that [detect_anomalies] appends to an empty list can
    always be rendered: whenever [detect_anomalies] returns,
    [_generate_anomalies_html] does not raise on its result; and it
    returns when the timestamps it subtracts can be subtracted and the
    [css] and [text] of every event are absent or strings. *)
Theorem detected_anomalies_render (self : Analyzer) :
  anomalies self = [] ->
  (forall result,
      detect_anomalies fmt1 fsqrt self = Some result ->
      exists html, _generate_anomalies_html fmt1 result = Some html)
  /\ (pairs_comparable (user_sessions self) = true ->
      durations_comparable (user_sessions self) = true ->
      forallb readable (events self) = true ->
      exists result html,
        detect_anomalies fmt1 fsqrt self = Some result
        /\ _generate_anomalies_html fmt1 result = Some html).
Proof.
  intros Ha.
  assert (Hrender : forall result,
             detect_anomalies fmt1 fsqrt self = Some result ->
             exists html, _generate_anomalies_html fmt1 result = Some html).
  { intros result Hr.
    assert (Hall : Forall (can_render fmt1) (anomalies result)).
    { unfold detect_anomalies in Hr.
      destruct (_detect_time_gaps fmt1 self) as [r1|] eqn:E1; [|discriminate].
      destruct (_detect_error_patterns r1) as [r2|] eqn:E2; [|discriminate].
      apply (unusual_behaviors_render _ _ Hr).
      apply (error_patterns_render _ _ E2).
      apply (time_gaps_render _ _ E1). rewrite Ha. constructor. }
    unfold _generate_anomalies_html.
    destruct (anomalies result) as [|a l] eqn:E; [now eexists|].
    pose proof (concat_raise_total (anomaly_item fmt1) (a :: l) Hall) as Hc.
    destruct (concat_raise (anomaly_item fmt1) (a :: l)) as [html|];
      [|contradiction].
    now exists html. }
  split; [exact Hrender|].
  intros Hp Hd Hr.
  destruct (detect_anomalies_frame fmt1 fsqrt self Hp Hd Hr)
    as (result & Hres & _).
  destruct (Hrender result Hres) as [html Hh].
  exists result, html. now split.
Qed.

Variable set_iter : list string -> list string.
Variable format_flow_details : dict Value -> option string.

(** X19: after [analyze_flows] the list of flows is never empty, the
    entry-point finding being appended unconditionally, so that
    [_generate_flows_html] never gives the text "No significant flows
    detected", not even for an input without events. *)
Theorem no_flows_message_unreachable (self result : Analyzer) :
  analyze_flows fmt1 set_iter self = Some result ->
  flows result <> []
  /\ _generate_flows_html format_flow_details result
     <> Some "<p>No significant flows detected.</p>".
Proof.
  intros H. pose proof (analyze_flows_frame fmt1 set_iter self) as F.
  cbv zeta in F. rewrite H in F. destruct F as (_ & _ & _ & _ & _ & T).
  assert (Hne : flows result <> []).
  { intros E. rewrite E in T. cbn [map] in T. unfold flow_titles in T.
    symmetry in T. apply app_eq_nil in T as [_ T].
    apply app_eq_nil in T as [_ T]. apply app_eq_nil in T as [_ T].
    discriminate T. }
  split; [exact Hne|].
  unfold _generate_flows_html.
  destruct (flows result) as [|f l]; [now destruct Hne|].
  cbn [concat_raise]. unfold flow_item at 1.
  destruct (format_flow_details (details f)); [|discriminate].
  destruct (concat_raise (flow_item format_flow_details) l); discriminate.
Qed.

End RenderingFacts.

(** The details of the unusual-session finding with one flagged session. *)
Lemma unlisted_collections_not_rendered_witness :
  let flagged := [mkUnusual "u" "s" 10 9%Q] in
  unlisted_collection "unusual_sessions" (UnusualList flagged) = true
  /\ _format_anomaly_details (fun _ => "-")
       ([("average_session_length", Str "1.9 events");
         ("threshold", Str "7.6 events")]
        ++ ("unusual_sessions", UnusualList flagged) :: [])%list
     = _format_anomaly_details (fun _ => "-")
         ([("average_session_length", Str "1.9 events");
           ("threshold", Str "7.6 events")] ++ [])%list.
Proof.
  cbv zeta. split; [reflexivity|].
  apply unlisted_collections_not_rendered. reflexivity.
Defined.

(** Two events 400 seconds apart, the second with an error text. *)
Lemma detected_anomalies_render_witness :
  let self :=
    process_events
      (loaded [plain_event "u" "s" "2024-01-01T09:00:00Z" "/home";
               mkEvent "u" "s" "2024-01-01T09:06:40Z" "/cart" Absent
                       (Present "Error 404: page not found")]) in
  anomalies self = []
  /\ (forall result,
         detect_anomalies (fun _ => "6.7") sqrt_milli self = Some result ->
         exists html,
           _generate_anomalies_html (fun _ => "6.7") result = Some html)
  /\ (pairs_comparable (user_sessions self) = true ->
      durations_comparable (user_sessions self) = true ->
      forallb readable (events self) = true ->
      exists result html,
        detect_anomalies (fun _ => "6.7") sqrt_milli self = Some result
        /\ _generate_anomalies_html (fun _ => "6.7") result = Some html).
Proof.
  cbv zeta. split; [reflexivity|].
  apply detected_anomalies_render. reflexivity.
Defined.

(** The analysis of an input without events. *)
Lemma no_flows_message_unreachable_witness :
  let result :=
    mkAnalyzer [] []
      [mkFinding "User Entry Points"
         "Most common starting pages for user sessions" None
         [("top_entry_points", Counts [])]] [] in
  analyze_flows (fun _ => "-") (nodup string_dec) (loaded []) = Some result
  /\ flows result <> []
  /\ _generate_flows_html (fun _ => Some "") result
     <> Some "<p>No significant flows detected.</p>".
Proof.
  cbv zeta. split; [reflexivity|].
  apply (no_flows_message_unreachable (fun _ => "-") (nodup string_dec)
           (fun _ => Some "") (loaded [])).
  reflexivity.
Defined.

(** ** Timestamps with a trailing Z *)

Section TrailingZ.

Lemma append_assoc (a b c : string) : (a ++ b) ++ c = a ++ (b ++ c).
Proof. induction a as [|x a IH]; [reflexivity|]. simpl. now rewrite IH. Qed.

Lemma replace_app (a : ascii) (b s t : string) :
  Py.replace a b (s ++ t) = Py.replace a b s ++ Py.replace a b t.
Proof.
  induction s as [|c s IH]; [reflexivity|].
  cbn [String.append Py.replace]. rewrite IH.
  destruct (Ascii.eqb c a); [now rewrite append_assoc|reflexivity].
Qed.

Lemma replace_absent (a : ascii) (b s : string) :
  Py.contains (String a "") s = false -> Py.replace a b s = s.
Proof.
  induction s as [|c s IH]; [reflexivity|].
  cbn [Py.contains Py.startswith Py.replace]. intros H.
  apply orb_false_iff in H as [H1 H2].
  rewrite andb_true_r, Ascii.eqb_sym in H1. rewrite H1. now rewrite IH.
Qed.

(** X20: a timestamp that ends in the letter Z is read as the same
    timestamp with the UTC offset [+00:00]: the two texts parse to the same
    result, and records that differ only in this are accepted or rejected
    together. *)
Theorem trailing_Z_is_utc (prefix u s p : string) :
  Py.contains "Z" prefix = false ->
  parse_time (prefix ++ "Z") = parse_time (prefix ++ "+00:00")
  /\ _is_valid_event (raw_event u s (prefix ++ "Z") p)
     = _is_valid_event (raw_event u s (prefix ++ "+00:00") p).
Proof.
  intros H.
  assert (E : parse_time (prefix ++ "Z") = parse_time (prefix ++ "+00:00")).
  { unfold parse_time. rewrite !replace_app.
    rewrite (replace_absent "Z"%char "+00:00" prefix H). reflexivity. }
  split; [exact E|].
  unfold _is_valid_event, raw_event.
  cbn [raw_user_id raw_session_id raw_event_time raw_path]. now rewrite E.
Qed.

End TrailingZ.

(** A timestamp of the first of January 2024. *)
Lemma trailing_Z_is_utc_witness :
  Py.contains "Z" "2024-01-01T09:00:00" = false
  /\ parse_time ("2024-01-01T09:00:00" ++ "Z")
     = parse_time ("2024-01-01T09:00:00" ++ "+00:00")
  /\ _is_valid_event (raw_event "u" "s" ("2024-01-01T09:00:00" ++ "Z") "/home")
     = _is_valid_event
         (raw_event "u" "s" ("2024-01-01T09:00:00" ++ "+00:00") "/home").
Proof.
  split; [reflexivity|].
  apply trailing_Z_is_utc. reflexivity.
Defined.

(** ** Flagged sessions and the size of the rankings *)

Section FlaggedAndRanked.

Variable fsqrt : Q -> Q.

Lemma Qsum_step_nonneg (l : list Q) (a : Q) :
  (0 <= a)%Q -> Forall (fun x => 0 <= x)%Q l ->
  (0 <= fold_left Qplus l a)%Q.
Proof.
  revert a; induction l as [|x l IH]; intros a Ha Hl; [exact Ha|].
  inversion Hl; subst. cbn [fold_left]. apply IH; [lra|assumption].
Qed.

Lemma mean_nonneg (lens : list nat) : (0 <= mean (map Q_of_nat lens))%Q.
Proof.
  unfold mean, Qdiv. apply Qmult_le_0_compat.
  - unfold Qsum. apply Qsum_step_nonneg; [lra|].
    apply Forall_forall. intros x Hx.
    apply in_map_iff in Hx as (n & <- & _). apply Q_of_nat_nonneg.
  - apply Qinv_le_0_compat, Q_of_nat_nonneg.
Qed.

(** X21: as long as the square root taken by the standard deviation is
    not negative, every flagged session has strictly more events than the
    mean session length. *)
Theorem flagged_sessions_above_mean (us : Sessions) :
  (forall q, 0 <= fsqrt q)%Q ->
  Forall (fun s =>
            (mean (map Q_of_nat (session_lengths_of us))
             < Q_of_nat (List.length (snd s)))%Q)
         (flagged_sessions (threshold_of fsqrt (session_lengths_of us)) us).
Proof.
  intros Hs. apply Forall_forall. intros s Hin.
  unfold flagged_sessions in Hin. apply filter_In in Hin as [_ Hin].
  apply negb_true_iff in Hin.
  assert (Hlt : (threshold_of fsqrt (session_lengths_of us)
                 < Q_of_nat (List.length (snd s)))%Q).
  { destruct (Qlt_le_dec (threshold_of fsqrt (session_lengths_of us))
                         (Q_of_nat (List.length (snd s)))) as [H|H];
      [exact H|].
    apply Qle_bool_iff in H. congruence. }
  eapply Qle_lt_trans; [|exact Hlt].
  pose proof (mean_nonneg (session_lengths_of us)) as Hm.
  unfold threshold_of.
  destruct (1 <? List.length (session_lengths_of us))%nat.
  - pose proof (Hs (variance (map Q_of_nat (session_lengths_of us)))). lra.
  - lra.
Qed.

Lemma Counter_length (l : list string) :
  List.length (Counter l) = List.length (nodup string_dec l).
Proof.
  transitivity (List.length (keys (Counter l)));
    [unfold keys; now rewrite length_map|].
  apply Permutation_length. apply NoDup_Permutation.
  - apply Counter_NoDup.
  - apply NoDup_nodup.
  - intros k. rewrite keys_Counter, first_occurrences_In, nodup_In.
    reflexivity.
Qed.

(** X22: a ranking of the [n] most common elements of a list has as many
    entries as the list has distinct elements, but at most [n], and lists
    no element twice. *)
Theorem most_common_size (n : nat) (l : list string) :
  List.length (most_common n (Counter l))
  = Nat.min n (List.length (nodup string_dec l))
  /\ NoDup (map fst (most_common n (Counter l))).
Proof.
  unfold most_common. split.
  - now rewrite length_firstn, stable_sort_length, Counter_length.
  - rewrite <- firstn_map.
    apply (NoDup_app_remove_r _
             (skipn n (map fst (stable_sort
                                  (fun a b : string * nat =>
                                     (snd b <=? snd a)%nat) (Counter l))))).
    rewrite firstn_skipn.
    apply (Permutation_NoDup
             (Permutation_sym
                (Permutation_map fst
                   (stable_sort_perm
                      (fun a b : string * nat => (snd b <=? snd a)%nat)
                      (Counter l))))).
    apply Counter_NoDup.
Qed.

End FlaggedAndRanked.

(** Nine sessions of one event and one session of ten events. *)
Lemma flagged_sessions_above_mean_witness :
  let visit u :=
    plain_event (String (ascii_of_nat (65 + u)) "") "s"
                "2024-01-01T09:00:00Z" "/home" in
  let click m :=
    plain_event "busy" "s"
                ("2024-01-01T10:0" ++ String (ascii_of_nat (48 + m)) ":00Z")
                "/cart" in
  let us :=
    user_sessions
      (process_events (loaded (map visit (seq 0 9) ++ map click (seq 0 10)))) in
  (forall q, 0 <= sqrt_milli q)%Q
  /\ Forall (fun s =>
               (mean (map Q_of_nat (session_lengths_of us))
                < Q_of_nat (List.length (snd s)))%Q)
            (flagged_sessions
               (threshold_of sqrt_milli (session_lengths_of us)) us).
Proof.
  cbv zeta.
  assert (H : forall q, (0 <= sqrt_milli q)%Q).
  { intros q. unfold sqrt_milli, Qle. simpl.
    pose proof (Z.sqrt_nonneg (Qnum q * 1000000 / Z.pos (Qden q))). lia. }
  split; [exact H|].
  exact (flagged_sessions_above_mean sqrt_milli _ H).
Defined.

(** ** The lists stored in the flow findings *)

Section ReportedLists.

Variable fmt1 : Q -> string.
Variable set_iter : list string -> list string.

Lemma find_absent {A} (p : A -> bool) (l : list A) :
  (forall x, In x l -> p x = false) -> find p l = None.
Proof.
  induction l as [|x l IH]; intros H; [reflexivity|].
  cbn [find]. rewrite (H x (or_introl eq_refl)).
  apply IH. intros y Hy. apply H. now right.
Qed.

Lemma reported_absent (t key : string) (l : list Finding) :
  (forall f, In f l -> title f <> t) -> reported t key l = None.
Proof.
  intros H. unfold reported. rewrite find_absent; [reflexivity|].
  intros f Hf. apply String.eqb_neq. now apply H.
Qed.













End ReportedLists.

(** ** The top-N lists *)

Section TopLists.

Variable fmt1 : Q -> string.
Variable set_iter : list string -> list string.


Lemma most_common_NoDup (n : nat) (c : dict nat) :
  NoDup (keys c) -> NoDup (map fst (most_common n c)).
Proof.
  intros Hnd. unfold most_common. rewrite <- firstn_map.
  apply (NoDup_app_remove_r _
           (skipn n (map fst (stable_sort
                                (fun a b : string * nat =>
                                   (snd b <=? snd a)%nat) c)))).
  rewrite firstn_skipn.
  apply (Permutation_NoDup
           (Permutation_sym
              (Permutation_map fst
                 (stable_sort_perm
                    (fun a b : string * nat => (snd b <=? snd a)%nat) c)))).
  exact Hnd.
Qed.




(** X9: whatever the order in which a session's set of products is
    iterated, the counter holds for every product the number of sessions
    that view it at least once; [_analyze_product_insights] appends
    nothing when no product page is viewed, and otherwise one finding that
    stores under [unique_products] the number of distinct products viewed
    and under [top_products] at most ten distinct products, each with the
    number of sessions that view it. *)
Theorem product_counts_count_sessions (self : Analyzer) :
  valid_set_iter set_iter ->
  product_counts_report set_iter self (_analyze_product_insights set_iter self).
Proof.
  intros Hv.
  destruct (product_counter_spec set_iter (user_sessions self) Hv)
    as (Hget & Hlen & Hcounts).
  split; [exact Hget|].
  unfold _analyze_product_insights.
  destruct (product_sessions_of set_iter (user_sessions self))
    as [|kv ps] eqn:Eps.
  - destruct (product_views (user_sessions self)) as [|p views];
      [reflexivity|].
    cbn [List.length] in Hlen. symmetry in Hlen.
    apply length_zero_iff_nil in Hlen.
    assert (Hin : In p (nodup string_dec (p :: views)))
      by (apply nodup_In; now left).
    rewrite Hlen in Hin. destruct Hin.
  - destruct (product_views (user_sessions self)) as [|p views] eqn:Ev.
    + cbn in Hlen. discriminate Hlen.
    + eexists. eexists. split; [reflexivity|].
      cbn [title details dict_get]. cbn [String.eqb Ascii.eqb Bool.eqb].
      split; [reflexivity|]. split; [now rewrite Hlen|].
      split; [reflexivity|].
      rewrite <- Eps in *. split; [|split].
      * unfold most_common.
        now rewrite length_firstn, stable_sort_length, Hlen.
      * apply most_common_NoDup. rewrite product_sessions_Counter.
        apply Counter_NoDup.
      * apply Hcounts.
Qed.

(** X25: the three outcomes of [_is_successful_checkout]: it returns
    [True] exactly when the session holds a qualifying [/checkout] event
    and the [css] and [text] of every earlier [/checkout] event are absent
    or strings; it raises ([AttributeError]) exactly when the [css] or the
    [text] of a [/checkout] event is not a string and no earlier event
    qualifies; and it returns [False] otherwise, when every [/checkout]
    event can be read and none qualifies. *)
Theorem is_successful_checkout_outcome (evs : list Event) :
  match _is_successful_checkout evs with
  | Some true =>
      exists l1 e l2,
        evs = (l1 ++ e :: l2)%list /\ qualifying_checkout e
        /\ forall e', In e' l1 -> path e' = "/checkout" ->
                      css e' <> NonString /\ text e' <> NonString
  | Some false =>
      (forall e, In e evs -> path e = "/checkout" ->
                 css e <> NonString /\ text e <> NonString)
      /\ forall e, In e evs -> ~ qualifying_checkout e
  | None =>
      exists l1 e l2,
        evs = (l1 ++ e :: l2)%list /\ path e = "/checkout"
        /\ (css e = NonString \/ text e = NonString)
        /\ forall e', In e' l1 -> ~ qualifying_checkout e'
  end.
Proof.
  assert (Hr : forall e, readable e = true ->
                         css e <> NonString /\ text e <> NonString).
  { intros e He. split; intros Hn;
      assert (readable e = false) by (apply readable_iff; auto); congruence. }
  pose proof (is_successful_checkout_spec evs) as H.
  destruct (_is_successful_checkout evs) as [[|]|].
  - destruct H as (l1 & e & l2 & E & Hq & Hl).
    exists l1, e, l2. split; [exact E|]. split; [exact Hq|].
    intros e' Hin Hp. apply Hr. now apply Hl.
  - destruct H as [Hl Hn]. split; [|exact Hn].
    intros e Hin Hp. apply Hr. now apply Hl.
  - destruct H as (l1 & e & l2 & E & Hp & Hu & Hn).
    exists l1, e, l2. split; [exact E|]. split; [exact Hp|].
    split; [now apply readable_iff|exact Hn].
Qed.

End TopLists.




(** One session that views two products, under a set that iterates in
    insertion order. *)
Lemma product_counts_count_sessions_witness :
  let self :=
    process_events
      (loaded [plain_event "u" "s" "2024-01-01T09:00:00Z" "/products/1";
               plain_event "u" "s" "2024-01-01T09:01:00Z" "/products/2"]) in
  valid_set_iter (nodup string_dec)
  /\ product_counts_report (nodup string_dec) self
       (_analyze_product_insights (nodup string_dec) self).
Proof.
  assert (H : valid_set_iter (nodup string_dec)) by (intros l; reflexivity).
  cbv zeta. split; [exact H|].
  apply product_counts_count_sessions. exact H.
Defined.
